(** * mygym-backend: the points ledger and the QR session protocol

  A shallow embedding of the parts of the backend that move points and
  issue or verify gym QR codes:

  - [models/Transaction.js]   the ledger ([createTransaction])
  - [models/User.js], [models/Gym.js]   the stored documents
  - [utils/qrGenerator.js]    [generateGymQRCode], [verifyQRCode]
  - [controllers/qrController.js]    [generateQRCode], [scanQRCode],
    [getQRStatus]
  - [controllers/userController.js]  [updateUser], [deleteUser],
    [addPoints], [getUserById], [getUserPoints], [getUsersByGym]
  - [controllers/transactionController.js]  [createTransaction]
  - [middleware/auth.js], [middleware/roleCheck.js], [config/roles.js]
    [restrictTo], [hasRole], [hasPermission], [canManageUser]

  The files are named as the modules [require] them.

  Conventions.  A JavaScript [Number] is a rational ([Q], kept reduced).
  That is the server's arithmetic for the sums and differences of
  integers up to [Number.MAX_SAFE_INTEGER]; beyond those the server
  rounds, and what is proved of a sum or a difference is stated for
  them.  A [Date] is its epoch value in milliseconds ([Z]).  A MongoDB
  collection is a list of documents searched by [_id].  An [await]ed
  storage call that may reject takes its outcome from an explicit fault
  record. *)

From Stdlib Require Import ZArith QArith Qreduction List String Ascii Bool Lia.
Import ListNotations.

Local Open Scope string_scope.

(** ** JavaScript values, as far as request bodies and parsed JSON go

    [undefined], [null], booleans, numbers, strings and objects; arrays
    are not represented. *)

Module Js.

#[local] Set Warnings "-register-all".

Inductive jsval : Type :=
| JUndefined
| JNull
| JBool (b : bool)
| JNum (n : Q)
| JStr (s : string)
| JObj (fields : list (string * jsval)).

(** [!!v] *)
Definition truthy (v : jsval) : bool :=
  match v with
  | JUndefined | JNull => false
  | JBool b => b
  | JNum n => negb (Qeq_bool n 0)
  | JStr s => negb (s =? "")
  | JObj _ => true
  end.

Fixpoint lookup (k : string) (fs : list (string * jsval)) : jsval :=
  match fs with
  | [] => JUndefined
  | (k', v) :: fs' => if k' =? k then v else lookup k fs'
  end.

(** [v.k] for a [v] that is neither [null] nor [undefined]: a missing
    property, and any property of a primitive, reads as [undefined]. *)
Definition prop (v : jsval) (k : string) : jsval :=
  match v with
  | JObj fs => lookup k fs
  | _ => JUndefined
  end.

(** [a === b].  Two objects are never the same reference here: every
    object in the model is freshly parsed or freshly built. *)
Definition strict_eq (a b : jsval) : bool :=
  match a, b with
  | JUndefined, JUndefined => true
  | JNull, JNull => true
  | JBool x, JBool y => Bool.eqb x y
  | JNum x, JNum y => Qeq_bool x y
  | JStr x, JStr y => x =? y
  | _, _ => false
  end.

(** The integers up to [Number.MAX_SAFE_INTEGER] in magnitude.  The sum
    and the difference of two of them is computed exactly by the server's
    arithmetic when it is one of them again. *)
Definition safe (z : Z) : Prop := (Z.abs z <= 9007199254740991)%Z.

(** A string field that may be unset. *)
Definition of_opt_string (o : option string) : jsval :=
  match o with
  | Some s => JStr s
  | None => JUndefined
  end.

End Js.
Import Js.

(** ** Document identifiers

  An [ObjectId] is carried as its [toString()]: 24 lower-case hexadecimal
  digits.  [findById] casts its argument before it queries, and
  [middleware/errorHandler.js] answers the [CastError] of an argument that
  cannot be read.  The cast reads a 24-digit hexadecimal string without
  regard to the case of its digits; [cast] is that reading.  The other
  values the driver accepts are not told apart from unreadable ones here:
  a string of 12 bytes, an object that carries an [_id], and, in a lookup,
  an object of query operators, which the driver takes as a condition on
  the identifier. *)

Module ObjectId.

Definition t := string.

Definition toString (o : t) : string := o.

Definition is_digit (c : ascii) : bool :=
  let n := N_of_ascii c in ((48 <=? n) && (n <=? 57))%N.
Definition is_lower_af (c : ascii) : bool :=
  let n := N_of_ascii c in ((97 <=? n) && (n <=? 102))%N.
Definition is_upper_af (c : ascii) : bool :=
  let n := N_of_ascii c in ((65 <=? n) && (n <=? 70))%N.

Definition is_hex (c : ascii) : bool :=
  is_digit c || is_lower_af c || is_upper_af c.
Definition is_lower_hex (c : ascii) : bool :=
  is_digit c || is_lower_af c.

Definition lower (c : ascii) : ascii :=
  if is_upper_af c then ascii_of_N (N_of_ascii c + 32) else c.

Fixpoint all (p : ascii -> bool) (s : string) : bool :=
  match s with
  | EmptyString => true
  | String c s' => p c && all p s'
  end.

Fixpoint map (f : ascii -> ascii) (s : string) : string :=
  match s with
  | EmptyString => EmptyString
  | String c s' => String (f c) (map f s')
  end.

(** The 24-digit hexadecimal form, in either case. *)
Definition is_hex24 (s : string) : bool :=
  (String.length s =? 24)%nat && all is_hex s.

(** The form [toString] prints. *)
Definition canonical (s : string) : bool :=
  (String.length s =? 24)%nat && all is_lower_hex s.

Inductive cast_result : Type :=
| CastNone             (* null or undefined: the query matches nothing *)
| CastOk (o : t)
| CastError.           (* the handler's [catch] passes a CastError on *)

Definition cast (v : jsval) : cast_result :=
  match v with
  | JUndefined | JNull => CastNone
  | JStr s => if is_hex24 s then CastOk (map lower s) else CastError
  | _ => CastError
  end.

Definition eqb (a b : t) : bool := (a =? b).

End ObjectId.

(** ** models/Gym.js *)

Module Gym.

Record qr : Type := {
  code : option string;
  expiresAt : option Z
}.

(** [qrCode] is a nested path of the schema, not a sub-document: a gym
    document always has it, with both fields unset until a code is issued,
    so [gym.qrCode] is never [undefined] or [null] and always truthy. *)
Record doc : Type := {
  _id : ObjectId.t;
  name : string;
  pointsRequired : Q;
  qrCode : qr
}.

(** What [qrCode] holds before any code is issued. *)
Definition unset : qr := {| code := None; expiresAt := None |}.

(** [isQRCodeExpired], read at the instant [now].  Of
    [!this.qrCode || !this.qrCode.expiresAt] the first test never holds. *)
Definition isQRCodeExpired (now : Z) (g : doc) : bool :=
  match expiresAt (qrCode g) with
  | None => true
  | Some e => (now >? e)%Z
  end.

Definition set_qrCode (g : doc) (q : qr) : doc :=
  {| _id := _id g; name := name g; pointsRequired := pointsRequired g;
     qrCode := q |}.

End Gym.

(** ** models/User.js *)

Module User.

Inductive role_t : Type := SUPER_ADMIN | ADMIN | GYM | USER.

(** The values of [ROLES] in config/roles.js, which the schema's [enum]
    on [role] admits. *)
Definition role_of_string (s : string) : option role_t :=
  if s =? "super_admin" then Some SUPER_ADMIN
  else if s =? "admin" then Some ADMIN
  else if s =? "gym" then Some GYM
  else if s =? "user" then Some USER
  else None.

(** The paths of an account that the handlers below compute with.
    [stored_points] is what the path [points] holds, a number or [null]
    ([None]), and [isActive] holds a boolean or [null]; neither path is
    [required].  [name], [email], [password], [phone], [address],
    [profilePicture] and [lastLogin] are left out. *)
Record doc : Type := {
  _id : ObjectId.t;
  role : role_t;
  stored_points : option Q;
  assignedGyms : list ObjectId.t;
  isActive : option bool
}.

(** [user.points] where it is an operand of [+], [-], [<] or [>=]: [null]
    counts as 0 there. *)
Definition points (u : doc) : Q :=
  match stored_points u with
  | Some p => p
  | None => 0
  end.

(** [user.points = p] for a number [p]. *)
Definition set_points (u : doc) (p : Q) : doc :=
  {| _id := _id u; role := role u; stored_points := Some p;
     assignedGyms := assignedGyms u; isActive := isActive u |}.

(** The schema's [min: 0] on [points], checked by every [save] that has
    assigned the path; it lets [null] through. *)
Definition points_valid (u : doc) : bool := Qle_bool 0 (points u).

End User.

(** ** What the schema types make of an assigned value

    [doc.path = v] casts [v] to the type of the path; a value that cannot
    be cast makes the next [save] reject with a validation error on the
    path.  The casts are the store library's. *)

Module Mongoose.

Inductive cast (A : Type) : Type :=
| Null                       (* [null] is stored *)
| Value (a : A)
| CastError.

Arguments Null {A}.
Arguments Value {A} a.
Arguments CastError {A}.

Section Number.

(** [Number(s)] for a string, as the server's runtime computes it ([None]:
    [NaN]). *)
Variable toNumber : string -> option Q.

(** The cast of a [Number] path: [null] and the empty string give [null],
    a string and a boolean are read with [Number], an object is refused. *)
Definition castNumber (v : jsval) : cast Q :=
  match v with
  | JUndefined | JNull => Null
  | JNum n => Value n
  | JBool b => Value (if b then 1 else 0)
  | JStr s =>
      if s =? "" then Null
      else match toNumber s with
           | Some n => Value n
           | None => CastError
           end
  | JObj _ => CastError
  end.

End Number.

(** The cast of a [Boolean] path. *)
Definition castBoolean (v : jsval) : cast bool :=
  match v with
  | JUndefined | JNull => Null
  | JBool b => Value b
  | JNum n =>
      if Qeq_bool n 1 then Value true
      else if Qeq_bool n 0 then Value false
      else CastError
  | JStr s =>
      if (s =? "true") || (s =? "1") || (s =? "yes") then Value true
      else if (s =? "false") || (s =? "0") || (s =? "no") then Value false
      else CastError
  | JObj _ => CastError
  end.

(** The cast of the [String] path [role] for a truthy value, followed by
    the [enum] of the schema ([None]: the cast or the [enum] refuses the
    value).  A string is taken as it is; of an object that has a string as
    its [_id] the cast takes that string (the way it reads a populated
    document), and it refuses any other object; a number or a boolean is
    cast to the text it prints as, which names no role. *)
Definition castRole (v : jsval) : option User.role_t :=
  match v with
  | JStr s => User.role_of_string s
  | JObj fields =>
      match lookup "_id" fields with
      | JStr s => User.role_of_string s
      | _ => None
      end
  | _ => None
  end.

End Mongoose.

(** ** models/Transaction.js: the schema *)

Module Transaction.

Inductive status_t : Type := PENDING | COMPLETED | FAILED | CANCELLED.

(** A description: a given string, or the template
    [`Admin added ${points} points`] with its number. *)
Inductive text : Type :=
| Literal (s : string)
| AdminAdded (points : Q)
| EarnedAt (points : Q) (gym : string)   (* `Earned ${points} points at ...` *)
| SpentAt (points : Q) (gym : string).   (* `Spent ${points} points at ...` *)

Record metadata_t : Type := {
  qrCodeId : option string;
  deviceInfo : option string;
  ipAddress : option string;
  location : option (Q * Q)
}.

Record doc : Type := {
  _id : nat;
  userId : ObjectId.t;
  gymId : option ObjectId.t;
  points : Q;
  type : string;
  description : text;
  status : status_t;
  metadata : metadata_t;
  createdBy : option ObjectId.t
}.

Definition set_status (t : doc) (s : status_t) : doc :=
  {| _id := _id t; userId := userId t; gymId := gymId t; points := points t;
     type := type t; description := description t; status := s;
     metadata := metadata t; createdBy := createdBy t |}.

End Transaction.

(** ** The stored state *)

Module Db.

Record t : Type := {
  users : list User.doc;
  gyms : list Gym.doc;
  transactions : list Transaction.doc
}.

Definition findUser (id : ObjectId.t) (db : t) : option User.doc :=
  find (fun u => ObjectId.eqb (User._id u) id) (users db).

Definition findGym (id : ObjectId.t) (db : t) : option Gym.doc :=
  find (fun g => ObjectId.eqb (Gym._id g) id) (gyms db).

(** [doc.save()] of a loaded document: the stored document with the same
    [_id] is replaced. *)
Definition saveUser (u : User.doc) (db : t) : t :=
  {| users := map (fun v => if ObjectId.eqb (User._id v) (User._id u)
                            then u else v) (users db);
     gyms := gyms db;
     transactions := transactions db |}.

Definition saveGym (g : Gym.doc) (db : t) : t :=
  {| users := users db;
     gyms := map (fun h => if ObjectId.eqb (Gym._id h) (Gym._id g)
                           then g else h) (gyms db);
     transactions := transactions db |}.

Definition insertTransaction (x : Transaction.doc) (db : t) : t :=
  {| users := users db; gyms := gyms db;
     transactions := x :: transactions db |}.

Definition saveTransaction (x : Transaction.doc) (db : t) : t :=
  {| users := users db; gyms := gyms db;
     transactions :=
       map (fun y => if Nat.eqb (Transaction._id y) (Transaction._id x)
                     then x else y) (transactions db) |}.

(** The balance of an account as the handlers compute with it (none when
    the account is absent). *)
Definition balance (id : ObjectId.t) (db : t) : option Q :=
  option_map User.points (findUser id db).

(** What the path [points] of an account holds (none when the account is
    absent). *)
Definition stored_points (id : ObjectId.t) (db : t) : option (option Q) :=
  option_map User.stored_points (findUser id db).

(** [doc.deleteOne()] of a loaded account: the stored document with that
    [_id] is removed. *)
Definition deleteUser (id : ObjectId.t) (db : t) : t :=
  {| users := filter (fun v => negb (ObjectId.eqb (User._id v) id))
                (users db);
     gyms := gyms db;
     transactions := transactions db |}.

End Db.

(** ** models/User.js: the instance methods on [points]

    No handler under [controllers/] calls [addPoints] or [deductPoints]. *)

Module UserMethods.

Inductive failure : Type :=
| NotEnoughPoints                  (* Error('Not enough points') *)
| SaveRejected.

Definition hasEnoughPoints (u : User.doc) (requiredPoints : Q) : bool :=
  Qle_bool requiredPoints (User.points u).

(** [this.save()]: the schema's validation, then the write. *)
Definition save (save_fails : bool) (u : User.doc) (db : Db.t)
  : failure + (User.doc * Db.t) :=
  if negb (User.points_valid u) || save_fails then inl SaveRejected
  else inr (u, Db.saveUser u db).

Definition addPoints (save_fails : bool) (u : User.doc) (pointsToAdd : Q)
    (db : Db.t) : failure + (User.doc * Db.t) :=
  save save_fails (User.set_points u (Qred (User.points u + pointsToAdd))) db.

Definition deductPoints (save_fails : bool) (u : User.doc)
    (pointsToDeduct : Q) (db : Db.t) : failure + (User.doc * Db.t) :=
  if negb (hasEnoughPoints u pointsToDeduct) then inl NotEnoughPoints
  else save save_fails
         (User.set_points u (Qred (User.points u - pointsToDeduct))) db.

End UserMethods.

(** ** models/Transaction.js: [createTransaction]

    The static method runs inside a storage session.  Reads and writes made
    through the session act on a working copy; [commitTransaction] makes the
    working copy the stored state, [abortTransaction] drops it.  A [throw],
    or an awaited call that rejects, leaves the [try] block for the [catch],
    which aborts and rethrows.  A [commitTransaction] that rejects has
    committed nothing. *)

Module Ledger.

Inductive error : Type :=
| UserNotFound                        (* Error('User not found') *)
| InsufficientPoints                  (* Error('Insufficient points') *)
| ValidationError (paths : list string)
| StorageError (call : string).

(** Which awaited storage calls reject in this run. *)
Record faults : Type := {
  startSession_fails : bool;
  findById_fails : bool;
  create_fails : bool;
  user_save_fails : bool;
  transaction_save_fails : bool;
  commit_fails : bool
}.

Definition no_faults : faults :=
  {| startSession_fails := false; findById_fails := false;
     create_fails := false; user_save_fails := false;
     transaction_save_fails := false; commit_fails := false |}.

(** The argument object, [transactionData].  [userId] and [createdBy] are
    identifiers of loaded documents.  [gymId] is passed on as the caller
    has it, [null] ([None]) or a string, and is cast by [create]; an
    identifier of a loaded document is carried as the string it prints. *)
Record data : Type := {
  userId : ObjectId.t;
  gymId : option string;
  points : Q;
  type : string;
  description : Transaction.text;
  metadata : Transaction.metadata_t;
  createdBy : option ObjectId.t
}.

(** Code running in the session: the working copy in, an error or a value
    and the new working copy out. *)
Definition session (A : Type) : Type := Db.t -> error + (A * Db.t).

Definition ret {A} (a : A) : session A := fun w => inr (a, w).
Definition throw {A} (e : error) : session A := fun _ => inl e.
Definition bind {A B} (m : session A) (k : A -> session B) : session B :=
  fun w => match m w with
           | inl e => inl e
           | inr (a, w') => k a w'
           end.
Definition read {A} (f : Db.t -> A) : session A := fun w => inr (f w, w).
Definition write (f : Db.t -> Db.t) : session unit := fun w => inr (tt, f w).
(** An awaited call: it rejects when its fault is set. *)
Definition await {A} (fails : bool) (call : string) (m : session A)
  : session A :=
  if fails then throw (StorageError call) else m.

Notation "x <- m ;; k" := (bind m (fun x => k))
  (at level 61, m at next level, right associativity).
Notation "m ;;; k" := (bind m (fun _ => k))
  (at level 61, right associativity).

Definition Qltb (a b : Q) : bool := negb (Qle_bool b a).

(** [gymId] as the schema's ObjectId cast reads it: [None] for [null] and
    for a string that cannot be read. *)
Definition gym_of (d : data) : option ObjectId.t :=
  match gymId d with
  | None => None
  | Some s =>
      match ObjectId.cast (JStr s) with
      | ObjectId.CastOk o => Some o
      | _ => None
      end
  end.

(** The paths of the validation error that [create] raises for the new
    record: [gymId] required and readable as an identifier, [points] with
    [min: 1], [type] in the enumeration.  ([userId] is set whenever the
    lookup before it has succeeded.) *)
Definition schema_errors (d : data) : list string :=
  (match gym_of d with None => ["gymId"] | Some _ => [] end)
  ++ (if Qltb (points d) 1 then ["points"] else [])
  ++ (if (type d =? "EARN") || (type d =? "SPEND") then [] else ["type"]).

Definition create (f : faults) (d : data) : session Transaction.doc :=
  match schema_errors d with
  | [] =>
      await (create_fails f) "Transaction.create"
        (n <- read (fun w => List.length (Db.transactions w)) ;;
         let x := {| Transaction._id := n;
                     Transaction.userId := userId d;
                     Transaction.gymId := gym_of d;
                     Transaction.points := points d;
                     Transaction.type := type d;
                     Transaction.description := description d;
                     Transaction.status := Transaction.PENDING;
                     Transaction.metadata := metadata d;
                     Transaction.createdBy := createdBy d |} in
         write (Db.insertTransaction x) ;;;
         ret x)
  | paths => throw (ValidationError paths)
  end.

(** [user.save({ session })]: validation of the changed [points], then the
    write. *)
Definition save_user (f : faults) (u : User.doc) : session unit :=
  if User.points_valid u
  then await (user_save_fails f) "user.save" (write (Db.saveUser u))
  else throw (ValidationError ["points"]).

Definition save_transaction (f : faults) (x : Transaction.doc)
  : session unit :=
  await (transaction_save_fails f) "transaction.save"
    (write (Db.saveTransaction x)).

(** The body of the [try] block, up to the commit. *)
Definition try_block (d : data) (f : faults) : session Transaction.doc :=
  found <- await (findById_fails f) "User.findById"
             (read (Db.findUser (userId d))) ;;
  match found with
  | None => throw UserNotFound
  | Some user =>
      transaction <- create f d ;;
      user' <-
        (if type d =? "EARN" then
           ret (User.set_points user (Qred (User.points user + points d)))
         else if type d =? "SPEND" then
           if Qltb (User.points user) (points d)
           then throw InsufficientPoints
           else ret (User.set_points user
                       (Qred (User.points user - points d)))
         else ret user) ;;
      save_user f user' ;;;
      let completed :=
        Transaction.set_status transaction Transaction.COMPLETED in
      save_transaction f completed ;;;
      ret completed
  end.

Definition startTransaction (stored : Db.t) : Db.t := stored.
Definition commitTransaction (stored working : Db.t) : Db.t := working.
Definition abortTransaction (stored working : Db.t) : Db.t := stored.

(** The result is what the caller's [await] gets ([inl]: the rejection) and
    the stored state that other readers see afterwards. *)
Definition createTransaction (d : data) (f : faults) (stored : Db.t)
  : (error + Transaction.doc) * Db.t :=
  if startSession_fails f then (inl (StorageError "startSession"), stored)
  else
    let working := startTransaction stored in
    match try_block d f working with
    | inl e => (inl e, abortTransaction stored working)
    | inr (x, working') =>
        if commit_fails f
        then (inl (StorageError "commitTransaction"),
              abortTransaction stored working')
        else (inr x, commitTransaction stored working')
    end.

End Ledger.

(** ** utils/qrGenerator.js *)

Module QrGenerator.

(** [parseInt(process.env.QR_CODE_EXPIRY)], with no radix given: leading
    white space and a sign are skipped, a [0x] prefix selects base 16, and
    the longest run of digits is read; trailing text is ignored, so ["24h"]
    reads as 24.  An unset variable and a string without a leading number
    give [NaN] ([None]). *)
Definition digit_value (radix : Z) (c : ascii) : option Z :=
  let n := Z.of_N (N_of_ascii c) in
  let v := if ObjectId.is_digit c then Some (n - 48)%Z
           else if ObjectId.is_lower_af c then Some (n - 87)%Z
           else if ObjectId.is_upper_af c then Some (n - 55)%Z
           else None in
  match v with
  | Some d => if (d <? radix)%Z then Some d else None
  | None => None
  end.

Fixpoint digits (radix : Z) (s : string) (acc : option Z) : option Z :=
  match s with
  | String c s' =>
      match digit_value radix c with
      | Some d =>
          digits radix s'
            (Some (radix * match acc with Some a => a | None => 0 end + d))%Z
      | None => acc
      end
  | EmptyString => acc
  end.

Definition is_space (c : ascii) : bool :=
  let n := N_of_ascii c in ((n =? 32) || ((9 <=? n) && (n <=? 13)))%N.

Fixpoint skip_spaces (s : string) : string :=
  match s with
  | String c s' => if is_space c then skip_spaces s' else s
  | EmptyString => s
  end.

Definition unsigned (s : string) : option Z :=
  match s with
  | String "0" (String "x" s') | String "0" (String "X" s') =>
      digits 16 s' None
  | _ => digits 10 s None
  end.

Definition parseInt (v : option string) : option Z :=
  match v with
  | None => None
  | Some s =>
      match skip_spaces s with
      | String "-" s' => option_map Z.opp (unsigned s')
      | String "+" s' => unsigned s'
      | s' => unsigned s'
      end
  end.

(** [parseInt(...) || 24] *)
Definition expiryHours (env : option string) : Z :=
  match parseInt env with
  | Some n => if (n =? 0)%Z then 24%Z else n
  | None => 24%Z
  end.

Record qrData : Type := {
  code : string;
  data : jsval;            (* the payload that [JSON.stringify] prints *)
  expiresAt : Z
}.

(** [verifyQRCode(payload, gym)] for a gym document, read at the instant
    [now].  The guard [gym.qrCode &&] of the last two tests always holds
    for a document. *)
Definition verifyQRCode (now : Z) (payload : jsval) (gym : Gym.doc) : bool :=
  if negb (truthy payload) || negb (truthy (prop payload "id"))
     || negb (truthy (prop payload "gymId")) then false
  else if negb (strict_eq (prop payload "gymId")
                  (JStr (ObjectId.toString (Gym._id gym)))) then false
  else if Gym.isQRCodeExpired now gym then false
  else if negb (strict_eq (prop payload "id")
                  (of_opt_string (Gym.code (Gym.qrCode gym)))) then false
  else true.

Section Clock.

(** [d.setHours(d.getHours() + h)] on the epoch value of [d], and
    [toISOString], both as the server's runtime computes them. *)
Variable addHours : Z -> Z -> Z.
Variable toISOString : Z -> string.

(** [generateGymQRCode(gym)]: [uuid] is what [uuidv4()] returns, [t0] and
    [t] are the two readings of the clock (payload timestamp, expiry). *)
Definition generateGymQRCode (env : option string) (uuid : string)
    (t0 t : Z) (gym : Gym.doc) : qrData :=
  let payload :=
    JObj [ ("id", JStr uuid);
           ("gymId", JStr (ObjectId.toString (Gym._id gym)));
           ("name", JStr (Gym.name gym));
           ("pointsRequired", JNum (Gym.pointsRequired gym));
           ("timestamp", JStr (toISOString t0)) ] in
  {| code := uuid; data := payload;
     expiresAt := addHours t (expiryHours env) |}.

End Clock.

(** A zone with a fixed offset from UTC: adding local hours adds that many
    hours of elapsed time. *)
Definition fixed_offset (addHours : Z -> Z -> Z) : Prop :=
  forall t h, addHours t h = (t + h * 3600000)%Z.

Definition utcAddHours (t h : Z) : Z := (t + h * 3600000)%Z.

(** A zone whose offset from UTC changes once: [before] holds up to the
    instant [change], [after] from it on (all in milliseconds). *)
Record zone : Type := {
  before : Z;
  change : Z;
  after : Z
}.

(** [LocalTime(t)] *)
Definition localTime (z : zone) (t : Z) : Z :=
  (t + (if t <? change z then before z else after z))%Z.

(** [UTC(l)]: the instant whose local time is [l].  A local time that
    occurs twice is read as the earlier instant, one that the change skips
    with the offset before the change. *)
Definition utc (z : zone) (l : Z) : Z :=
  if (l - before z <? change z)%Z then (l - before z)%Z
  else if (change z <=? l - after z)%Z then (l - after z)%Z
  else (l - before z)%Z.

(** [d.setHours(d.getHours() + h)] in the zone [z]: [h] hours are added to
    the local time of [d]. *)
Definition zoneAddHours (z : zone) (t h : Z) : Z :=
  utc z (localTime z t + h * 3600000).

End QrGenerator.

(** ** controllers/qrController.js *)

Module QrController.

Import QrGenerator.

Inductive failure : Type :=
| TypeError                      (* a property of [null] was read *)
| CastError                      (* the identifier could not be read *)
| SaveError                      (* a [save] outside the ledger rejected *)
| LedgerError (e : Ledger.error).

(** [Model.findById(v)] for a raw value [v]. *)
Definition findGymById (v : jsval) (db : Db.t) : failure + option Gym.doc :=
  match ObjectId.cast v with
  | ObjectId.CastError => inl CastError
  | ObjectId.CastNone => inr None
  | ObjectId.CastOk o => inr (Db.findGym o db)
  end.

Inductive generate_response : Type :=
| Generated (q : qrData)                (* 200 *)
| GenerateGymNotFound                   (* 404 *)
| GenerateFailed (e : failure).         (* next(error) *)

Section Clock.

Variable addHours : Z -> Z -> Z.
Variable toISOString : Z -> string.

(** [generateQRCode]: GET /api/qr/generate/:gymId *)
Definition generateQRCode (env : option string) (uuid : string) (t0 t : Z)
    (save_fails : bool) (gymId : string) (db : Db.t)
  : generate_response * Db.t :=
  match findGymById (JStr gymId) db with
  | inl e => (GenerateFailed e, db)
  | inr None => (GenerateGymNotFound, db)
  | inr (Some gym) =>
      let q := generateGymQRCode addHours toISOString env uuid t0 t gym in
      let gym' := Gym.set_qrCode gym
                    {| Gym.code := Some (code q);
                       Gym.expiresAt := Some (expiresAt q) |} in
      if save_fails then (GenerateFailed SaveError, db)
      else (Generated q, Db.saveGym gym' db)
  end.

End Clock.

Inductive parse_result : Type :=
| SyntaxError
| Parsed (v : jsval).

Inductive scan_response : Type :=
| InvalidQRData                          (* 400 'Invalid QR code data' *)
| ScanGymNotFound                        (* 404 'Gym not found' *)
| InvalidOrExpired                       (* 400 'Invalid or expired QR code' *)
| ScanUserNotFound                       (* 404 'User not found' *)
| NotEnoughPoints (required : Q) (available : option Q)   (* 400 *)
| AccessGranted (x : Transaction.doc) (points : Q)
| ScanFailed (e : failure).              (* next(error) *)

Definition string_of (v : jsval) : option string :=
  match v with
  | JStr s => Some s
  | _ => None
  end.

(** The gym lookup of a scan, [Gym.findById(payload.gymId)]. *)
Definition resolveGym (payload : jsval) (db : Db.t)
  : failure + option Gym.doc :=
  match payload with
  | JNull | JUndefined => inl TypeError
  | _ => findGymById (prop payload "gymId") db
  end.

(** [scanQRCode]: POST /api/qr/scan, for the authenticated account
    [userId]; [qrData] is the outcome of [JSON.parse(req.body.qrData)]. *)
Definition scanQRCode (now : Z) (f : Ledger.faults) (userId : ObjectId.t)
    (qrData : parse_result) (deviceInfo : option string)
    (location : option (Q * Q)) (db : Db.t) : scan_response * Db.t :=
  match qrData with
  | SyntaxError => (InvalidQRData, db)
  | Parsed payload =>
      match resolveGym payload db with
      | inl e => (ScanFailed e, db)
      | inr None => (ScanGymNotFound, db)
      | inr (Some gym) =>
          if negb (verifyQRCode now payload gym) then (InvalidOrExpired, db)
          else
            match Db.findUser userId db with
            | None => (ScanUserNotFound, db)
            | Some user =>
                let pointsRequired := Gym.pointsRequired gym in
                if Ledger.Qltb (User.points user) pointsRequired
                then (NotEnoughPoints pointsRequired
                        (User.stored_points user), db)
                else
                  let transactionData :=
                    {| Ledger.userId := User._id user;
                       Ledger.gymId := Some (ObjectId.toString (Gym._id gym));
                       Ledger.points := pointsRequired;
                       Ledger.type := "SPEND";
                       Ledger.description :=
                         Transaction.Literal ("Gym access: " ++ Gym.name gym);
                       Ledger.metadata :=
                         {| Transaction.qrCodeId :=
                              string_of (prop payload "id");
                            Transaction.deviceInfo := deviceInfo;
                            Transaction.ipAddress := None;
                            Transaction.location := location |};
                       Ledger.createdBy := None |} in
                  match Ledger.createTransaction transactionData f db with
                  | (inl e, db') => (ScanFailed (LedgerError e), db')
                  | (inr x, db') =>
                      (AccessGranted x
                         (Qred (User.points user - pointsRequired)), db')
                  end
            end
      end
  end.

Inductive status_response : Type :=
| NoQRCode                                (* 200, hasQRCode: false *)
| QRStatus (isExpired : bool) (expiresAt : option Z)   (* 200 *)
| StatusGymNotFound                       (* 404 *)
| StatusFailed (e : failure).             (* next(error) *)

(** [getQRStatus]: GET /api/qr/status/:gymId, read at the instant [now]. *)
Definition getQRStatus (now : Z) (gymId : string) (db : Db.t)
  : status_response :=
  match findGymById (JStr gymId) db with
  | inl e => StatusFailed e
  | inr None => StatusGymNotFound
  | inr (Some gym) =>
      if negb (truthy (of_opt_string (Gym.code (Gym.qrCode gym))))
      then NoQRCode
      else QRStatus (Gym.isQRCodeExpired now gym)
             (Gym.expiresAt (Gym.qrCode gym))
  end.

End QrController.

(** ** models/Gym.js: [updateQRCodeExpiry] *)

Module GymMethods.

Section Clock.

Variable addHours : Z -> Z -> Z.

(** [updateQRCodeExpiry] at the instant [t]: the expiry of the gym's
    [qrCode] is set anew and the gym is saved; the token is not touched. *)
Definition updateQRCodeExpiry (env : option string) (t : Z)
    (save_fails : bool) (gym : Gym.doc) (db : Db.t)
  : QrController.failure + (Gym.doc * Db.t) :=
  let gym' :=
    Gym.set_qrCode gym
      {| Gym.code := Gym.code (Gym.qrCode gym);
         Gym.expiresAt :=
           Some (addHours t (QrGenerator.expiryHours env)) |} in
  if save_fails then inl QrController.SaveError
  else inr (gym', Db.saveGym gym' db).

End Clock.

End GymMethods.

(** ** middleware/auth.js, middleware/roleCheck.js *)

Module Middleware.

Inductive verdict : Type :=
| Next
| Forbidden                       (* 403 *)
| TargetNotFound                  (* 404 *)
| Rejected (e : QrController.failure).

Definition role_eqb (a b : User.role_t) : bool :=
  match a, b with
  | User.SUPER_ADMIN, User.SUPER_ADMIN | User.ADMIN, User.ADMIN
  | User.GYM, User.GYM | User.USER, User.USER => true
  | _, _ => false
  end.

(** [restrictTo(...roles)] for an authenticated caller. *)
Definition restrictTo (roles : list User.role_t) (caller : User.doc)
  : verdict :=
  if existsb (role_eqb (User.role caller)) roles then Next else Forbidden.

Definition findUserById (v : jsval) (db : Db.t)
  : QrController.failure + option User.doc :=
  match ObjectId.cast v with
  | ObjectId.CastError => inl QrController.CastError
  | ObjectId.CastNone => inr None
  | ObjectId.CastOk o => inr (Db.findUser o db)
  end.

(** [canManageUser] for an authenticated caller and the route's [:id]. *)
Definition canManageUser (caller : User.doc) (id : string) (db : Db.t)
  : verdict :=
  match User.role caller with
  | User.USER =>
      if negb (ObjectId.toString (User._id caller) =? id)
      then Forbidden else Next
  | User.SUPER_ADMIN => Next
  | r =>
      match findUserById (JStr id) db with
      | inl e => Rejected e
      | inr None => TargetNotFound
      | inr (Some target) =>
          if (role_eqb r User.ADMIN
              && existsb (role_eqb (User.role target))
                   [User.SUPER_ADMIN; User.ADMIN])
             || (role_eqb r User.GYM
                 && existsb (role_eqb (User.role target))
                      [User.SUPER_ADMIN; User.ADMIN; User.GYM])
          then Forbidden else Next
      end
  end.

End Middleware.

(** ** config/roles.js, and the middleware that reads its tables *)

Module Access.

Import Middleware.

(** [ROLE_HIERARCHY[role]]: the roles whose permissions [role] has. *)
Definition ROLE_HIERARCHY (r : User.role_t) : list User.role_t :=
  match r with
  | User.SUPER_ADMIN => [User.SUPER_ADMIN; User.ADMIN; User.GYM; User.USER]
  | User.ADMIN => [User.ADMIN; User.GYM; User.USER]
  | User.GYM => [User.GYM; User.USER]
  | User.USER => [User.USER]
  end.

(** [PERMISSIONS[permission]] ([None]: no such key; the keys that every
    object inherits are not told apart from missing ones). *)
Definition PERMISSIONS (permission : string) : option (list User.role_t) :=
  if permission =? "CREATE_GYM" then Some [User.SUPER_ADMIN; User.ADMIN]
  else if permission =? "UPDATE_GYM" then Some [User.SUPER_ADMIN; User.ADMIN]
  else if permission =? "DELETE_GYM" then Some [User.SUPER_ADMIN]
  else if permission =? "CREATE_USER"
  then Some [User.SUPER_ADMIN; User.ADMIN; User.GYM]
  else if permission =? "UPDATE_USER"
  then Some [User.SUPER_ADMIN; User.ADMIN; User.GYM]
  else if permission =? "DELETE_USER" then Some [User.SUPER_ADMIN; User.ADMIN]
  else if permission =? "MANAGE_ADMINS" then Some [User.SUPER_ADMIN]
  else if permission =? "ASSIGN_GYM" then Some [User.SUPER_ADMIN; User.ADMIN]
  else if permission =? "VIEW_ALL_TRANSACTIONS"
  then Some [User.SUPER_ADMIN; User.ADMIN]
  else if permission =? "CREATE_TRANSACTION"
  then Some [User.SUPER_ADMIN; User.ADMIN; User.GYM]
  else if permission =? "GENERATE_QR"
  then Some [User.SUPER_ADMIN; User.ADMIN; User.GYM]
  else None.

(** [hasPermission(permission)] of roleCheck.js, for an authenticated
    caller: [PERMISSIONS[permission] || []] must include the caller's
    role. *)
Definition hasPermission (permission : string) (caller : User.doc)
  : verdict :=
  let allowedRoles :=
    match PERMISSIONS permission with Some l => l | None => [] end in
  if existsb (role_eqb (User.role caller)) allowedRoles
  then Next else Forbidden.

(** [hasRole(requiredRole)] of auth.js, for an authenticated caller. *)
Definition hasRole (requiredRole : User.role_t) (caller : User.doc)
  : verdict :=
  if existsb (role_eqb requiredRole) (ROLE_HIERARCHY (User.role caller))
  then Next else Forbidden.

(** [assignedGyms.includes(gymId)] for a string [gymId]: the array compares
    the string with the printed form of each identifier. *)
Definition includes (assignedGyms : list ObjectId.t) (gymId : string)
  : bool :=
  existsb (fun g => ObjectId.toString g =? gymId) assignedGyms.

(** [isAssignedToGym(gymIdParam)] of auth.js, for an authenticated caller
    and the route parameter it names. *)
Definition isAssignedToGym (caller : User.doc) (gymId : string) : verdict :=
  if role_eqb (User.role caller) User.SUPER_ADMIN
     || role_eqb (User.role caller) User.ADMIN then Next
  else if role_eqb (User.role caller) User.GYM
          && negb (includes (User.assignedGyms caller) gymId)
  then Forbidden
  else Next.

Inductive gym_verdict : Type :=
| GymNext
| GymIdRequired                   (* 400 *)
| GymForbidden.                   (* 403 *)

(** [canManageGym] of roleCheck.js, for an authenticated caller; [gymId]
    is [req.params.id || req.body.gymId] ([None]: neither is set). *)
Definition canManageGym (caller : User.doc) (gymId : option string)
  : gym_verdict :=
  match gymId with
  | None => GymIdRequired
  | Some id =>
      if id =? "" then GymIdRequired
      else if role_eqb (User.role caller) User.SUPER_ADMIN then GymNext
      else if role_eqb (User.role caller) User.ADMIN
              && negb (existsb (fun g => ObjectId.toString g =? id)
                         (User.assignedGyms caller))
      then GymForbidden
      else GymNext
  end.

End Access.

(** ** Paged queries

    The list handlers read [page] and [limit] from the query string with
    [parseInt(..., 10) || default] and pass [(page - 1) * limit] to [skip]
    and [limit] to [limit]. *)

Module Query.

Definition parseInt10 (v : option string) : option Z :=
  match v with
  | None => None
  | Some s =>
      match QrGenerator.skip_spaces s with
      | String "-" s' => option_map Z.opp (QrGenerator.digits 10 s' None)
      | String "+" s' => QrGenerator.digits 10 s' None
      | s' => QrGenerator.digits 10 s' None
      end
  end.

(** [parseInt(v, 10) || d] *)
Definition number_or (v : option string) (d : Z) : Z :=
  match parseInt10 v with
  | Some n => if (n =? 0)%Z then d else n
  | None => d
  end.

(** [.skip(s).limit(l)] on the documents a query matches, in the order in
    which the store returns them, taken to be the same for every page.  The
    store rejects a negative [s] ([None]); a negative [l] asks for as many
    documents as its magnitude.  ([l] is never 0 here.) *)
Definition skip_limit {A : Type} (s l : Z) (docs : list A)
  : option (list A) :=
  if (s <? 0)%Z then None
  else Some (firstn (Z.to_nat (Z.abs l)) (skipn (Z.to_nat s) docs)).

(** [Math.ceil(total / limit)] for a [limit] that is not 0. *)
Definition ceil_div (total limit : Z) : Z := (- ((- total) / limit))%Z.

End Query.

(** ** controllers/userController.js *)

Module UserController.

Import Middleware.

(** The fields of [req.body] that [updateUser] assigns to paths of the
    account document, as the parsed body has them ([JUndefined]: absent).
    [name], [email], [phone], [address] and [profilePicture] are copied to
    paths that the account document here does not carry. *)
Record update_body : Type := {
  role : jsval;
  points : jsval;
  isActive : jsval
}.

Inductive update_response : Type :=
| Updated (u : User.doc)                 (* 200 *)
| UpdateInvalid                          (* 400, express-validator *)
| UpdateForbidden                        (* 403 *)
| UpdateUserNotFound                     (* 404 *)
| UpdateFailed (e : QrController.failure).

Definition is_admin (r : User.role_t) : bool :=
  role_eqb r User.SUPER_ADMIN || role_eqb r User.ADMIN.

Definition nonempty (o : option string) : option string :=
  match o with
  | Some s => if s =? "" then None else Some s
  | None => None
  end.

(** Whether [updateUser] assigns [user.role], [user.points] and
    [user.isActive]. *)
Definition assigns_role (caller : User.doc) (b : update_body) : bool :=
  is_admin (User.role caller) && truthy (role b)
  && (role_eqb (User.role caller) User.SUPER_ADMIN
      || (role_eqb (User.role caller) User.ADMIN
          && negb (strict_eq (role b) (JStr "super_admin")))).

Definition assigns_points (caller : User.doc) (b : update_body) : bool :=
  is_admin (User.role caller) && negb (strict_eq (points b) JUndefined).

Definition assigns_isActive (caller : User.doc) (b : update_body) : bool :=
  is_admin (User.role caller) && negb (strict_eq (isActive b) JUndefined).

Section Runtime.

Variable toNumber : string -> option Q.

(** The paths for which [save] raises its validation error: an assigned
    value that the cast or a validator of the path refuses. *)
Definition update_errors (caller : User.doc) (b : update_body)
  : list string :=
  (if assigns_role caller b
   then match Mongoose.castRole (role b) with
        | Some _ => []
        | None => ["role"]
        end
   else [])
  ++ (if assigns_points caller b
      then match Mongoose.castNumber toNumber (points b) with
           | Mongoose.Null => []
           | Mongoose.Value n => if Ledger.Qltb n 0 then ["points"] else []
           | Mongoose.CastError => ["points"]
           end
      else [])
  ++ (if assigns_isActive caller b
      then match Mongoose.castBoolean (isActive b) with
           | Mongoose.CastError => ["isActive"]
           | _ => []
           end
      else []).

(** The assignments of [updateUser] to the loaded document, each with the
    cast of its path.  (Where [update_errors] names a path the document is
    not saved.) *)
Definition apply_update (caller : User.doc) (b : update_body)
    (user : User.doc) : User.doc :=
  {| User._id := User._id user;
     User.role :=
       if assigns_role caller b
       then match Mongoose.castRole (role b) with
            | Some r => r
            | None => User.role user
            end
       else User.role user;
     User.stored_points :=
       if assigns_points caller b
       then match Mongoose.castNumber toNumber (points b) with
            | Mongoose.Null => None
            | Mongoose.Value n => Some n
            | Mongoose.CastError => User.stored_points user
            end
       else User.stored_points user;
     User.assignedGyms := User.assignedGyms user;
     User.isActive :=
       if assigns_isActive caller b
       then match Mongoose.castBoolean (isActive b) with
            | Mongoose.Null => None
            | Mongoose.Value a => Some a
            | Mongoose.CastError => User.isActive user
            end
       else User.isActive user |}.

(** [updateUser]: [valid] is [validationResult(req).isEmpty()];
    [save_fails] is a rejection of [user.save()] that is not the
    validation error of one of the paths above: a path left out here that
    a validator refuses, a duplicate e-mail, a lost connection. *)
Definition updateUser (valid save_fails : bool) (caller : User.doc)
    (id : string) (b : update_body) (db : Db.t) : update_response * Db.t :=
  if negb valid then (UpdateInvalid, db)
  else if role_eqb (User.role caller) User.USER
          && negb (ObjectId.toString (User._id caller) =? id)
  then (UpdateForbidden, db)
  else
    match findUserById (JStr id) db with
    | inl e => (UpdateFailed e, db)
    | inr None => (UpdateUserNotFound, db)
    | inr (Some user) =>
        match update_errors caller b with
        | [] =>
            if save_fails then (UpdateFailed QrController.SaveError, db)
            else
              let user' := apply_update caller b user in
              (Updated user', Db.saveUser user' db)
        | paths =>
            (UpdateFailed
               (QrController.LedgerError (Ledger.ValidationError paths)),
             db)
        end
    end.

(** PUT /api/users/:id, behind [canManageUser]. *)
Definition putUser (valid save_fails : bool) (caller : User.doc)
    (id : string) (b : update_body) (db : Db.t) : update_response * Db.t :=
  match canManageUser caller id db with
  | Next => updateUser valid save_fails caller id b db
  | Forbidden => (UpdateForbidden, db)
  | TargetNotFound => (UpdateUserNotFound, db)
  | Rejected e => (UpdateFailed e, db)
  end.

End Runtime.

(** The fields of [req.body] that [addPoints] reads: [points], a number,
    and [reason] and [gymId], each absent or a string. *)
Record points_body : Type := {
  amount : Q;                      (* [points] *)
  reason : option string;
  gymId : option string
}.

Inductive points_response : Type :=
| PointsAdded (id : ObjectId.t) (balance added : Q)       (* 200 *)
| PointsNotPositive                                       (* 400 *)
| PointsForbidden                                         (* 403 *)
| PointsUserNotFound                                      (* 404 *)
| PointsFailed (e : QrController.failure).                (* next(error) *)

(** [addPoints]: the handler adds to the loaded account and saves it, and
    then calls the ledger for the same amount. *)
Definition addPoints (f : Ledger.faults) (save_fails : bool)
    (caller : User.doc) (id : string) (b : points_body)
    (ip : option string) (db : Db.t) : points_response * Db.t :=
  if Qeq_bool (amount b) 0 || Qle_bool (amount b) 0
  then (PointsNotPositive, db)
  else
    match findUserById (JStr id) db with
    | inl e => (PointsFailed e, db)
    | inr None => (PointsUserNotFound, db)
    | inr (Some user) =>
        let user' :=
          User.set_points user (Qred (User.points user + amount b)) in
        if negb (User.points_valid user')
        then (PointsFailed
                (QrController.LedgerError (Ledger.ValidationError ["points"])),
              db)
        else if save_fails then (PointsFailed QrController.SaveError, db)
        else
          let db1 := Db.saveUser user' db in
          let transactionData :=
            {| Ledger.userId := User._id user';
               Ledger.gymId := nonempty (gymId b);
               Ledger.points := amount b;
               Ledger.type := "EARN";
               Ledger.description :=
                 match nonempty (reason b) with
                 | Some r => Transaction.Literal r
                 | None => Transaction.AdminAdded (amount b)
                 end;
               Ledger.metadata :=
                 {| Transaction.qrCodeId := None;
                    Transaction.deviceInfo := None;
                    Transaction.ipAddress := ip;
                    Transaction.location := None |};
               Ledger.createdBy := Some (User._id caller) |} in
          match Ledger.createTransaction transactionData f db1 with
          | (inl e, db2) =>
              (PointsFailed (QrController.LedgerError e), db2)
          | (inr _, db2) =>
              (PointsAdded (User._id user') (User.points user') (amount b),
               db2)
          end
    end.

(** POST /api/users/:id/points, behind [restrictTo(SUPER_ADMIN, ADMIN)]. *)
Definition postPoints (f : Ledger.faults) (save_fails : bool)
    (caller : User.doc) (id : string) (b : points_body)
    (ip : option string) (db : Db.t) : points_response * Db.t :=
  match restrictTo [User.SUPER_ADMIN; User.ADMIN] caller with
  | Next => addPoints f save_fails caller id b ip db
  | _ => (PointsForbidden, db)
  end.

Inductive read_response : Type :=
| UserFound (u : User.doc)               (* 200, the account *)
| UserPoints (points : option Q)         (* 200, its points *)
| ReadForbidden                          (* 403 *)
| ReadUserNotFound                       (* 404 *)
| ReadFailed (e : QrController.failure).

(** [getUserById]: GET /api/users/:id.  The account is looked up before
    the caller's role is looked at. *)
Definition getUserById (caller : User.doc) (id : string) (db : Db.t)
  : read_response :=
  match findUserById (JStr id) db with
  | inl e => ReadFailed e
  | inr None => ReadUserNotFound
  | inr (Some user) =>
      if role_eqb (User.role caller) User.USER
         && negb (ObjectId.toString (User._id caller) =? id)
      then ReadForbidden
      else UserFound user
  end.

(** [getUserPoints]: GET /api/users/:id/points.  The caller's role is
    looked at before the account is looked up. *)
Definition getUserPoints (caller : User.doc) (id : string) (db : Db.t)
  : read_response :=
  if role_eqb (User.role caller) User.USER
     && negb (ObjectId.toString (User._id caller) =? id)
  then ReadForbidden
  else
    match findUserById (JStr id) db with
    | inl e => ReadFailed e
    | inr None => ReadUserNotFound
    | inr (Some user) => UserPoints (User.stored_points user)
    end.

Inductive delete_response : Type :=
| Deleted                                (* 200 *)
| DeleteForbidden                        (* 403 *)
| DeleteUserNotFound                     (* 404 *)
| DeleteFailed (e : QrController.failure).

(** [deleteUser]; [delete_fails] is a rejection of [user.deleteOne()]. *)
Definition deleteUser (delete_fails : bool) (caller : User.doc)
    (id : string) (db : Db.t) : delete_response * Db.t :=
  match findUserById (JStr id) db with
  | inl e => (DeleteFailed e, db)
  | inr None => (DeleteUserNotFound, db)
  | inr (Some user) =>
      if role_eqb (User.role user) User.SUPER_ADMIN
         && negb (role_eqb (User.role caller) User.SUPER_ADMIN)
      then (DeleteForbidden, db)
      else if delete_fails then (DeleteFailed QrController.SaveError, db)
      else (Deleted, Db.deleteUser (User._id user) db)
  end.

(** DELETE /api/users/:id, behind [restrictTo(SUPER_ADMIN, ADMIN)] and
    [canManageUser]. *)
Definition deleteUserRoute (delete_fails : bool) (caller : User.doc)
    (id : string) (db : Db.t) : delete_response * Db.t :=
  match restrictTo [User.SUPER_ADMIN; User.ADMIN] caller with
  | Next =>
      match canManageUser caller id db with
      | Next => deleteUser delete_fails caller id db
      | Forbidden => (DeleteForbidden, db)
      | TargetNotFound => (DeleteUserNotFound, db)
      | Rejected e => (DeleteFailed e, db)
      end
  | _ => (DeleteForbidden, db)
  end.

Inductive list_failure : Type :=
| ListCastError                  (* the gym identifier could not be read *)
| NegativeSkip.                  (* the store rejected the [skip] *)

Inductive list_response : Type :=
| Listed (total pages page limit : Z) (users : list User.doc)   (* 200 *)
| ListForbidden                                                  (* 403 *)
| ListFailed (e : list_failure).                           (* next(error) *)

(** [Transaction.find({ gymId }).distinct('userId')] *)
Definition distinctUserIds (gym : ObjectId.t) (db : Db.t)
  : list ObjectId.t :=
  nodup string_dec
    (map Transaction.userId
       (filter (fun x => match Transaction.gymId x with
                         | Some g => ObjectId.eqb g gym
                         | None => false
                         end)
          (Db.transactions db))).

(** [User.find({ _id: { $in: ids } })] *)
Definition usersIn (ids : list ObjectId.t) (db : Db.t) : list User.doc :=
  filter (fun u => existsb (ObjectId.eqb (User._id u)) ids) (Db.users db).

(** The body of [getUsersByGym] once the gym identifier is read and
    [page] and [limit] are numbers. *)
Definition usersByGymPage (gym : ObjectId.t) (page limit : Z) (db : Db.t)
  : list_response :=
  let transactions := distinctUserIds gym db in
  let startIndex := ((page - 1) * limit)%Z in
  let total := Z.of_nat (List.length transactions) in
  match Query.skip_limit startIndex limit (usersIn transactions db) with
  | None => ListFailed NegativeSkip
  | Some users =>
      Listed total (Query.ceil_div total limit) page limit users
  end.

(** [getUsersByGym]: GET /api/users/gym/:gymId; [page] and [limit] are the
    query-string values. *)
Definition getUsersByGym (caller : User.doc) (gymId : string)
    (page limit : option string) (db : Db.t) : list_response :=
  if role_eqb (User.role caller) User.GYM
     && negb (Access.includes (User.assignedGyms caller) gymId)
  then ListForbidden
  else
    match ObjectId.cast (JStr gymId) with
    | ObjectId.CastOk gym =>
        usersByGymPage gym (Query.number_or page 1)
          (Query.number_or limit 10) db
    | _ => ListFailed ListCastError
    end.

End UserController.

(** ** controllers/transactionController.js, routes/transactionRoutes.js *)

Module TransactionController.

Import Middleware.

(** The fields of [req.body] that [createTransaction] reads. *)
Record body : Type := {
  userId : string;
  gymId : string;
  points : Q;
  type : string;
  description : option string
}.

Definition is_integer (q : Q) : bool := (Qden (Qred q) =? 1)%positive.

(** [createTransactionValidation]: [userId] and [gymId] not empty,
    [points] an integer of at least 1, [type] EARN or SPEND. *)
Definition createTransactionValidation (b : body) : bool :=
  negb (userId b =? "") && negb (gymId b =? "")
  && is_integer (points b) && Qle_bool 1 (points b)
  && ((type b =? "EARN") || (type b =? "SPEND")).

Inductive response : Type :=
| Created (x : Transaction.doc)                   (* 201 *)
| Invalid                                         (* 400, validation *)
| UserNotFound                                    (* 404 *)
| GymNotFound                                     (* 404 *)
| NotAuthorized                                   (* 403 *)
| NotEnough (required : Q) (available : option Q) (* 400 *)
| Failed (e : QrController.failure).              (* next(error) *)

(** [createTransaction].  The ledger is given the account's identifier
    as the lookup above has read it. *)
Definition createTransaction (f : Ledger.faults) (caller : User.doc)
    (b : body) (ip : option string) (db : Db.t) : response * Db.t :=
  if negb (createTransactionValidation b) then (Invalid, db)
  else
    match findUserById (JStr (userId b)) db with
    | inl e => (Failed e, db)
    | inr None => (UserNotFound, db)
    | inr (Some user) =>
        match QrController.findGymById (JStr (gymId b)) db with
        | inl e => (Failed e, db)
        | inr None => (GymNotFound, db)
        | inr (Some gym) =>
            if role_eqb (User.role caller) User.GYM
               && negb (Access.includes (User.assignedGyms caller)
                          (gymId b))
            then (NotAuthorized, db)
            else if (type b =? "SPEND")
                    && Ledger.Qltb (User.points user) (points b)
            then (NotEnough (points b) (User.stored_points user), db)
            else
              let transactionData :=
                {| Ledger.userId := User._id user;
                   Ledger.gymId := Some (gymId b);
                   Ledger.points := points b;
                   Ledger.type := type b;
                   Ledger.description :=
                     match UserController.nonempty (description b) with
                     | Some t => Transaction.Literal t
                     | None =>
                         if type b =? "EARN"
                         then Transaction.EarnedAt (points b) (Gym.name gym)
                         else Transaction.SpentAt (points b) (Gym.name gym)
                     end;
                   Ledger.metadata :=
                     {| Transaction.qrCodeId := None;
                        Transaction.deviceInfo := None;
                        Transaction.ipAddress := ip;
                        Transaction.location := None |};
                   Ledger.createdBy := Some (User._id caller) |} in
              match Ledger.createTransaction transactionData f db with
              | (inl e, db') => (Failed (QrController.LedgerError e), db')
              | (inr x, db') => (Created x, db')
              end
        end
    end.

(** POST /api/transactions, behind
    [restrictTo(SUPER_ADMIN, ADMIN, GYM)] and
    [hasPermission('CREATE_TRANSACTION')]. *)
Definition postTransaction (f : Ledger.faults) (caller : User.doc)
    (b : body) (ip : option string) (db : Db.t) : response * Db.t :=
  match restrictTo [User.SUPER_ADMIN; User.ADMIN; User.GYM] caller with
  | Next =>
      match Access.hasPermission "CREATE_TRANSACTION" caller with
      | Next => createTransaction f caller b ip db
      | _ => (NotAuthorized, db)
      end
  | _ => (NotAuthorized, db)
  end.

End TransactionController.

(** ** The endpoints that write

    The handlers of routes/userRoutes.js, routes/qrRoutes.js and
    routes/transactionRoutes.js that call [save], [create] or [deleteOne],
    each behind the middleware of its route and for an authenticated
    caller.  The other handlers of these three files only query. *)

Module Api.

Inductive request : Type :=
| GenerateQR (env : option string) (uuid : string) (t0 t : Z)
    (save_fails : bool) (gymId : string)   (* GET /api/qr/generate/:gymId *)
| ScanQR (now : Z) (f : Ledger.faults) (qrData : QrController.parse_result)
    (deviceInfo : option string) (location : option (Q * Q))
                                           (* POST /api/qr/scan *)
| PutUser (valid save_fails : bool) (id : string)
    (b : UserController.update_body)       (* PUT /api/users/:id *)
| DeleteUser (delete_fails : bool) (id : string)
                                           (* DELETE /api/users/:id *)
| PostPoints (f : Ledger.faults) (save_fails : bool) (id : string)
    (b : UserController.points_body) (ip : option string)
                                           (* POST /api/users/:id/points *)
| PostTransaction (f : Ledger.faults) (b : TransactionController.body)
    (ip : option string).                  (* POST /api/transactions *)

Section Runtime.

Variable addHours : Z -> Z -> Z.
Variable toISOString : Z -> string.
Variable toNumber : string -> option Q.

(** The stored state after the request of [caller]. *)
Definition handle (caller : User.doc) (r : request) (db : Db.t) : Db.t :=
  match r with
  | GenerateQR env uuid t0 t save_fails gymId =>
      match Middleware.restrictTo [User.SUPER_ADMIN; User.ADMIN; User.GYM]
              caller,
            Access.hasPermission "GENERATE_QR" caller with
      | Middleware.Next, Middleware.Next =>
          snd (QrController.generateQRCode addHours toISOString env uuid
                 t0 t save_fails gymId db)
      | _, _ => db
      end
  | ScanQR now f qrData deviceInfo location =>
      match Middleware.restrictTo [User.USER] caller with
      | Middleware.Next =>
          snd (QrController.scanQRCode now f (User._id caller) qrData
                 deviceInfo location db)
      | _ => db
      end
  | PutUser valid save_fails id b =>
      snd (UserController.putUser toNumber valid save_fails caller id b db)
  | DeleteUser delete_fails id =>
      snd (UserController.deleteUserRoute delete_fails caller id db)
  | PostPoints f save_fails id b ip =>
      snd (UserController.postPoints f save_fails caller id b ip db)
  | PostTransaction f b ip =>
      snd (TransactionController.postTransaction f caller b ip db)
  end.

End Runtime.

End Api.

(** ** The vocabulary of the specification *)

Module Spec.

(** (a) the payload has the expected shape: it is there and carries an
    [id] and a [gymId]. *)
Definition well_shaped (payload : jsval) : bool :=
  truthy payload && truthy (prop payload "id")
  && truthy (prop payload "gymId").

(** (b) the payload's gym identity is the gym's. *)
Definition names_gym (payload : jsval) (gym : Gym.doc) : Prop :=
  prop payload "gymId" = JStr (ObjectId.toString (Gym._id gym)).

(** (c), (d), (e): the gym has a current session, with a token and an
    expiry, the instant is not after the expiry, and the payload's token is
    the session's. *)
Definition current_session (now : Z) (payload : jsval) (gym : Gym.doc)
  : Prop :=
  exists token expiry,
    Gym.code (Gym.qrCode gym) = Some token
    /\ Gym.expiresAt (Gym.qrCode gym) = Some expiry
    /\ (now <= expiry)%Z /\ prop payload "id" = JStr token.

(** The gym has no current session: no token, or no expiry. *)
Definition no_session (gym : Gym.doc) : Prop :=
  Gym.code (Gym.qrCode gym) = None \/ Gym.expiresAt (Gym.qrCode gym) = None.

(** The validity of the specification's [verify], in its words. *)
Definition valid (now : Z) (payload : jsval) (gym : Gym.doc) : Prop :=
  well_shaped payload = true /\ names_gym payload gym
  /\ current_session now payload gym.

(** Every stored balance is non-negative. *)
Definition balances_nonneg (db : Db.t) : Prop :=
  Forall (fun u => (0 <= User.points u)%Q) (Db.users db).

(** The stored states after each call of a sequence of ledger calls. *)
Fixpoint trace (calls : list (Ledger.data * Ledger.faults)) (db : Db.t)
  : list Db.t :=
  match calls with
  | [] => []
  | (d, f) :: rest =>
      let db' := snd (Ledger.createTransaction d f db) in
      db' :: trace rest db'
  end.

(** Every call of the sequence is applied successfully. *)
Fixpoint all_applied (calls : list (Ledger.data * Ledger.faults))
    (db : Db.t) : bool :=
  match calls with
  | [] => true
  | (d, f) :: rest =>
      match Ledger.createTransaction d f db with
      | (inr _, db') => all_applied rest db'
      | (inl _, _) => false
      end
  end.

(** Some awaited storage call of the ledger rejects. *)
Definition some_fault (f : Ledger.faults) : bool :=
  Ledger.startSession_fails f || Ledger.findById_fails f
  || Ledger.create_fails f || Ledger.user_save_fails f
  || Ledger.transaction_save_fails f || Ledger.commit_fails f.

(** The record that the ledger writes for [d] as the [n]-th of the log. *)
Definition record_of (d : Ledger.data) (n : nat) (s : Transaction.status_t)
  : Transaction.doc :=
  {| Transaction._id := n;
     Transaction.userId := Ledger.userId d;
     Transaction.gymId := Ledger.gym_of d;
     Transaction.points := Ledger.points d;
     Transaction.type := Ledger.type d;
     Transaction.description := Ledger.description d;
     Transaction.status := s;
     Transaction.metadata := Ledger.metadata d;
     Transaction.createdBy := Ledger.createdBy d |}.

(** No stored record has the identifier that the next record gets. *)
Definition next_id_fresh (db : Db.t) : Prop :=
  Forall (fun y => Transaction._id y <> List.length (Db.transactions db))
    (Db.transactions db).

(** What the errors of the ledger tell. *)
Definition truthful (d : Ledger.data) (db : Db.t) (e : Ledger.error)
  : Prop :=
  (e = Ledger.UserNotFound -> Db.findUser (Ledger.userId d) db = None)
  /\ (e = Ledger.InsufficientPoints ->
      Ledger.type d = "SPEND"
      /\ exists p, Db.balance (Ledger.userId d) db = Some p
                   /\ (p < Ledger.points d)%Q)
  /\ (forall paths, e = Ledger.ValidationError paths ->
      In "gymId" paths ->
      Ledger.gymId d = None
      \/ exists s, Ledger.gymId d = Some s /\ ObjectId.is_hex24 s = false)
  /\ (forall paths, e = Ledger.ValidationError paths ->
      In "type" paths ->
      Ledger.type d <> "EARN" /\ Ledger.type d <> "SPEND").

(** The stored state [db'] is [db] after a ledger call that was applied
    to the account [uid]. *)
Definition by_ledger (uid : ObjectId.t) (db db' : Db.t) : Prop :=
  exists d f x,
    Ledger.createTransaction d f db = (inr x, db')
    /\ Ledger.userId d = uid.

(** Who may write the points of an account through the user update: a
    SUPER_ADMIN, and an ADMIN for an account of role GYM or USER. *)
Definition may_set_points (caller target : User.doc) : Prop :=
  User.role caller = User.SUPER_ADMIN
  \/ (User.role caller = User.ADMIN
      /\ (User.role target = User.GYM \/ User.role target = User.USER)).

(** The path [points] holds what the Number cast makes of the value [v]:
    [null], or a number that is not negative. *)
Definition holds_value (toNumber : string -> option Q) (v : jsval)
    (stored : option Q) : Prop :=
  match Mongoose.castNumber toNumber v with
  | Mongoose.Null => stored = None
  | Mongoose.Value n => stored = Some n /\ (0 <= n)%Q
  | Mongoose.CastError => False
  end.

(** The request is a user update that has written the [points] of its
    body to the account [uid], and no transaction record. *)
Definition by_admin_update (toNumber : string -> option Q)
    (caller : User.doc) (r : Api.request) (uid : ObjectId.t)
    (db db' : Db.t) : Prop :=
  exists valid save_fails id b target stored,
    r = Api.PutUser valid save_fails id b
    /\ Middleware.findUserById (JStr id) db = inr (Some target)
    /\ User._id target = uid
    /\ may_set_points caller target
    /\ UserController.points b <> JUndefined
    /\ Db.stored_points uid db' = Some stored
    /\ holds_value toNumber (UserController.points b) stored
    /\ Db.transactions db' = Db.transactions db.

(** The request is a deletion after which the account [uid] is gone. *)
Definition by_deletion (r : Api.request) (uid : ObjectId.t) (db' : Db.t)
  : Prop :=
  exists delete_fails id,
    r = Api.DeleteUser delete_fails id /\ Db.findUser uid db' = None.

(** The request is a manual grant. *)
Definition manual_grant (r : Api.request) : Prop :=
  exists f save_fails id b ip, r = Api.PostPoints f save_fails id b ip.

(** Accounts are stored under distinct identifiers. *)
Definition unique_accounts (db : Db.t) : Prop :=
  NoDup (map User._id (Db.users db)).

(** The accounts a list response carries. *)
Definition listed (r : UserController.list_response) : list User.doc :=
  match r with
  | UserController.Listed _ _ _ _ users => users
  | _ => []
  end.

End Spec.

(** ** Sample data *)

Module Sample.

Definition gymA : ObjectId.t := "507f1f77bcf86cd799439011".
Definition member : ObjectId.t := "65a000000000000000000001".
Definition admin : ObjectId.t := "65a0000000000000000000ad".

Definition no_metadata : Transaction.metadata_t :=
  {| Transaction.qrCodeId := None; Transaction.deviceInfo := None;
     Transaction.ipAddress := None; Transaction.location := None |}.

Definition account (balance : Q) : User.doc :=
  {| User._id := member; User.role := User.USER;
     User.stored_points := Some balance; User.assignedGyms := [];
     User.isActive := Some true |}.

Definition administrator : User.doc :=
  {| User._id := admin; User.role := User.ADMIN;
     User.stored_points := Some 100; User.assignedGyms := [gymA];
     User.isActive := Some true |}.

(** The sample gym; [None] is a gym for which no code was issued yet. *)
Definition gym (price : Q) (session : option Gym.qr) : Gym.doc :=
  {| Gym._id := gymA; Gym.name := "Gym A"; Gym.pointsRequired := price;
     Gym.qrCode := match session with
                   | Some q => q
                   | None => Gym.unset
                   end |}.

(** One member, one administrator, one gym, an empty log. *)
Definition store (balance price : Q) (session : option Gym.qr) : Db.t :=
  {| Db.users := [account balance; administrator];
     Db.gyms := [gym price session];
     Db.transactions := [] |}.

(** [toISOString] at the instants the samples use. *)
Definition isoStamp (t : Z) : string :=
  if (t =? 0)%Z then "1970-01-01T00:00:00.000Z"
  else if (t =? 60000)%Z then "1970-01-01T00:01:00.000Z"
  else if (t =? 1743249600000)%Z then "2025-03-29T12:00:00.000Z"
  else "".

(** Central European time in the spring of 2025: one hour ahead of UTC
    until 30 March, 01:00 UTC, two hours from then on. *)
Definition springForward : QrGenerator.zone :=
  {| QrGenerator.before := 3600000;
     QrGenerator.change := 1743296400000;
     QrGenerator.after := 7200000 |}.

(** An issuance for the sample gym in UTC, with the default lifetime. *)
Definition issue (uuid : string) (t : Z) (db : Db.t)
  : QrController.generate_response * Db.t :=
  QrController.generateQRCode QrGenerator.utcAddHours isoStamp None uuid t t
    false gymA db.

(** What [generateGymQRCode] returns for the sample gym. *)
Definition issued (uuid : string) (t : Z) (session : option Gym.qr)
  : QrGenerator.qrData :=
  QrGenerator.generateGymQRCode QrGenerator.utcAddHours isoStamp None uuid
    t t (gym 30 session).

Definition payload (token gymId : string) : jsval :=
  JObj [("id", JStr token); ("gymId", JStr gymId)].

Definition grant (amount : Q) (gymId : option ObjectId.t) : Ledger.data :=
  {| Ledger.userId := member; Ledger.gymId := gymId;
     Ledger.points := amount; Ledger.type := "EARN";
     Ledger.description := Transaction.Literal "grant";
     Ledger.metadata := no_metadata; Ledger.createdBy := Some admin |}.

Definition charge (amount : Q) : Ledger.data :=
  {| Ledger.userId := member; Ledger.gymId := Some gymA;
     Ledger.points := amount; Ledger.type := "SPEND";
     Ledger.description := Transaction.Literal "charge";
     Ledger.metadata := no_metadata; Ledger.createdBy := Some admin |}.

Definition root : ObjectId.t := "65a0000000000000000000ff".
Definition desk : ObjectId.t := "65a0000000000000000000de".

Definition superAdministrator : User.doc :=
  {| User._id := root; User.role := User.SUPER_ADMIN;
     User.stored_points := Some 9999; User.assignedGyms := [];
     User.isActive := Some true |}.

(** An operator of the sample gym. *)
Definition operator : User.doc :=
  {| User._id := desk; User.role := User.GYM;
     User.stored_points := Some 100; User.assignedGyms := [gymA];
     User.isActive := Some true |}.

(** The sample store with a super administrator and a gym operator. *)
Definition staffed (balance : Q) (log : list Transaction.doc) : Db.t :=
  {| Db.users := [account balance; administrator; superAdministrator;
                  operator];
     Db.gyms := [gym 30 None];
     Db.transactions := log |}.

(** [Number(s)] at the strings the samples use. *)
Definition readNumber (s : string) : option Q :=
  if s =? "12" then Some 12 else None.

(** Bodies of a user update that carry one field. *)
Definition with_points (v : jsval) : UserController.update_body :=
  {| UserController.role := JUndefined;
     UserController.points := v;
     UserController.isActive := JUndefined |}.

Definition with_role (v : jsval) : UserController.update_body :=
  {| UserController.role := v;
     UserController.points := JUndefined;
     UserController.isActive := JUndefined |}.


(** A record of the operator's own access to the sample gym, as the second
    of the log. *)
Definition operator_record : Transaction.doc :=
  Spec.record_of
    {| Ledger.userId := desk;
       Ledger.gymId := Some gymA;
       Ledger.points := 10; Ledger.type := "SPEND";
       Ledger.description := Transaction.Literal "Gym access: Gym A";
       Ledger.metadata := no_metadata;
       Ledger.createdBy := None |} 1 Transaction.COMPLETED.

(** A session for the sample gym that expires at the instant 1000. *)
Definition session : Gym.qr :=
  {| Gym.code := Some "token-1"; Gym.expiresAt := Some 1000%Z |}.

(** The record of the member's access to the sample gym at a price of 30,
    as the first of the log. *)
Definition access_record : Transaction.doc :=
  Spec.record_of
    {| Ledger.userId := member;
       Ledger.gymId := Some gymA;
       Ledger.points := 30; Ledger.type := "SPEND";
       Ledger.description := Transaction.Literal "Gym access: Gym A";
       Ledger.metadata :=
         {| Transaction.qrCodeId := Some "token-1";
            Transaction.deviceInfo := None;
            Transaction.ipAddress := None;
            Transaction.location := None |};
       Ledger.createdBy := None |} 0 Transaction.COMPLETED.

End Sample.

(** * Properties *)

(** ** Identifiers *)

Lemma lower_fixes_iff (c : ascii) :
  ObjectId.is_hex c = true ->
  (ObjectId.lower c = c <-> ObjectId.is_lower_hex c = true).
Proof.
  destruct c as [b0 b1 b2 b3 b4 b5 b6 b7].
  destruct b0, b1, b2, b3, b4, b5, b6, b7; vm_compute;
    intros H; split; intros K; congruence.
Qed.

Lemma lower_is_lower_hex (c : ascii) :
  ObjectId.is_hex c = true -> ObjectId.is_lower_hex (ObjectId.lower c) = true.
Proof.
  destruct c as [b0 b1 b2 b3 b4 b5 b6 b7].
  destruct b0, b1, b2, b3, b4, b5, b6, b7; vm_compute; congruence.
Qed.

Lemma lower_hex_is_hex (c : ascii) :
  ObjectId.is_lower_hex c = true -> ObjectId.is_hex c = true.
Proof.
  unfold ObjectId.is_hex, ObjectId.is_lower_hex. intros ->. reflexivity.
Qed.

Lemma map_lower_length (s : string) :
  String.length (ObjectId.map ObjectId.lower s) = String.length s.
Proof. induction s as [|c s IH]; simpl; congruence. Qed.

Lemma map_lower_all (s : string) :
  ObjectId.all ObjectId.is_hex s = true ->
  ObjectId.all ObjectId.is_lower_hex (ObjectId.map ObjectId.lower s) = true.
Proof.
  induction s as [|c s IH]; simpl; [reflexivity|].
  intros H. apply andb_true_iff in H as [Hc Hs].
  rewrite (lower_is_lower_hex c Hc), (IH Hs). reflexivity.
Qed.

Lemma map_lower_fixes_iff (s : string) :
  ObjectId.all ObjectId.is_hex s = true ->
  (ObjectId.map ObjectId.lower s = s
   <-> ObjectId.all ObjectId.is_lower_hex s = true).
Proof.
  induction s as [|c s IH]; simpl.
  - intros _. split; reflexivity.
  - intros H. apply andb_true_iff in H as [Hc Hs].
    specialize (IH Hs). pose proof (lower_fixes_iff c Hc) as Hl.
    split.
    + intros E. injection E as E1 E2.
      apply andb_true_iff. split; [apply Hl, E1 | apply IH, E2].
    + intros E. apply andb_true_iff in E as [E1 E2].
      f_equal; [apply Hl, E1 | apply IH, E2].
Qed.

Lemma all_lower_hex_is_hex (s : string) :
  ObjectId.all ObjectId.is_lower_hex s = true ->
  ObjectId.all ObjectId.is_hex s = true.
Proof.
  induction s as [|c s IH]; simpl; [reflexivity|].
  intros H. apply andb_true_iff in H as [Hc Hs].
  rewrite (lower_hex_is_hex c Hc), (IH Hs). reflexivity.
Qed.

(** What a successful cast of a string tells. *)
Lemma cast_ok (v : jsval) (o : ObjectId.t) :
  ObjectId.cast v = ObjectId.CastOk o ->
  exists s, v = JStr s /\ ObjectId.is_hex24 s = true
            /\ o = ObjectId.map ObjectId.lower s.
Proof.
  destruct v; simpl; try discriminate.
  destruct (ObjectId.is_hex24 s) eqn:E; [|discriminate].
  intros H. injection H as <-. eauto.
Qed.

(** A cast identifier is in the printed form, and casting it again gives
    it back. *)
Lemma cast_canonical (s : string) :
  ObjectId.is_hex24 s = true ->
  ObjectId.canonical (ObjectId.map ObjectId.lower s) = true.
Proof.
  unfold ObjectId.is_hex24, ObjectId.canonical. intros H.
  apply andb_true_iff in H as [Hl Ha].
  rewrite map_lower_length, Hl, (map_lower_all s Ha). reflexivity.
Qed.

Lemma cast_of_canonical (s : string) :
  ObjectId.canonical s = true ->
  ObjectId.cast (JStr s) = ObjectId.CastOk s.
Proof.
  unfold ObjectId.canonical, ObjectId.cast, ObjectId.is_hex24. intros H.
  apply andb_true_iff in H as [Hl Ha].
  rewrite Hl, (all_lower_hex_is_hex s Ha). simpl.
  f_equal. apply map_lower_fixes_iff; [apply all_lower_hex_is_hex|]; exact Ha.
Qed.

Lemma canonical_nonempty (s : string) :
  ObjectId.canonical s = true -> (s =? "") = false.
Proof.
  unfold ObjectId.canonical. intros H.
  apply andb_true_iff in H as [Hl _].
  destruct s; [discriminate Hl | reflexivity].
Qed.

(** ** The verifier *)

Lemma strict_eq_string (v : jsval) (s : string) :
  strict_eq v (JStr s) = true <-> v = JStr s.
Proof.
  destruct v; simpl; split; try discriminate.
  - intros H. apply String.eqb_eq in H. congruence.
  - intros H. injection H as ->. apply String.eqb_refl.
Qed.

Lemma strict_eq_opt_string (v : jsval) (o : option string) :
  truthy v = true ->
  (strict_eq v (of_opt_string o) = true <-> exists s, o = Some s /\ v = JStr s).
Proof.
  intros Hv. destruct o as [s|]; simpl.
  - rewrite strict_eq_string. split; [eauto|].
    intros (s' & E & ->). injection E as <-. reflexivity.
  - split.
    + destruct v; simpl in *; discriminate.
    + intros (s & E & _). discriminate.
Qed.

(** What [verifyQRCode] computes, for every payload and every gym: it is
    the validity of the specification. *)
Lemma verifyQRCode_true_iff (now : Z) (payload : jsval) (gym : Gym.doc) :
  QrGenerator.verifyQRCode now payload gym = true <->
  Spec.valid now payload gym.
Proof.
  unfold QrGenerator.verifyQRCode, Spec.valid, Spec.well_shaped,
    Spec.names_gym, Spec.current_session, Gym.isQRCodeExpired.
  destruct (truthy payload) eqn:Tp; simpl;
    [|split; [discriminate | intros [H _]; discriminate]].
  destruct (truthy (prop payload "id")) eqn:Ti; simpl;
    [|split; [discriminate | intros [H _]; discriminate]].
  destruct (truthy (prop payload "gymId")) eqn:Tg; simpl;
    [|split; [discriminate | intros [H _]; discriminate]].
  destruct (strict_eq (prop payload "gymId")
              (JStr (ObjectId.toString (Gym._id gym)))) eqn:Eg; simpl.
  2:{ split; [discriminate|]. intros (_ & H & _).
      apply strict_eq_string in H. congruence. }
  apply strict_eq_string in Eg.
  destruct (Gym.expiresAt (Gym.qrCode gym)) as [e|] eqn:Ee; simpl.
  2:{ split; [discriminate|].
      intros (_ & _ & t & e' & _ & He & _). discriminate He. }
  destruct (now >? e)%Z eqn:Hn; simpl.
  { split; [discriminate|].
    intros (_ & _ & t & e' & _ & He & Hle & _).
    injection He as <-. apply Z.gtb_lt in Hn. lia. }
  pose proof (strict_eq_opt_string (prop payload "id")
                (Gym.code (Gym.qrCode gym)) Ti) as Hc.
  destruct (strict_eq (prop payload "id")
              (of_opt_string (Gym.code (Gym.qrCode gym)))); simpl.
  - split; [intros _|reflexivity]. repeat split; auto.
    destruct Hc as [Hc _]. destruct (Hc eq_refl) as (s & Hs & Hp).
    exists s, e. repeat split; auto.
    rewrite Z.gtb_ltb in Hn. apply Z.ltb_ge in Hn. exact Hn.
  - split; [discriminate|].
    intros (_ & _ & t & e' & Ht & _ & _ & Hp).
    destruct Hc as [_ Hc]. apply Hc. eauto.
Qed.

(** A gym for which no code was ever issued verifies nothing. *)
Lemma verifyQRCode_never_issued (now : Z) (payload : jsval) (gym : Gym.doc) :
  Gym.qrCode gym = Gym.unset ->
  QrGenerator.verifyQRCode now payload gym = false.
Proof.
  intros Hq.
  destruct (QrGenerator.verifyQRCode now payload gym) eqn:V; [|reflexivity].
  apply verifyQRCode_true_iff in V as (_ & _ & t & e & Ht & _).
  rewrite Hq in Ht. discriminate Ht.
Qed.

(** C2.  For every payload and every gym, [verifyQRCode] answers true
    exactly when the payload has the expected shape, its gym identity is
    the gym's, the gym has a current session (a token and an expiry), the
    instant is not after the expiry and the payload's token is the
    session's.  In particular it answers false for a gym that has no
    current session. *)
Theorem verifyQRCode_is_validity (now : Z) (payload : jsval)
    (gym : Gym.doc) :
  (QrGenerator.verifyQRCode now payload gym = true
   <-> Spec.well_shaped payload = true
       /\ Spec.names_gym payload gym
       /\ exists token expiry,
            Gym.code (Gym.qrCode gym) = Some token
            /\ Gym.expiresAt (Gym.qrCode gym) = Some expiry
            /\ (now <= expiry)%Z
            /\ prop payload "id" = JStr token)
  /\ (Spec.no_session gym ->
      QrGenerator.verifyQRCode now payload gym = false).
Proof.
  split; [apply verifyQRCode_true_iff|].
  intros Hn.
  destruct (QrGenerator.verifyQRCode now payload gym) eqn:V; [|reflexivity].
  apply verifyQRCode_true_iff in V as (_ & _ & t & e & Ht & He & _).
  destruct Hn as [Hn|Hn]; congruence.
Qed.

(** The payload of the sample session against the sample gym, before and
    after the expiry, and against the gym before any code was issued. *)
Example verifyQRCode_at_samples :
  QrGenerator.verifyQRCode 1000 (Sample.payload "token-1" Sample.gymA)
    (Sample.gym 30 (Some Sample.session)) = true
  /\ QrGenerator.verifyQRCode 1001 (Sample.payload "token-1" Sample.gymA)
       (Sample.gym 30 (Some Sample.session)) = false
  /\ QrGenerator.verifyQRCode 0 (Sample.payload "token-1" Sample.gymA)
       (Sample.gym 30 None) = false.
Proof. repeat split; reflexivity. Qed.

(** ** Issuing sessions *)

(** The lifetime is 24 hours when [QR_CODE_EXPIRY] is unset, and also with
    the ["24h"] of [docker-compose.yml]. *)
Example expiryHours_default :
  QrGenerator.expiryHours None = 24%Z
  /\ QrGenerator.expiryHours (Some "24h") = 24%Z.
Proof. split; reflexivity. Qed.

Lemma find_map_same_key {A : Type} (key : A -> string) (f : A -> A)
    (k : string) (l : list A) :
  (forall x, key (f x) = key x) ->
  find (fun x => ObjectId.eqb (key x) k) (map f l)
  = option_map f (find (fun x => ObjectId.eqb (key x) k) l).
Proof.
  intros Hk. induction l as [|a l IH]; simpl; [reflexivity|].
  rewrite Hk. destruct (ObjectId.eqb (key a) k); [reflexivity | exact IH].
Qed.

Lemma findGym_saveGym (o : ObjectId.t) (g : Gym.doc) (db : Db.t) :
  Db.findGym o (Db.saveGym g db)
  = option_map (fun h => if ObjectId.eqb (Gym._id h) (Gym._id g)
                         then g else h) (Db.findGym o db).
Proof.
  unfold Db.findGym, Db.saveGym. simpl.
  apply (find_map_same_key Gym._id). intros h.
  destruct (ObjectId.eqb (Gym._id h) (Gym._id g)) eqn:E; [|reflexivity].
  apply String.eqb_eq in E. congruence.
Qed.

Lemma findGym_id (o : ObjectId.t) (g : Gym.doc) (db : Db.t) :
  Db.findGym o db = Some g -> Gym._id g = o.
Proof.
  unfold Db.findGym. intros H. apply find_some in H as [_ H].
  apply String.eqb_eq in H. exact H.
Qed.

Lemma findUser_saveUser (o : ObjectId.t) (u : User.doc) (db : Db.t) :
  Db.findUser o (Db.saveUser u db)
  = option_map (fun v => if ObjectId.eqb (User._id v) (User._id u)
                         then u else v) (Db.findUser o db).
Proof.
  unfold Db.findUser, Db.saveUser. simpl.
  apply (find_map_same_key User._id). intros v.
  destruct (ObjectId.eqb (User._id v) (User._id u)) eqn:E; [|reflexivity].
  apply String.eqb_eq in E. congruence.
Qed.

Lemma findUser_id (o : ObjectId.t) (u : User.doc) (db : Db.t) :
  Db.findUser o db = Some u -> User._id u = o.
Proof.
  unfold Db.findUser. intros H. apply find_some in H as [_ H].
  apply String.eqb_eq in H. exact H.
Qed.

Section Issued.

Variable addHours : Z -> Z -> Z.
Variable toISOString : Z -> string.

(** What a successful [generateQRCode] has done: the gym was found under
    the identifier read from the route, and it is stored again with the new
    token and expiry as its [qrCode]. *)
Lemma generateQRCode_ok (env : option string) (uuid : string) (t0 t : Z)
    (sf : bool) (gymId : string) (db db1 : Db.t) (q : QrGenerator.qrData) :
  QrController.generateQRCode addHours toISOString env uuid t0 t sf gymId db
  = (QrController.Generated q, db1) ->
  exists gym,
    Gym._id gym = ObjectId.map ObjectId.lower gymId
    /\ ObjectId.canonical (Gym._id gym) = true
    /\ Db.findGym (Gym._id gym) db = Some gym
    /\ q = QrGenerator.generateGymQRCode addHours toISOString env uuid t0 t gym
    /\ db1 = Db.saveGym
               (Gym.set_qrCode gym
                  {| Gym.code := Some uuid;
                     Gym.expiresAt :=
                       Some (addHours t (QrGenerator.expiryHours env)) |})
               db.
Proof.
  unfold QrController.generateQRCode, QrController.findGymById.
  destruct (ObjectId.cast (JStr gymId)) as [|o|] eqn:Ec; try discriminate.
  apply cast_ok in Ec as (s & Es & Hs & ->). injection Es as <-.
  destruct (Db.findGym _ db) as [gym|] eqn:Ef; [|discriminate].
  destruct sf; [discriminate|].
  intros H. injection H as <- <-.
  pose proof (findGym_id _ _ _ Ef) as Hid.
  exists gym. rewrite Hid. repeat split; auto using cast_canonical.
Qed.

(** After an issuance, a scan of any payload that names the gym in canonical
    form resolves to the stored gym, which carries the issued session. *)
Lemma issued_gym_resolves (gym : Gym.doc) (session : Gym.qr) (db : Db.t)
    (payload : jsval) :
  ObjectId.canonical (Gym._id gym) = true ->
  Db.findGym (Gym._id gym) db = Some gym ->
  truthy payload = true ->
  prop payload "gymId" = JStr (ObjectId.toString (Gym._id gym)) ->
  QrController.resolveGym payload
    (Db.saveGym (Gym.set_qrCode gym session) db)
  = inr (Some (Gym.set_qrCode gym session)).
Proof.
  intros Hc Hf Ht Hp. unfold QrController.resolveGym.
  destruct payload; try discriminate Ht;
    unfold QrController.findGymById; rewrite Hp;
    unfold ObjectId.toString; rewrite (cast_of_canonical _ Hc);
    rewrite findGym_saveGym; simpl; rewrite Hf; simpl;
    unfold ObjectId.eqb; rewrite String.eqb_refl; reflexivity.
Qed.

End Issued.

Lemma nonempty_eqb (s : string) : s <> "" -> (s =? "") = false.
Proof. intros H. apply String.eqb_neq. exact H. Qed.

(** Against a gym that carries the session [(uuid, e)], a payload with
    that token and the gym's identity verifies at exactly the instants up to
    and including [e]. *)
Lemma session_payload_verifies (gym : Gym.doc) (uuid : string) (e now : Z)
    (payload : jsval) :
  ObjectId.canonical (Gym._id gym) = true ->
  uuid <> "" ->
  truthy payload = true ->
  prop payload "id" = JStr uuid ->
  prop payload "gymId" = JStr (ObjectId.toString (Gym._id gym)) ->
  QrGenerator.verifyQRCode now payload
    (Gym.set_qrCode gym {| Gym.code := Some uuid; Gym.expiresAt := Some e |})
  = (now <=? e)%Z.
Proof.
  intros Hc Hu Ht Hi Hg.
  destruct (now <=? e)%Z eqn:Hn.
  - apply verifyQRCode_true_iff. split; [|split].
    + unfold Spec.well_shaped. rewrite Ht, Hi, Hg. simpl.
      unfold ObjectId.toString.
      rewrite (nonempty_eqb _ Hu), (canonical_nonempty _ Hc). reflexivity.
    + exact Hg.
    + exists uuid, e. simpl. repeat split; auto.
      apply Z.leb_le. exact Hn.
  - destruct (QrGenerator.verifyQRCode _ _ _) eqn:V; [|reflexivity].
    apply verifyQRCode_true_iff in V as (_ & _ & tok & e' & _ & He & Hle & _).
    simpl in He. injection He as <-. apply Z.leb_gt in Hn. lia.
Qed.

(** Against a gym whose token is another one, a payload verifies at no
    instant. *)
Lemma other_token_never_verifies (gym : Gym.doc) (uuid other : string)
    (now : Z) (payload : jsval) :
  uuid <> other ->
  prop payload "id" = JStr uuid ->
  Gym.code (Gym.qrCode gym) = Some other ->
  QrGenerator.verifyQRCode now payload gym = false.
Proof.
  intros Hne Hi Hc.
  destruct (QrGenerator.verifyQRCode now payload gym) eqn:V; [|reflexivity].
  apply verifyQRCode_true_iff in V as (_ & _ & tok & e & Ht & _ & _ & Hp).
  congruence.
Qed.

(** C6.  After a first issuance the issued payload resolves the gym, which
    carries the first token, and verifies at every instant up to the first
    expiry.  After a second issuance for the same gym, with a fresh token,
    the gym carries the second token and expiry, and the first payload
    still resolves the gym and is rejected at every instant, so also before
    the first expiry. *)
Theorem second_issue_supersedes_first
    (addHours : Z -> Z -> Z) (toISOString : Z -> string)
    (env1 env2 : option string) (uuid1 uuid2 : string) (a0 a b0 b : Z)
    (sf1 sf2 : bool) (gymId : string) (db db1 db2 : Db.t)
    (q1 q2 : QrGenerator.qrData) :
  uuid1 <> "" ->
  uuid1 <> uuid2 ->
  QrController.generateQRCode addHours toISOString env1 uuid1 a0 a sf1
    gymId db = (QrController.Generated q1, db1) ->
  QrController.generateQRCode addHours toISOString env2 uuid2 b0 b sf2
    gymId db1 = (QrController.Generated q2, db2) ->
  (exists g1,
     QrController.resolveGym (QrGenerator.data q1) db1 = inr (Some g1)
     /\ Gym.code (Gym.qrCode g1) = Some uuid1
     /\ forall now,
          (now <= QrGenerator.expiresAt q1)%Z ->
          QrGenerator.verifyQRCode now (QrGenerator.data q1) g1 = true)
  /\ (exists g2,
        QrController.resolveGym (QrGenerator.data q1) db2 = inr (Some g2)
        /\ Gym.qrCode g2
           = {| Gym.code := Some uuid2;
                Gym.expiresAt := Some (QrGenerator.expiresAt q2) |}
        /\ forall now,
             QrGenerator.verifyQRCode now (QrGenerator.data q1) g2 = false).
Proof.
  intros Hu Hne H1 H2.
  apply generateQRCode_ok in H1 as (g1 & Hid1 & Hc1 & Hf1 & -> & ->).
  apply generateQRCode_ok in H2 as (g2 & Hid2 & Hc2 & Hf2 & -> & ->).
  assert (Hsame : Gym._id g2 = Gym._id g1) by congruence.
  split.
  - eexists. split; [apply issued_gym_resolves; auto|].
    split; [reflexivity|].
    intros now Hn. rewrite session_payload_verifies; auto.
    apply Z.leb_le. exact Hn.
  - eexists. split; [|split].
    + apply issued_gym_resolves; auto.
      simpl. unfold ObjectId.toString. rewrite Hsame. reflexivity.
    + reflexivity.
    + intros now.
      apply (other_token_never_verifies _ uuid1 uuid2); auto.
Qed.

(** X30.  In a zone that keeps one offset from UTC, and with
    [QR_CODE_EXPIRY] unset, the payload of a session issued at [T] verifies
    23 h 59 min later and is rejected 24 h 1 min later. *)
Theorem default_ttl_valid_before_invalid_after
    (addHours : Z -> Z -> Z) (toISOString : Z -> string)
    (uuid : string) (t0 T : Z) (sf : bool) (gymId : string)
    (db db1 : Db.t) (q : QrGenerator.qrData) :
  QrGenerator.fixed_offset addHours ->
  uuid <> "" ->
  QrController.generateQRCode addHours toISOString None uuid t0 T sf
    gymId db = (QrController.Generated q, db1) ->
  exists g,
    QrController.resolveGym (QrGenerator.data q) db1 = inr (Some g)
    /\ QrGenerator.verifyQRCode (T + (23 * 60 + 59) * 60000)
         (QrGenerator.data q) g = true
    /\ QrGenerator.verifyQRCode (T + (24 * 60 + 1) * 60000)
         (QrGenerator.data q) g = false.
Proof.
  intros Hz Hu H.
  apply generateQRCode_ok in H as (g & Hid & Hc & Hf & -> & ->).
  eexists. split; [apply issued_gym_resolves; auto|].
  rewrite !session_payload_verifies by auto.
  rewrite Hz. unfold QrGenerator.expiryHours. simpl.
  split; [apply Z.leb_le | apply Z.leb_gt]; lia.
Qed.

(** C7, where the zone's offset changes: the expiry is set 24 hours of
    local clock time ahead.  In a zone that moves its clocks forward by an
    hour on 30 March 2025 at 01:00 UTC, a session issued the day before at
    12:00 UTC with the default lifetime expires 23 hours later, and its
    payload is rejected 23 h 59 min after the issuance. *)
Theorem session_is_an_hour_short_across_clock_change :
  let T := 1743249600000%Z in
  let r := QrController.generateQRCode
             (QrGenerator.zoneAddHours Sample.springForward) Sample.isoStamp
             None "token-1" T T false Sample.gymA (Sample.store 50 30 None) in
  exists q g,
    fst r = QrController.Generated q
    /\ QrGenerator.expiresAt q = (T + 23 * 3600000)%Z
    /\ QrController.resolveGym (QrGenerator.data q) (snd r) = inr (Some g)
    /\ QrGenerator.verifyQRCode (T + (23 * 60 + 59) * 60000)
         (QrGenerator.data q) g = false.
Proof.
  do 2 eexists. repeat split.
Qed.

(** ** Scans *)

(** C10 (as amended).  When the gym of a scan resolves, the verifier's
    comparison of the payload's gym identity with the resolved gym's
    succeeds exactly when the payload carries that identity as a string in
    the printed, lower-case form. *)
Theorem resolved_gym_matches_iff_canonical (payload : jsval) (db : Db.t)
    (g : Gym.doc) :
  QrController.resolveGym payload db = inr (Some g) ->
  (strict_eq (prop payload "gymId") (JStr (ObjectId.toString (Gym._id g)))
   = true
   <-> exists s, prop payload "gymId" = JStr s
                 /\ ObjectId.canonical s = true).
Proof.
  intros H.
  assert (Hf : QrController.findGymById (prop payload "gymId") db
               = inr (Some g)).
  { unfold QrController.resolveGym in H.
    destruct payload; try discriminate H; exact H. }
  clear H. unfold QrController.findGymById in Hf.
  destruct (ObjectId.cast (prop payload "gymId")) as [|o|] eqn:Ec;
    try discriminate Hf.
  injection Hf as Hf. apply findGym_id in Hf.
  apply cast_ok in Ec as (s & Es & Hs & ->).
  rewrite Es, strict_eq_string. unfold ObjectId.toString. rewrite Hf.
  unfold ObjectId.is_hex24 in Hs. apply andb_true_iff in Hs as [Hl Ha].
  split.
  - intros E. injection E as E. exists s. split; [reflexivity|].
    unfold ObjectId.canonical. rewrite Hl. simpl.
    apply (map_lower_fixes_iff s Ha). symmetry. exact E.
  - intros (s' & E & Hc). injection E as <-.
    unfold ObjectId.canonical in Hc. apply andb_true_iff in Hc as [_ Hc].
    f_equal. symmetry. apply (map_lower_fixes_iff s Ha). exact Hc.
Qed.

(** C10, the claim as written fails: a payload that writes the gym's
    identity with upper-case digits resolves the gym, the comparison fails,
    and that comparison is what denies the scan: the same payload with the
    identity in lower case is granted. *)
Lemma uppercase_identity_resolves_and_is_denied :
  let session := {| Gym.code := Some "token-1";
                    Gym.expiresAt := Some 1000%Z |} in
  let db := Sample.store 50 30 (Some session) in
  let upper := Sample.payload "token-1" "507F1F77BCF86CD799439011" in
  let lower := Sample.payload "token-1" "507f1f77bcf86cd799439011" in
  QrController.resolveGym upper db
  = inr (Some (Sample.gym 30 (Some session)))
  /\ strict_eq (prop upper "gymId")
       (JStr (ObjectId.toString Sample.gymA)) = false
  /\ fst (QrController.scanQRCode 0 Ledger.no_faults Sample.member
            (QrController.Parsed upper) None None db)
     = QrController.InvalidOrExpired
  /\ exists x,
       fst (QrController.scanQRCode 0 Ledger.no_faults Sample.member
              (QrController.Parsed lower) None None db)
       = QrController.AccessGranted x 20.
Proof.
  repeat split; try reflexivity.
  eexists. vm_compute. reflexivity.
Qed.

(** ** The ledger *)

Lemma Qle_bool_true (a b : Q) : Qle_bool a b = true -> (a <= b)%Q.
Proof. apply Qle_bool_iff. Qed.

Lemma Qltb_true (a b : Q) : Ledger.Qltb a b = true <-> (a < b)%Q.
Proof.
  unfold Ledger.Qltb. rewrite negb_true_iff. split.
  - intros H. apply Qnot_le_lt. intros K.
    apply Qle_bool_iff in K. congruence.
  - intros H. destruct (Qle_bool b a) eqn:E; [|reflexivity].
    apply Qle_bool_iff in E. exfalso. exact (Qlt_not_le _ _ H E).
Qed.

(** What a [try] block that reaches its end has done to the working copy. *)
Lemma try_block_ok (d : Ledger.data) (f : Ledger.faults) (w w' : Db.t)
    (x : Transaction.doc) :
  Ledger.try_block d f w = inr (x, w') ->
  exists user user' pending,
    Db.findUser (Ledger.userId d) w = Some user
    /\ Ledger.schema_errors d = []
    /\ Ledger.findById_fails f = false /\ Ledger.create_fails f = false
    /\ Ledger.user_save_fails f = false
    /\ Ledger.transaction_save_fails f = false
    /\ ((Ledger.type d =? "EARN") = false ->
        (Ledger.type d =? "SPEND") = true ->
        Ledger.Qltb (User.points user) (Ledger.points d) = false)
    /\ User.points_valid user' = true
    /\ User._id user' = User._id user
    /\ x = Transaction.set_status pending Transaction.COMPLETED
    /\ Transaction.status pending = Transaction.PENDING
    /\ w' = Db.saveTransaction x
              (Db.saveUser user' (Db.insertTransaction pending w)).
Proof.
  unfold Ledger.try_block, Ledger.create, Ledger.save_user,
    Ledger.save_transaction.
  unfold Ledger.bind, Ledger.await, Ledger.read, Ledger.write, Ledger.ret,
    Ledger.throw.
  destruct (Ledger.findById_fails f); [discriminate|].
  destruct (Db.findUser (Ledger.userId d) w) as [user|]; [|discriminate].
  destruct (Ledger.schema_errors d); [|discriminate].
  destruct (Ledger.create_fails f); [discriminate|].
  cbv beta iota.
  destruct (Ledger.type d =? "EARN");
    [|destruct (Ledger.type d =? "SPEND");
      [destruct (Ledger.Qltb _ _) eqn:Hlt; [discriminate|]|]];
    (destruct (User.points_valid _) eqn:Hv; [|discriminate]);
    (destruct (Ledger.user_save_fails f); [discriminate|]);
    (destruct (Ledger.transaction_save_fails f); [discriminate|]);
    intros H; injection H as <- <-;
    match goal with
    | K : User.points_valid ?u = true |- _ => exists user, u
    end; eexists; repeat split; eauto; intros; congruence.
Qed.

(** A failed call leaves the stored state as it was. *)
Lemma createTransaction_failed (d : Ledger.data) (f : Ledger.faults)
    (db db' : Db.t) (e : Ledger.error) :
  Ledger.createTransaction d f db = (inl e, db') -> db' = db.
Proof.
  unfold Ledger.createTransaction, Ledger.abortTransaction.
  destruct (Ledger.startSession_fails f).
  - intros H. injection H as _ <-. reflexivity.
  - destruct (Ledger.try_block d f _) as [e'|[x w']].
    + intros H. injection H as _ <-. reflexivity.
    + destruct (Ledger.commit_fails f); intros H; [|discriminate H].
      injection H as _ <-. reflexivity.
Qed.

(** A successful call has committed the working copy of its [try] block. *)
Lemma createTransaction_applied (d : Ledger.data) (f : Ledger.faults)
    (db db' : Db.t) (x : Transaction.doc) :
  Ledger.createTransaction d f db = (inr x, db') ->
  Ledger.try_block d f db = inr (x, db').
Proof.
  unfold Ledger.createTransaction, Ledger.commitTransaction,
    Ledger.startTransaction.
  destruct (Ledger.startSession_fails f); [discriminate|].
  destruct (Ledger.try_block d f db) as [e'|[x' w']]; [discriminate|].
  destruct (Ledger.commit_fails f); [discriminate|].
  intros H. injection H as <- <-. reflexivity.
Qed.

(** The failures the specification names do make the call fail: a missing
    account, a SPEND above the balance, a rejected storage call. *)
Lemma createTransaction_fails_when (d : Ledger.data) (f : Ledger.faults)
    (db : Db.t) :
  Db.findUser (Ledger.userId d) db = None
  \/ (Ledger.type d = "SPEND"
      /\ exists u, Db.findUser (Ledger.userId d) db = Some u
                   /\ (User.points u < Ledger.points d)%Q)
  \/ Spec.some_fault f = true ->
  exists e, fst (Ledger.createTransaction d f db) = inl e.
Proof.
  intros H.
  destruct (Ledger.createTransaction d f db) as [[e|x] db'] eqn:E;
    [simpl; eauto | exfalso].
  assert (Hs : Ledger.startSession_fails f = false
               /\ Ledger.commit_fails f = false).
  { revert E. unfold Ledger.createTransaction.
    destruct (Ledger.startSession_fails f); [discriminate|].
    destruct (Ledger.try_block d f _) as [?|[? ?]]; [discriminate|].
    destruct (Ledger.commit_fails f); [discriminate|]. auto. }
  apply createTransaction_applied in E.
  apply try_block_ok in E
    as (user & user' & p & Hf & _ & F1 & F2 & F3 & F4 & Hlt & _).
  destruct Hs as [F0 F5].
  destruct H as [H | [(Ht & u & Hu & Hp) | H]].
  - congruence.
  - rewrite Hf in Hu. injection Hu as <-.
    apply Qltb_true in Hp.
    rewrite Hlt in Hp by (rewrite Ht; reflexivity). discriminate Hp.
  - unfold Spec.some_fault in H.
    rewrite F0, F1, F2, F3, F4, F5 in H. discriminate.
Qed.

(** C3.  When [createTransaction] fails, for whatever reason, the stored
    state is the one before the call: the account's balance is unchanged
    and the transaction log holds no record of the call, COMPLETED or
    PENDING. *)
Theorem failed_call_leaves_store_unchanged (d : Ledger.data)
    (f : Ledger.faults) (db db' : Db.t) (e : Ledger.error) :
  Ledger.createTransaction d f db = (inl e, db') ->
  Db.balance (Ledger.userId d) db' = Db.balance (Ledger.userId d) db
  /\ Db.transactions db' = Db.transactions db
  /\ db' = db.
Proof.
  intros H. apply createTransaction_failed in H. subst db'. auto.
Qed.

(** A call that is applied leaves its account with a balance that passed
    the schema's [min: 0]. *)
Lemma applied_users (d : Ledger.data) (f : Ledger.faults) (db db' : Db.t)
    (x : Transaction.doc) :
  Ledger.createTransaction d f db = (inr x, db') ->
  exists u, (0 <= User.points u)%Q
            /\ Db.users db'
               = map (fun v => if ObjectId.eqb (User._id v) (User._id u)
                               then u else v) (Db.users db).
Proof.
  intros H. apply createTransaction_applied, try_block_ok in H
    as (user & u & p & _ & _ & _ & _ & _ & _ & _ & Hv & _ & _ & _ & ->).
  exists u. split; [|reflexivity].
  apply Qle_bool_true. exact Hv.
Qed.

Lemma createTransaction_keeps_nonneg (d : Ledger.data) (f : Ledger.faults)
    (db : Db.t) :
  Spec.balances_nonneg db ->
  Spec.balances_nonneg (snd (Ledger.createTransaction d f db)).
Proof.
  intros Hdb.
  destruct (Ledger.createTransaction d f db) as [[e|x] db'] eqn:E; simpl.
  - apply createTransaction_failed in E. subst. exact Hdb.
  - apply applied_users in E as (u & Hu & Hmap).
    unfold Spec.balances_nonneg in *. rewrite Hmap.
    apply Forall_map. eapply Forall_impl; [|exact Hdb].
    intros v Hv. simpl.
    destruct (ObjectId.eqb (User._id v) (User._id u)); assumption.
Qed.

(** The same, for any sequence of calls, applied or not. *)
Lemma trace_nonneg (calls : list (Ledger.data * Ledger.faults)) :
  forall db, Spec.balances_nonneg db ->
             Forall Spec.balances_nonneg (Spec.trace calls db).
Proof.
  induction calls as [|[d f] rest IH]; intros db Hdb; simpl.
  - constructor.
  - pose proof (createTransaction_keeps_nonneg d f db Hdb) as H1.
    constructor; [exact H1 | apply IH, H1].
Qed.

(** Whatever the store held before, the account of an applied call has a
    non-negative balance afterwards. *)
Lemma applied_account_nonneg (d : Ledger.data) (f : Ledger.faults)
    (db db' : Db.t) (x : Transaction.doc) (p : Q) :
  Ledger.createTransaction d f db = (inr x, db') ->
  Db.balance (Ledger.userId d) db' = Some p -> (0 <= p)%Q.
Proof.
  intros H. apply createTransaction_applied, try_block_ok in H
    as (user & u & pending & Hf & _ & _ & _ & _ & _ & _ & Hv & Hid & _ & _
        & ->).
  unfold Db.balance.
  change (Db.findUser (Ledger.userId d)
            (Db.saveTransaction x
               (Db.saveUser u (Db.insertTransaction pending db))))
    with (Db.findUser (Ledger.userId d)
            (Db.saveUser u (Db.insertTransaction pending db))).
  rewrite findUser_saveUser.
  change (Db.findUser (Ledger.userId d) (Db.insertTransaction pending db))
    with (Db.findUser (Ledger.userId d) db).
  rewrite Hf. simpl. rewrite Hid. unfold ObjectId.eqb.
  rewrite String.eqb_refl. intros E. injection E as <-.
  apply Qle_bool_true. exact Hv.
Qed.

(** C4.  From a store whose balances are non-negative, after each call of
    a sequence of successfully applied ledger transactions every account's
    balance is non-negative. *)
Theorem balances_nonneg_after_each_application
    (calls : list (Ledger.data * Ledger.faults)) (db : Db.t) :
  Spec.balances_nonneg db ->
  Spec.all_applied calls db = true ->
  Forall Spec.balances_nonneg (Spec.trace calls db).
Proof.
  intros Hdb _. apply trace_nonneg, Hdb.
Qed.

(** C8 (as amended).  An amount below 1, so every amount that is zero or
    negative and every fraction below 1, makes [createTransaction] fail and
    leaves the stored state as it was; when the session starts and the
    account is found, the failure is the validation error of [points]. *)
Theorem amount_below_one_is_rejected (d : Ledger.data) (f : Ledger.faults)
    (db : Db.t) :
  (Ledger.points d < 1)%Q ->
  exists e,
    Ledger.createTransaction d f db = (inl e, db)
    /\ (Ledger.startSession_fails f = false ->
        Ledger.findById_fails f = false ->
        Db.findUser (Ledger.userId d) db <> None ->
        exists paths, e = Ledger.ValidationError paths /\ In "points" paths).
Proof.
  intros Hp. apply Qltb_true in Hp.
  assert (Hs : exists paths, Ledger.schema_errors d = paths
                             /\ In "points" paths).
  { eexists. split; [reflexivity|]. unfold Ledger.schema_errors.
    rewrite Hp. apply in_or_app. right. apply in_or_app. left.
    simpl. auto. }
  destruct Hs as (paths & Hs & Hin).
  unfold Ledger.createTransaction, Ledger.abortTransaction,
    Ledger.startTransaction.
  destruct (Ledger.startSession_fails f).
  { eexists. split; [reflexivity|]. discriminate. }
  unfold Ledger.try_block, Ledger.bind, Ledger.await, Ledger.read,
    Ledger.throw.
  destruct (Ledger.findById_fails f).
  { eexists. split; [reflexivity|]. discriminate. }
  destruct (Db.findUser (Ledger.userId d) db) as [user|].
  2:{ eexists. split; [reflexivity|]. intros _ _ K. congruence. }
  unfold Ledger.create. rewrite Hs.
  destruct paths as [|p ps]; [contradiction|].
  unfold Ledger.throw. eexists. split; [reflexivity|]. eauto.
Qed.

(** C8, the claim as written fails for a non-integer amount: a grant of
    3/2 is applied, the record is written and the balance moves. *)
Lemma fractional_amount_is_applied :
  let db := Sample.store 5 30 None in
  let r := Ledger.createTransaction
             (Sample.grant (3 # 2) (Some Sample.gymA)) Ledger.no_faults db in
  (exists x, fst r = inr x
             /\ Transaction.status x = Transaction.COMPLETED
             /\ Transaction.points x = 3 # 2)
  /\ List.length (Db.transactions (snd r)) = 1%nat
  /\ Db.balance Sample.member db = Some 5
  /\ Db.balance Sample.member (snd r) = Some (13 # 2).
Proof.
  repeat split; try reflexivity.
  eexists. repeat split.
Qed.

(** ** The scenarios of the access gateway *)

(** Scenario A: balance 50, price 30: the scan is granted, the balance is
    20 and the log holds one COMPLETED SPEND record of 30. *)
Example scan_scenario_A :
  let session := {| Gym.code := Some "token-1";
                    Gym.expiresAt := Some 1000%Z |} in
  let r := QrController.scanQRCode 0 Ledger.no_faults Sample.member
             (QrController.Parsed (Sample.payload "token-1" Sample.gymA))
             (Some "turnstile") None (Sample.store 50 30 (Some session)) in
  Db.balance Sample.member (snd r) = Some 20
  /\ exists x,
       fst r = QrController.AccessGranted x 20
       /\ Db.transactions (snd r) = [x]
       /\ Transaction.status x = Transaction.COMPLETED
       /\ Transaction.type x = "SPEND"
       /\ Transaction.points x = 30.
Proof.
  split; [reflexivity|]. eexists. repeat split.
Qed.

(** Scenario B: balance 10, price 30: the scan is denied for lack of
    points, and nothing is stored. *)
Example scan_scenario_B :
  let session := {| Gym.code := Some "token-1";
                    Gym.expiresAt := Some 1000%Z |} in
  let db := Sample.store 10 30 (Some session) in
  QrController.scanQRCode 0 Ledger.no_faults Sample.member
    (QrController.Parsed (Sample.payload "token-1" Sample.gymA))
    (Some "turnstile") None db
  = (QrController.NotEnoughPoints 30 (Some 10), db).
Proof. reflexivity. Qed.

(** ** The handlers in front of the ledger *)

(** The ledger rejects every record without a gym, whatever else it holds. *)
Lemma gymless_record_is_rejected (d : Ledger.data) (f : Ledger.faults)
    (db : Db.t) :
  Ledger.gymId d = None ->
  exists e, Ledger.createTransaction d f db = (inl e, db).
Proof.
  intros Hg.
  destruct (Ledger.createTransaction d f db) as [[e|x] db'] eqn:E.
  - pose proof (createTransaction_failed _ _ _ _ _ E). subst. eauto.
  - apply createTransaction_applied, try_block_ok in E
      as (_ & _ & _ & _ & Hs & _).
    unfold Ledger.schema_errors, Ledger.gym_of in Hs. rewrite Hg in Hs.
    discriminate Hs.
Qed.

(** The same grant through POST /api/transactions goes through the ledger
    alone: the balance is 45 and the log holds the one COMPLETED EARN record
    created by the administrator. *)
Example manual_transaction_scenario_D :
  let db := Sample.store 5 30 None in
  let body := {| TransactionController.userId := Sample.member;
                 TransactionController.gymId := Sample.gymA;
                 TransactionController.points := 40;
                 TransactionController.type := "EARN";
                 TransactionController.description := None |} in
  let r := TransactionController.postTransaction Ledger.no_faults
             Sample.administrator body None db in
  Db.balance Sample.member (snd r) = Some 45
  /\ exists x,
       fst r = TransactionController.Created x
       /\ Db.transactions (snd r) = [x]
       /\ Transaction.status x = Transaction.COMPLETED
       /\ Transaction.type x = "EARN"
       /\ Transaction.points x = 40
       /\ Transaction.createdBy x = Some Sample.admin.
Proof.
  split; [reflexivity|]. eexists. repeat split.
Qed.

(** The validators of that route turn a non-integer amount away before the
    ledger is called. *)
Example manual_transaction_fractional_amount :
  let db := Sample.store 5 30 None in
  let body := {| TransactionController.userId := Sample.member;
                 TransactionController.gymId := Sample.gymA;
                 TransactionController.points := 3 # 2;
                 TransactionController.type := "EARN";
                 TransactionController.description := None |} in
  TransactionController.postTransaction Ledger.no_faults
    Sample.administrator body None db
  = (TransactionController.Invalid, db).
Proof. reflexivity. Qed.

(** POST /api/users/:id/points declares the same validator, but [addPoints]
    never reads its result: a fractional amount reaches the ledger and is
    applied. *)
Example manual_grant_fractional_amount :
  let db := Sample.store 5 30 None in
  let body := {| UserController.amount := 3 # 2;
                 UserController.reason := None;
                 UserController.gymId := Some Sample.gymA |} in
  let r := UserController.postPoints Ledger.no_faults false
             Sample.administrator Sample.member body None db in
  Db.balance Sample.member (snd r) = Some 8
  /\ List.length (Db.transactions (snd r)) = 1%nat.
Proof. split; reflexivity. Qed.

(** A manual grant that names its gym with a text that is no identifier
    is rejected like one that names none. *)
Example manual_grant_with_unreadable_gym :
  let db := Sample.store 5 30 None in
  let body := {| UserController.amount := 40;
                 UserController.reason := None;
                 UserController.gymId := Some "xyz" |} in
  let r := UserController.postPoints Ledger.no_faults false
             Sample.administrator Sample.member body None db in
  fst r = UserController.PointsFailed
            (QrController.LedgerError (Ledger.ValidationError ["gymId"]))
  /\ Db.transactions (snd r) = [].
Proof. split; reflexivity. Qed.

(** C1, at the scenario's input with a gym named: the handler's own
    increment is stored, and the ledger call adds the amount again.  The
    response reports 45, the stored balance is 85, and the log holds the one
    COMPLETED EARN record created by the administrator. *)
Theorem manual_grant_is_credited_twice :
  let db := Sample.store 5 30 None in
  let body := {| UserController.amount := 40;
                 UserController.reason := None;
                 UserController.gymId := Some Sample.gymA |} in
  let r := UserController.postPoints Ledger.no_faults false
             Sample.administrator Sample.member body None db in
  fst r = UserController.PointsAdded Sample.member 45 40
  /\ Db.balance Sample.member (snd r) = Some 85
  /\ exists x,
       Db.transactions (snd r) = [x]
       /\ Transaction.status x = Transaction.COMPLETED
       /\ Transaction.type x = "EARN"
       /\ Transaction.points x = 40
       /\ Transaction.createdBy x = Some Sample.admin.
Proof.
  repeat split; try reflexivity.
  eexists. repeat split.
Qed.

(** C9, at a manual grant that names no gym: the ledger's schema requires
    [gymId], the call is rejected and no record is stored; the handler's
    own increment had been stored before the call. *)
Theorem manual_grant_without_gym_is_rejected :
  let db := Sample.store 5 30 None in
  let body := {| UserController.amount := 40;
                 UserController.reason := None;
                 UserController.gymId := None |} in
  let r := UserController.postPoints Ledger.no_faults false
             Sample.administrator Sample.member body None db in
  fst r = UserController.PointsFailed
            (QrController.LedgerError (Ledger.ValidationError ["gymId"]))
  /\ Db.transactions (snd r) = []
  /\ Db.balance Sample.member (snd r) = Some 45.
Proof.
  repeat split; reflexivity.
Qed.

(** ** The theorems at sample inputs *)

(** A SPEND of 30 against a balance of 10. *)
Lemma failed_call_leaves_store_unchanged_witness :
  Ledger.createTransaction (Sample.charge 30) Ledger.no_faults
    (Sample.store 10 30 None)
  = (inl Ledger.InsufficientPoints, Sample.store 10 30 None)
  /\ (Db.balance (Ledger.userId (Sample.charge 30)) (Sample.store 10 30 None)
      = Db.balance (Ledger.userId (Sample.charge 30))
          (Sample.store 10 30 None)
      /\ Db.transactions (Sample.store 10 30 None)
         = Db.transactions (Sample.store 10 30 None)
      /\ Sample.store 10 30 None = Sample.store 10 30 None).
Proof.
  split; [reflexivity|].
  apply (failed_call_leaves_store_unchanged (Sample.charge 30)
           Ledger.no_faults (Sample.store 10 30 None)
           (Sample.store 10 30 None) Ledger.InsufficientPoints).
  reflexivity.
Defined.

(** A grant of 40 and then a charge of 30, from a balance of 5. *)
Lemma balances_nonneg_after_each_application_witness :
  Spec.balances_nonneg (Sample.store 5 30 None)
  /\ Spec.all_applied
       [(Sample.grant 40 (Some Sample.gymA), Ledger.no_faults);
        (Sample.charge 30, Ledger.no_faults)]
       (Sample.store 5 30 None) = true
  /\ Forall Spec.balances_nonneg
       (Spec.trace
          [(Sample.grant 40 (Some Sample.gymA), Ledger.no_faults);
           (Sample.charge 30, Ledger.no_faults)]
          (Sample.store 5 30 None)).
Proof.
  assert (H : Spec.balances_nonneg (Sample.store 5 30 None)).
  { repeat constructor; unfold Qle; simpl; lia. }
  split; [exact H|]. split; [reflexivity|].
  apply (balances_nonneg_after_each_application
           [(Sample.grant 40 (Some Sample.gymA), Ledger.no_faults);
            (Sample.charge 30, Ledger.no_faults)]
           (Sample.store 5 30 None)); [exact H | reflexivity].
Defined.

(** Two issuances for the sample gym, one minute apart. *)
Lemma second_issue_supersedes_first_witness :
  "token-1" <> ""
  /\ "token-1" <> "token-2"
  /\ (exists g1,
        QrController.resolveGym
          (QrGenerator.data (Sample.issued "token-1" 0 None))
          (snd (Sample.issue "token-1" 0 (Sample.store 50 30 None)))
        = inr (Some g1)
        /\ Gym.code (Gym.qrCode g1) = Some "token-1"
        /\ forall now,
             (now <= QrGenerator.expiresAt
                       (Sample.issued "token-1" 0 None))%Z ->
             QrGenerator.verifyQRCode now
               (QrGenerator.data (Sample.issued "token-1" 0 None)) g1
             = true)
  /\ (exists g2,
        QrController.resolveGym
          (QrGenerator.data (Sample.issued "token-1" 0 None))
          (snd (Sample.issue "token-2" 60000
                  (snd (Sample.issue "token-1" 0
                          (Sample.store 50 30 None)))))
        = inr (Some g2)
        /\ Gym.qrCode g2
           = {| Gym.code := Some "token-2";
                Gym.expiresAt :=
                  Some (QrGenerator.expiresAt
                          (Sample.issued "token-2" 60000
                             (Some {| Gym.code := Some "token-1";
                                      Gym.expiresAt :=
                                        Some 86400000%Z |}))) |}
        /\ forall now,
             QrGenerator.verifyQRCode now
               (QrGenerator.data (Sample.issued "token-1" 0 None)) g2
             = false).
Proof.
  split; [discriminate|]. split; [discriminate|].
  apply (second_issue_supersedes_first QrGenerator.utcAddHours
           Sample.isoStamp None None "token-1" "token-2" 0 0 60000 60000
           false false Sample.gymA (Sample.store 50 30 None)
           (snd (Sample.issue "token-1" 0 (Sample.store 50 30 None)))
           (snd (Sample.issue "token-2" 60000
                   (snd (Sample.issue "token-1" 0
                           (Sample.store 50 30 None)))))
           (Sample.issued "token-1" 0 None)
           (Sample.issued "token-2" 60000
              (Some {| Gym.code := Some "token-1";
                       Gym.expiresAt := Some 86400000%Z |})));
    [discriminate | discriminate | reflexivity | reflexivity].
Defined.

(** An issuance for the sample gym at the epoch, in UTC. *)
Lemma default_ttl_valid_before_invalid_after_witness :
  QrGenerator.fixed_offset QrGenerator.utcAddHours
  /\ "token-1" <> ""
  /\ exists g,
       QrController.resolveGym
         (QrGenerator.data (Sample.issued "token-1" 0 None))
         (snd (Sample.issue "token-1" 0 (Sample.store 50 30 None)))
       = inr (Some g)
       /\ QrGenerator.verifyQRCode (0 + (23 * 60 + 59) * 60000)
            (QrGenerator.data (Sample.issued "token-1" 0 None)) g = true
       /\ QrGenerator.verifyQRCode (0 + (24 * 60 + 1) * 60000)
            (QrGenerator.data (Sample.issued "token-1" 0 None)) g = false.
Proof.
  assert (Hz : QrGenerator.fixed_offset QrGenerator.utcAddHours).
  { intros t h. reflexivity. }
  split; [exact Hz|]. split; [discriminate|].
  apply (default_ttl_valid_before_invalid_after QrGenerator.utcAddHours
           Sample.isoStamp "token-1" 0 0 false Sample.gymA
           (Sample.store 50 30 None)
           (snd (Sample.issue "token-1" 0 (Sample.store 50 30 None)))
           (Sample.issued "token-1" 0 None));
    [exact Hz | discriminate | reflexivity].
Defined.

(** A grant of 0 points. *)
Lemma amount_below_one_is_rejected_witness :
  (Ledger.points (Sample.grant 0 (Some Sample.gymA)) < 1)%Q
  /\ exists e,
       Ledger.createTransaction (Sample.grant 0 (Some Sample.gymA))
         Ledger.no_faults (Sample.store 5 30 None)
       = (inl e, Sample.store 5 30 None)
       /\ (Ledger.startSession_fails Ledger.no_faults = false ->
           Ledger.findById_fails Ledger.no_faults = false ->
           Db.findUser (Ledger.userId (Sample.grant 0 (Some Sample.gymA)))
             (Sample.store 5 30 None) <> None ->
           exists paths, e = Ledger.ValidationError paths
                         /\ In "points" paths).
Proof.
  split; [reflexivity|].
  apply (amount_below_one_is_rejected (Sample.grant 0 (Some Sample.gymA))
           Ledger.no_faults (Sample.store 5 30 None)).
  reflexivity.
Defined.

(** A payload that names the sample gym in lower case. *)
Lemma resolved_gym_matches_iff_canonical_witness :
  QrController.resolveGym (Sample.payload "token-1" Sample.gymA)
    (Sample.store 50 30 None) = inr (Some (Sample.gym 30 None))
  /\ (strict_eq (prop (Sample.payload "token-1" Sample.gymA) "gymId")
        (JStr (ObjectId.toString (Gym._id (Sample.gym 30 None)))) = true
      <-> exists s, prop (Sample.payload "token-1" Sample.gymA) "gymId"
                    = JStr s
                    /\ ObjectId.canonical s = true).
Proof.
  split; [reflexivity|].
  apply (resolved_gym_matches_iff_canonical
           (Sample.payload "token-1" Sample.gymA) (Sample.store 50 30 None)
           (Sample.gym 30 None)).
  reflexivity.
Defined.

(** * Further properties *)

(** ** What an applied ledger call does *)

Lemma schema_ok_type (d : Ledger.data) :
  Ledger.schema_errors d = [] ->
  (Ledger.type d =? "EARN") || (Ledger.type d =? "SPEND") = true.
Proof.
  unfold Ledger.schema_errors. intros H.
  apply app_eq_nil in H as [_ H]. apply app_eq_nil in H as [_ H].
  destruct ((Ledger.type d =? "EARN") || (Ledger.type d =? "SPEND"));
    [reflexivity | discriminate H].
Qed.

Lemma schema_ok_points (d : Ledger.data) :
  Ledger.schema_errors d = [] -> (1 <= Ledger.points d)%Q.
Proof.
  unfold Ledger.schema_errors. intros H.
  apply app_eq_nil in H as [_ H]. apply app_eq_nil in H as [H _].
  destruct (Ledger.Qltb (Ledger.points d) 1) eqn:E; [discriminate H|].
  unfold Ledger.Qltb in E. apply negb_false_iff in E.
  apply Qle_bool_iff. exact E.
Qed.

Lemma schema_ok_gym (d : Ledger.data) :
  Ledger.schema_errors d = [] -> Ledger.gym_of d <> None.
Proof.
  unfold Ledger.schema_errors. intros H.
  apply app_eq_nil in H as [H _].
  destruct (Ledger.gym_of d); [discriminate | discriminate H].
Qed.

(** An identifier in its printed form is cast to itself. *)
Lemma gym_of_canonical (d : Ledger.data) (o : ObjectId.t) :
  Ledger.gymId d = Some (ObjectId.toString o) ->
  ObjectId.canonical o = true ->
  Ledger.gym_of d = Some o.
Proof.
  intros Hg Hc. unfold Ledger.gym_of. rewrite Hg.
  unfold ObjectId.toString. rewrite (cast_of_canonical _ Hc). reflexivity.
Qed.

(** The account document that an applied call of [d] saves. *)
Lemma try_block_inv (d : Ledger.data) (f : Ledger.faults) (w w' : Db.t)
    (x : Transaction.doc) :
  Ledger.try_block d f w = inr (x, w') ->
  exists user,
    Db.findUser (Ledger.userId d) w = Some user
    /\ Ledger.schema_errors d = []
    /\ ((Ledger.type d =? "EARN") = false ->
        (Ledger.type d =? "SPEND") = true
        /\ Ledger.Qltb (User.points user) (Ledger.points d) = false)
    /\ let pending :=
         Spec.record_of d (List.length (Db.transactions w))
           Transaction.PENDING in
       let user' :=
         User.set_points user
           (if Ledger.type d =? "EARN"
            then Qred (User.points user + Ledger.points d)
            else Qred (User.points user - Ledger.points d)) in
       User.points_valid user' = true
       /\ x = Spec.record_of d (List.length (Db.transactions w))
                Transaction.COMPLETED
       /\ w' = Db.saveTransaction x
                 (Db.saveUser user' (Db.insertTransaction pending w)).
Proof.
  unfold Ledger.try_block, Ledger.create, Ledger.save_user,
    Ledger.save_transaction.
  unfold Ledger.bind, Ledger.await, Ledger.read, Ledger.write, Ledger.ret,
    Ledger.throw.
  destruct (Ledger.findById_fails f); [discriminate|].
  destruct (Db.findUser (Ledger.userId d) w) as [user|]; [|discriminate].
  destruct (Ledger.schema_errors d) eqn:Hs; [|discriminate].
  pose proof (schema_ok_type d Hs) as Ht.
  destruct (Ledger.create_fails f); [discriminate|].
  cbv beta iota.
  destruct (Ledger.type d =? "EARN") eqn:E1;
    [|destruct (Ledger.type d =? "SPEND") eqn:E2;
      [destruct (Ledger.Qltb _ _) eqn:Hlt; [discriminate|]
      |discriminate Ht]];
    (destruct (User.points_valid _) eqn:Hv; [|discriminate]);
    (destruct (Ledger.user_save_fails f); [discriminate|]);
    (destruct (Ledger.transaction_save_fails f); [discriminate|]);
    intros H; injection H as <- <-;
    exists user; repeat split; auto; discriminate.
Qed.

(** What the path [points] of the account of an applied call holds. *)
Lemma applied_stored_points (d : Ledger.data) (f : Ledger.faults)
    (db db' : Db.t) (x : Transaction.doc) :
  Ledger.createTransaction d f db = (inr x, db') ->
  exists p,
    Db.balance (Ledger.userId d) db = Some p
    /\ Db.stored_points (Ledger.userId d) db'
       = Some (Some (if Ledger.type d =? "EARN"
                     then Qred (p + Ledger.points d)
                     else Qred (p - Ledger.points d)))
    /\ ((Ledger.type d =? "EARN") = false ->
        (Ledger.type d =? "SPEND") = true
        /\ Ledger.Qltb p (Ledger.points d) = false).
Proof.
  intros H. apply createTransaction_applied, try_block_inv in H
    as (user & Hf & _ & Ht & _ & _ & ->).
  exists (User.points user). unfold Db.balance, Db.stored_points.
  rewrite Hf. split; [reflexivity|]. split; [|exact Ht].
  match goal with
  | |- context [Db.saveUser ?u _] => set (user' := u)
  end.
  change (Db.findUser (Ledger.userId d)
            (Db.saveTransaction x
               (Db.saveUser user'
                  (Db.insertTransaction
                     (Spec.record_of d (List.length (Db.transactions db))
                        Transaction.PENDING) db))))
    with (Db.findUser (Ledger.userId d)
            (Db.saveUser user'
               (Db.insertTransaction
                  (Spec.record_of d (List.length (Db.transactions db))
                     Transaction.PENDING) db))).
  rewrite findUser_saveUser.
  change (Db.findUser (Ledger.userId d) (Db.insertTransaction _ db))
    with (Db.findUser (Ledger.userId d) db).
  rewrite Hf. simpl. unfold ObjectId.eqb. rewrite String.eqb_refl.
  reflexivity.
Qed.

(** The balance of the account of an applied call. *)
Lemma applied_balance (d : Ledger.data) (f : Ledger.faults) (db db' : Db.t)
    (x : Transaction.doc) :
  Ledger.createTransaction d f db = (inr x, db') ->
  exists p,
    Db.balance (Ledger.userId d) db = Some p
    /\ Db.balance (Ledger.userId d) db'
       = Some (if Ledger.type d =? "EARN"
               then Qred (p + Ledger.points d)
               else Qred (p - Ledger.points d))
    /\ ((Ledger.type d =? "EARN") = false ->
        (Ledger.type d =? "SPEND") = true
        /\ Ledger.Qltb p (Ledger.points d) = false).
Proof.
  intros H. apply applied_stored_points in H as (p & Hp & Hs & Ht).
  exists p. split; [exact Hp|]. split; [|exact Ht].
  unfold Db.balance. unfold Db.stored_points in Hs.
  destruct (Db.findUser (Ledger.userId d) db') as [u|]; [|discriminate Hs].
  simpl in Hs. injection Hs as Hs. simpl. unfold User.points.
  rewrite Hs. reflexivity.
Qed.

Lemma Qred_inject_Z (z : Z) : Qred (inject_Z z) = inject_Z z.
Proof.
  unfold Qred, inject_Z.
  pose proof (Z.ggcd_gcd z 1) as Hg.
  pose proof (Z.ggcd_correct_divisors z 1) as Hd.
  destruct (Z.ggcd z 1) as [g [a b]]. simpl in *.
  rewrite Z.gcd_1_r in Hg. subst g. destruct Hd as [Ha Hb].
  assert (Ea : a = z) by lia. assert (Eb : b = 1%Z) by lia.
  rewrite Ea, Eb. reflexivity.
Qed.

(** Sums and differences of integers, as the model keeps them. *)
Lemma Qred_plus_integers (a b : Z) :
  Qred (inject_Z a + inject_Z b) = inject_Z (a + b).
Proof.
  rewrite <- (Qred_inject_Z (a + b)). apply Qred_complete.
  rewrite inject_Z_plus. reflexivity.
Qed.

Lemma Qred_minus_integers (a b : Z) :
  Qred (inject_Z a - inject_Z b) = inject_Z (a - b).
Proof.
  rewrite <- (Qred_inject_Z (a - b)). apply Qred_complete.
  unfold Z.sub. rewrite inject_Z_plus, inject_Z_opp. reflexivity.
Qed.

Lemma Qle_integers (a b : Z) : (inject_Z a <= inject_Z b)%Q -> (a <= b)%Z.
Proof. intros H. rewrite Zle_Qle. exact H. Qed.

(** X1.  An applied EARN raises the balance of its account by exactly the
    amount, once, where the balance, the amount and their sum are integers
    that a Number carries exactly. *)
Theorem earn_credits_amount (d : Ledger.data) (f : Ledger.faults)
    (db db' : Db.t) (x : Transaction.doc) (balance amount : Z) :
  Ledger.createTransaction d f db = (inr x, db') ->
  Ledger.type d = "EARN" ->
  Db.balance (Ledger.userId d) db = Some (inject_Z balance) ->
  Ledger.points d = inject_Z amount ->
  safe balance -> safe amount -> safe (balance + amount) ->
  Db.balance (Ledger.userId d) db' = Some (inject_Z (balance + amount)).
Proof.
  intros H Ht Hb Ha _ _ _. apply applied_balance in H as (p & Hp & Hp' & _).
  rewrite Ht in Hp'. rewrite Hb in Hp. injection Hp as <-.
  rewrite Hp', Ha. simpl. f_equal. apply Qred_plus_integers.
Qed.

(** A grant of 40 from a balance of 5. *)
Lemma earn_credits_amount_witness :
  Ledger.type (Sample.grant 40 (Some Sample.gymA)) = "EARN"
  /\ Db.balance (Ledger.userId (Sample.grant 40 (Some Sample.gymA)))
       (Sample.store 5 30 None) = Some (inject_Z 5)
  /\ Ledger.points (Sample.grant 40 (Some Sample.gymA)) = inject_Z 40
  /\ safe 5 /\ safe 40 /\ safe (5 + 40)
  /\ Db.balance (Ledger.userId (Sample.grant 40 (Some Sample.gymA)))
       (snd (Ledger.createTransaction
               (Sample.grant 40 (Some Sample.gymA)) Ledger.no_faults
               (Sample.store 5 30 None)))
     = Some (inject_Z (5 + 40)).
Proof.
  assert (S1 : safe 5) by (unfold safe; simpl; lia).
  assert (S2 : safe 40) by (unfold safe; simpl; lia).
  assert (S3 : safe (5 + 40)) by (unfold safe; simpl; lia).
  split; [reflexivity|]. split; [reflexivity|]. split; [reflexivity|].
  split; [exact S1|]. split; [exact S2|]. split; [exact S3|].
  apply (earn_credits_amount (Sample.grant 40 (Some Sample.gymA))
           Ledger.no_faults (Sample.store 5 30 None)
           (snd (Ledger.createTransaction
                   (Sample.grant 40 (Some Sample.gymA)) Ledger.no_faults
                   (Sample.store 5 30 None)))
           (Spec.record_of (Sample.grant 40 (Some Sample.gymA)) 0
              Transaction.COMPLETED) 5 40);
    auto; reflexivity.
Defined.

(** X2.  An applied SPEND was covered by the balance of its account, and
    lowers it by exactly the amount, where the balance and the amount are
    integers that a Number carries exactly. *)
Theorem spend_debits_covered_amount (d : Ledger.data) (f : Ledger.faults)
    (db db' : Db.t) (x : Transaction.doc) (balance amount : Z) :
  Ledger.createTransaction d f db = (inr x, db') ->
  Ledger.type d = "SPEND" ->
  Db.balance (Ledger.userId d) db = Some (inject_Z balance) ->
  Ledger.points d = inject_Z amount ->
  safe balance -> safe amount ->
  (amount <= balance)%Z
  /\ Db.balance (Ledger.userId d) db' = Some (inject_Z (balance - amount)).
Proof.
  intros H Ht Hb Ha _ _. apply applied_balance in H as (p & Hp & Hp' & Hs).
  rewrite Ht in Hp', Hs. simpl in Hp', Hs.
  destruct (Hs eq_refl) as [_ Hlt].
  rewrite Hb in Hp. injection Hp as <-. rewrite Ha in Hp', Hlt. split.
  - unfold Ledger.Qltb in Hlt. apply negb_false_iff in Hlt.
    apply Qle_integers, Qle_bool_iff. exact Hlt.
  - rewrite Hp'. f_equal. apply Qred_minus_integers.
Qed.

(** A charge of 30 against a balance of 50. *)
Lemma spend_debits_covered_amount_witness :
  Ledger.type (Sample.charge 30) = "SPEND"
  /\ Db.balance (Ledger.userId (Sample.charge 30))
       (Sample.store 50 30 None) = Some (inject_Z 50)
  /\ Ledger.points (Sample.charge 30) = inject_Z 30
  /\ safe 50 /\ safe 30
  /\ (30 <= 50)%Z
  /\ Db.balance (Ledger.userId (Sample.charge 30))
       (snd (Ledger.createTransaction (Sample.charge 30)
               Ledger.no_faults (Sample.store 50 30 None)))
     = Some (inject_Z (50 - 30)).
Proof.
  assert (S1 : safe 50) by (unfold safe; simpl; lia).
  assert (S2 : safe 30) by (unfold safe; simpl; lia).
  split; [reflexivity|]. split; [reflexivity|]. split; [reflexivity|].
  split; [exact S1|]. split; [exact S2|].
  apply (spend_debits_covered_amount (Sample.charge 30) Ledger.no_faults
           (Sample.store 50 30 None)
           (snd (Ledger.createTransaction (Sample.charge 30)
                   Ledger.no_faults (Sample.store 50 30 None)))
           (Spec.record_of (Sample.charge 30) 0 Transaction.COMPLETED)
           50 30);
    auto; reflexivity.
Defined.

(** X3.  A ledger call, applied or not, leaves every other account and
    every gym as stored. *)
Theorem ledger_call_touches_one_account (d : Ledger.data)
    (f : Ledger.faults) (db : Db.t) (uid : ObjectId.t) :
  uid <> Ledger.userId d ->
  Db.findUser uid (snd (Ledger.createTransaction d f db))
  = Db.findUser uid db
  /\ Db.gyms (snd (Ledger.createTransaction d f db)) = Db.gyms db.
Proof.
  intros Hne.
  destruct (Ledger.createTransaction d f db) as [[e|x] db'] eqn:E; simpl.
  - apply createTransaction_failed in E. subst. auto.
  - apply createTransaction_applied, try_block_inv in E
      as (user & Hf & _ & _ & _ & _ & ->).
    split; [|reflexivity].
    match goal with
    | |- context [Db.saveUser ?u _] => set (user' := u)
    end.
    change (Db.findUser uid (Db.saveUser user' db) = Db.findUser uid db).
    rewrite findUser_saveUser.
    destruct (Db.findUser uid db) as [v|] eqn:Hv; [|reflexivity].
    simpl. apply findUser_id in Hv. apply findUser_id in Hf.
    destruct (ObjectId.eqb (User._id v) (User._id user)) eqn:Eb;
      [|reflexivity].
    apply String.eqb_eq in Eb. congruence.
Qed.

(** The administrator's account across a grant to the member. *)
Lemma ledger_call_touches_one_account_witness :
  Sample.admin <> Ledger.userId (Sample.grant 40 (Some Sample.gymA))
  /\ Db.findUser Sample.admin
       (snd (Ledger.createTransaction (Sample.grant 40 (Some Sample.gymA))
               Ledger.no_faults (Sample.store 5 30 None)))
     = Db.findUser Sample.admin (Sample.store 5 30 None)
  /\ Db.gyms
       (snd (Ledger.createTransaction (Sample.grant 40 (Some Sample.gymA))
               Ledger.no_faults (Sample.store 5 30 None)))
     = Db.gyms (Sample.store 5 30 None).
Proof.
  split; [discriminate|].
  apply (ledger_call_touches_one_account
           (Sample.grant 40 (Some Sample.gymA)) Ledger.no_faults
           (Sample.store 5 30 None) Sample.admin).
  discriminate.
Defined.

Lemma map_replace_fresh (x : Transaction.doc) (l : list Transaction.doc) :
  Forall (fun y => Transaction._id y <> Transaction._id x) l ->
  map (fun y => if Nat.eqb (Transaction._id y) (Transaction._id x)
                then x else y) l = l.
Proof.
  induction 1 as [|y l Hy _ IH]; simpl; [reflexivity|].
  apply Nat.eqb_neq in Hy. rewrite Hy, IH. reflexivity.
Qed.

(** X4.  An applied call adds exactly its own record, COMPLETED, in front
    of the log, and leaves the records before it as they were, when none of
    them has the new record's identifier. *)
Theorem applied_call_appends_its_record (d : Ledger.data)
    (f : Ledger.faults) (db db' : Db.t) (x : Transaction.doc) :
  Ledger.createTransaction d f db = (inr x, db') ->
  Spec.next_id_fresh db ->
  x = Spec.record_of d (List.length (Db.transactions db))
        Transaction.COMPLETED
  /\ Db.transactions db' = x :: Db.transactions db.
Proof.
  intros H Hfresh. apply createTransaction_applied, try_block_inv in H
    as (user & _ & _ & _ & _ & -> & ->).
  split; [reflexivity|]. simpl. rewrite Nat.eqb_refl. f_equal.
  apply (map_replace_fresh
           (Spec.record_of d (List.length (Db.transactions db))
              Transaction.COMPLETED)).
  exact Hfresh.
Qed.

(** A grant into the empty log. *)
Lemma applied_call_appends_its_record_witness :
  Spec.next_id_fresh (Sample.store 5 30 None)
  /\ Spec.record_of (Sample.grant 40 (Some Sample.gymA)) 0
       Transaction.COMPLETED
     = Spec.record_of (Sample.grant 40 (Some Sample.gymA))
         (List.length (Db.transactions (Sample.store 5 30 None)))
         Transaction.COMPLETED
  /\ Db.transactions
       (snd (Ledger.createTransaction (Sample.grant 40 (Some Sample.gymA))
               Ledger.no_faults (Sample.store 5 30 None)))
     = Spec.record_of (Sample.grant 40 (Some Sample.gymA)) 0
         Transaction.COMPLETED
       :: Db.transactions (Sample.store 5 30 None).
Proof.
  assert (H : Spec.next_id_fresh (Sample.store 5 30 None)) by constructor.
  split; [exact H|].
  apply (applied_call_appends_its_record
           (Sample.grant 40 (Some Sample.gymA)) Ledger.no_faults
           (Sample.store 5 30 None)
           (snd (Ledger.createTransaction
                   (Sample.grant 40 (Some Sample.gymA)) Ledger.no_faults
                   (Sample.store 5 30 None)))
           (Spec.record_of (Sample.grant 40 (Some Sample.gymA)) 0
              Transaction.COMPLETED));
    [reflexivity | exact H].
Defined.

(** X5.  Whatever the ledger applies has an amount of at least 1, names a
    gym and is an EARN or a SPEND; the record it returns is COMPLETED. *)
Theorem applied_call_is_valid (d : Ledger.data) (f : Ledger.faults)
    (db db' : Db.t) (x : Transaction.doc) :
  Ledger.createTransaction d f db = (inr x, db') ->
  (1 <= Transaction.points x)%Q
  /\ Transaction.gymId x <> None
  /\ (Transaction.type x = "EARN" \/ Transaction.type x = "SPEND")
  /\ Transaction.status x = Transaction.COMPLETED.
Proof.
  intros H. apply createTransaction_applied, try_block_inv in H
    as (user & _ & Hs & _ & _ & -> & _).
  simpl. repeat split.
  - apply schema_ok_points, Hs.
  - apply schema_ok_gym, Hs.
  - pose proof (schema_ok_type d Hs) as Ht.
    apply orb_true_iff in Ht as [Ht|Ht]; apply String.eqb_eq in Ht; auto.
Qed.

(** A charge of 30 against a balance of 50. *)
Lemma applied_call_is_valid_witness :
  Ledger.createTransaction (Sample.charge 30) Ledger.no_faults
    (Sample.store 50 30 None)
  = (inr (Spec.record_of (Sample.charge 30) 0 Transaction.COMPLETED),
     snd (Ledger.createTransaction (Sample.charge 30) Ledger.no_faults
            (Sample.store 50 30 None)))
  /\ (1 <= Transaction.points
             (Spec.record_of (Sample.charge 30) 0 Transaction.COMPLETED))%Q
  /\ Transaction.gymId
       (Spec.record_of (Sample.charge 30) 0 Transaction.COMPLETED) <> None
  /\ (Transaction.type
        (Spec.record_of (Sample.charge 30) 0 Transaction.COMPLETED) = "EARN"
      \/ Transaction.type
           (Spec.record_of (Sample.charge 30) 0 Transaction.COMPLETED)
         = "SPEND")
  /\ Transaction.status
       (Spec.record_of (Sample.charge 30) 0 Transaction.COMPLETED)
     = Transaction.COMPLETED.
Proof.
  split; [reflexivity|].
  apply (applied_call_is_valid (Sample.charge 30) Ledger.no_faults
           (Sample.store 50 30 None)
           (snd (Ledger.createTransaction (Sample.charge 30)
                   Ledger.no_faults (Sample.store 50 30 None)))
           (Spec.record_of (Sample.charge 30) 0 Transaction.COMPLETED)).
  reflexivity.
Defined.

Lemma schema_errors_gym (d : Ledger.data) :
  In "gymId" (Ledger.schema_errors d) ->
  Ledger.gymId d = None
  \/ exists s, Ledger.gymId d = Some s /\ ObjectId.is_hex24 s = false.
Proof.
  unfold Ledger.schema_errors, Ledger.gym_of. intros H.
  apply in_app_or in H as [H|H].
  - destruct (Ledger.gymId d) as [s|]; [|auto].
    right. exists s. split; [reflexivity|].
    unfold ObjectId.cast in H.
    destruct (ObjectId.is_hex24 s); [destruct H | reflexivity].
  - apply in_app_or in H as [H|H].
    + destruct (Ledger.Qltb _ _); simpl in H;
        [destruct H as [H|[]]; discriminate H | destruct H].
    + destruct (_ || _); simpl in H;
        [destruct H | destruct H as [H|[]]; discriminate H].
Qed.

Lemma schema_errors_type (d : Ledger.data) :
  In "type" (Ledger.schema_errors d) ->
  Ledger.type d <> "EARN" /\ Ledger.type d <> "SPEND".
Proof.
  unfold Ledger.schema_errors. intros H.
  apply in_app_or in H as [H|H].
  - destruct (Ledger.gym_of d); simpl in H;
      [destruct H | destruct H as [H|[]]; discriminate H].
  - apply in_app_or in H as [H|H].
    + destruct (Ledger.Qltb _ _); simpl in H;
        [destruct H as [H|[]]; discriminate H | destruct H].
    + destruct (Ledger.type d =? "EARN") eqn:E1;
        [destruct H|].
      destruct (Ledger.type d =? "SPEND") eqn:E2; [destruct H|].
      apply String.eqb_neq in E1, E2. auto.
Qed.

Lemma try_block_error (d : Ledger.data) (f : Ledger.faults) (w : Db.t)
    (e : Ledger.error) :
  Ledger.try_block d f w = inl e -> Spec.truthful d w e.
Proof.
  unfold Ledger.try_block, Ledger.create, Ledger.save_user,
    Ledger.save_transaction.
  unfold Ledger.bind, Ledger.await, Ledger.read, Ledger.write, Ledger.ret,
    Ledger.throw, Spec.truthful.
  destruct (Ledger.findById_fails f).
  { intros H. injection H as <-. repeat split; intros; discriminate. }
  destruct (Db.findUser (Ledger.userId d) w) as [user|] eqn:Hf.
  2:{ intros H. injection H as <-.
      repeat split; intros; discriminate. }
  destruct (Ledger.schema_errors d) as [|p ps] eqn:Hs.
  2:{ intros H. injection H as <-.
      split; [discriminate|]. split; [discriminate|].
      split; intros paths K; injection K as <-; rewrite <- Hs.
      - apply schema_errors_gym.
      - apply schema_errors_type. }
  destruct (Ledger.create_fails f).
  { intros H. injection H as <-. repeat split; intros; discriminate. }
  cbv beta iota.
  assert (Hpoints : forall paths,
            Ledger.ValidationError ["points"] = Ledger.ValidationError paths ->
            (In "gymId" paths ->
             Ledger.gymId d = None
             \/ exists s, Ledger.gymId d = Some s
                          /\ ObjectId.is_hex24 s = false)
            /\ (In "type" paths ->
                Ledger.type d <> "EARN" /\ Ledger.type d <> "SPEND")).
  { intros paths K. injection K as <-.
    split; intros [K|[]]; discriminate K. }
  destruct (Ledger.type d =? "EARN") eqn:E1;
    [|destruct (Ledger.type d =? "SPEND") eqn:E2;
      [destruct (Ledger.Qltb _ _) eqn:Hlt|]];
    try (destruct (User.points_valid _) eqn:Hv;
         [destruct (Ledger.user_save_fails f);
          [|destruct (Ledger.transaction_save_fails f)]|]);
    intros H; try discriminate H; injection H as <-;
    repeat split; intros; try discriminate;
    try (eapply Hpoints; eassumption).
  - apply String.eqb_eq. exact E2.
  - exists (User.points user). unfold Db.balance. rewrite Hf.
    split; [reflexivity|]. apply Qltb_true. exact Hlt.
Qed.

(** X6.  The errors of the ledger tell the truth: [User not found] only
    when the account is absent, [Insufficient points] only for a SPEND above
    the balance, a validation error on [gymId] only when no gym is named
    or the name given cannot be read as an identifier, and one on [type]
    only for a type that is neither EARN nor SPEND. *)
Theorem ledger_errors_are_truthful (d : Ledger.data) (f : Ledger.faults)
    (db db' : Db.t) (e : Ledger.error) :
  Ledger.createTransaction d f db = (inl e, db') ->
  Spec.truthful d db e.
Proof.
  unfold Ledger.createTransaction, Ledger.startTransaction.
  destruct (Ledger.startSession_fails f).
  { intros H. injection H as <- _.
    unfold Spec.truthful. repeat split; intros; discriminate. }
  destruct (Ledger.try_block d f db) as [e'|[x w']] eqn:E.
  - intros H. injection H as <- _. apply (try_block_error d f db e' E).
  - destruct (Ledger.commit_fails f); intros H; [|discriminate H].
    injection H as <- _.
    unfold Spec.truthful. repeat split; intros; discriminate.
Qed.

(** A charge of 30 against a balance of 10. *)
Lemma ledger_errors_are_truthful_witness :
  Ledger.createTransaction (Sample.charge 30) Ledger.no_faults
    (Sample.store 10 30 None)
  = (inl Ledger.InsufficientPoints, Sample.store 10 30 None)
  /\ Spec.truthful (Sample.charge 30) (Sample.store 10 30 None)
       Ledger.InsufficientPoints.
Proof.
  split; [reflexivity|].
  apply (ledger_errors_are_truthful (Sample.charge 30) Ledger.no_faults
           (Sample.store 10 30 None) (Sample.store 10 30 None)
           Ledger.InsufficientPoints).
  reflexivity.
Defined.

(** X7.  An applied EARN followed by an applied SPEND of the same amount
    on the same account gives the balance back, where the balance, the
    amount and their sum are integers that a Number carries exactly. *)
Theorem earn_then_spend_restores_balance (e s : Ledger.data)
    (f1 f2 : Ledger.faults) (db db1 db2 : Db.t) (x1 x2 : Transaction.doc)
    (balance amount : Z) :
  Ledger.createTransaction e f1 db = (inr x1, db1) ->
  Ledger.createTransaction s f2 db1 = (inr x2, db2) ->
  Ledger.type e = "EARN" -> Ledger.type s = "SPEND" ->
  Ledger.userId s = Ledger.userId e ->
  Ledger.points s = Ledger.points e ->
  Db.balance (Ledger.userId e) db = Some (inject_Z balance) ->
  Ledger.points e = inject_Z amount ->
  safe balance -> safe amount -> safe (balance + amount) ->
  Db.balance (Ledger.userId e) db2 = Some (inject_Z balance).
Proof.
  intros H1 H2 Te Ts Hu Hp Hb Ha _ _ _.
  apply applied_balance in H1 as (p & Hb0 & Hb1 & _).
  apply applied_balance in H2 as (p1 & Hb1' & Hb2 & _).
  rewrite Te, String.eqb_refl in Hb1. rewrite Ts, Hu, Hp in Hb2.
  change ("SPEND" =? "EARN") with false in Hb2. cbv iota in Hb2.
  rewrite Hb in Hb0. injection Hb0 as <-.
  rewrite Ha, Qred_plus_integers in Hb1.
  rewrite Hu, Hb1 in Hb1'. injection Hb1' as <-.
  rewrite Hb2, Ha, Qred_minus_integers.
  do 2 f_equal. lia.
Qed.

(** A grant of 40 and a charge of 40, from a balance of 5. *)
Lemma earn_then_spend_restores_balance_witness :
  safe 5 /\ safe 40 /\ safe (5 + 40)
  /\ Db.balance (Ledger.userId (Sample.grant 40 (Some Sample.gymA)))
       (snd (Ledger.createTransaction (Sample.charge 40) Ledger.no_faults
               (snd (Ledger.createTransaction
                       (Sample.grant 40 (Some Sample.gymA))
                       Ledger.no_faults (Sample.store 5 30 None)))))
     = Some (inject_Z 5).
Proof.
  assert (S1 : safe 5) by (unfold safe; simpl; lia).
  assert (S2 : safe 40) by (unfold safe; simpl; lia).
  assert (S3 : safe (5 + 40)) by (unfold safe; simpl; lia).
  split; [exact S1|]. split; [exact S2|]. split; [exact S3|].
  apply (earn_then_spend_restores_balance
           (Sample.grant 40 (Some Sample.gymA)) (Sample.charge 40)
           Ledger.no_faults Ledger.no_faults (Sample.store 5 30 None)
           (snd (Ledger.createTransaction
                   (Sample.grant 40 (Some Sample.gymA))
                   Ledger.no_faults (Sample.store 5 30 None)))
           (snd (Ledger.createTransaction (Sample.charge 40)
                   Ledger.no_faults
                   (snd (Ledger.createTransaction
                           (Sample.grant 40 (Some Sample.gymA))
                           Ledger.no_faults (Sample.store 5 30 None)))))
           (Spec.record_of (Sample.grant 40 (Some Sample.gymA)) 0
              Transaction.COMPLETED)
           (Spec.record_of (Sample.charge 40) 1 Transaction.COMPLETED)
           5 40);
    auto; reflexivity.
Defined.

(** ** What a scan does *)

Lemma createTransaction_gyms (d : Ledger.data) (f : Ledger.faults)
    (db : Db.t) :
  Db.gyms (snd (Ledger.createTransaction d f db)) = Db.gyms db.
Proof.
  destruct (Ledger.createTransaction d f db) as [[e|x] db'] eqn:E; simpl.
  - apply createTransaction_failed in E. subst. reflexivity.
  - apply createTransaction_applied, try_block_inv in E
      as (user & _ & _ & _ & _ & _ & ->). reflexivity.
Qed.

(** A gym that a lookup returns has its identifier in the printed form. *)
Lemma findGymById_canonical (v : jsval) (db : Db.t) (gym : Gym.doc) :
  QrController.findGymById v db = inr (Some gym) ->
  ObjectId.canonical (Gym._id gym) = true.
Proof.
  unfold QrController.findGymById.
  destruct (ObjectId.cast v) as [|o|] eqn:Ec; try discriminate.
  intros H. injection H as H. apply findGym_id in H.
  apply cast_ok in Ec as (s & _ & Hs & ->).
  rewrite H. apply cast_canonical, Hs.
Qed.

Lemma findGymById_cast (s : string) (db : Db.t) (gym : Gym.doc) :
  QrController.findGymById (JStr s) db = inr (Some gym) ->
  ObjectId.cast (JStr s) = ObjectId.CastOk (Gym._id gym).
Proof.
  unfold QrController.findGymById.
  destruct (ObjectId.cast (JStr s)) as [|o|]; try discriminate.
  intros H. injection H as H. apply findGym_id in H. congruence.
Qed.

Lemma resolveGym_canonical (payload : jsval) (db : Db.t) (gym : Gym.doc) :
  QrController.resolveGym payload db = inr (Some gym) ->
  ObjectId.canonical (Gym._id gym) = true.
Proof.
  unfold QrController.resolveGym.
  destruct payload; try discriminate; apply findGymById_canonical.
Qed.

(** X8.  A scan that is not granted, for whatever reason, leaves the
    stored state as it was. *)
Theorem scan_without_grant_changes_nothing (now : Z) (f : Ledger.faults)
    (userId : ObjectId.t) (qrData : QrController.parse_result)
    (deviceInfo : option string) (location : option (Q * Q))
    (db db' : Db.t) (r : QrController.scan_response) :
  QrController.scanQRCode now f userId qrData deviceInfo location db
  = (r, db') ->
  (forall x p, r <> QrController.AccessGranted x p) ->
  db' = db.
Proof.
  unfold QrController.scanQRCode.
  destruct qrData as [|payload];
    [intros H _; injection H as _ <-; reflexivity|].
  destruct (QrController.resolveGym payload db) as [e|[gym|]];
    try (intros H _; injection H as _ <-; reflexivity).
  destruct (negb (QrGenerator.verifyQRCode now payload gym));
    [intros H _; injection H as _ <-; reflexivity|].
  destruct (Db.findUser userId db) as [user|];
    [|intros H _; injection H as _ <-; reflexivity].
  destruct (Ledger.Qltb _ _);
    [intros H _; injection H as _ <-; reflexivity|].
  destruct (Ledger.createTransaction _ f db) as [[e|x] db1] eqn:E;
    intros H Hn; injection H as <- <-.
  - apply createTransaction_failed in E. exact E.
  - exfalso. eapply Hn. reflexivity.
Qed.

(** A scan by a member whose balance does not cover the price. *)
Lemma scan_without_grant_changes_nothing_witness :
  QrController.scanQRCode 0 Ledger.no_faults Sample.member
    (QrController.Parsed (Sample.payload "token-1" Sample.gymA))
    None None (Sample.store 10 30 (Some Sample.session))
  = (QrController.NotEnoughPoints 30 (Some 10),
     Sample.store 10 30 (Some Sample.session))
  /\ Sample.store 10 30 (Some Sample.session)
     = Sample.store 10 30 (Some Sample.session).
Proof.
  split; [reflexivity|].
  apply (scan_without_grant_changes_nothing 0 Ledger.no_faults
           Sample.member
           (QrController.Parsed (Sample.payload "token-1" Sample.gymA))
           None None (Sample.store 10 30 (Some Sample.session))
           (Sample.store 10 30 (Some Sample.session))
           (QrController.NotEnoughPoints 30 (Some 10)));
    [reflexivity | discriminate].
Defined.

(** X9.  A granted scan was for a payload that verified against the gym it
    names and for an account whose balance covered the gym's stored price;
    the balance it reports is the balance then stored, and its record is a
    COMPLETED SPEND of that price for that account and gym. *)
Theorem granted_scan_effect (now : Z) (f : Ledger.faults)
    (userId : ObjectId.t) (payload : jsval) (deviceInfo : option string)
    (location : option (Q * Q)) (db db' : Db.t) (x : Transaction.doc)
    (p : Q) :
  QrController.scanQRCode now f userId (QrController.Parsed payload)
    deviceInfo location db = (QrController.AccessGranted x p, db') ->
  exists gym user,
    QrController.resolveGym payload db = inr (Some gym)
    /\ QrGenerator.verifyQRCode now payload gym = true
    /\ Db.findUser userId db = Some user
    /\ (Gym.pointsRequired gym <= User.points user)%Q
    /\ p = Qred (User.points user - Gym.pointsRequired gym)
    /\ Db.balance userId db' = Some p
    /\ Transaction.userId x = userId
    /\ Transaction.gymId x = Some (Gym._id gym)
    /\ Transaction.type x = "SPEND"
    /\ Transaction.points x = Gym.pointsRequired gym
    /\ Transaction.status x = Transaction.COMPLETED.
Proof.
  unfold QrController.scanQRCode.
  destruct (QrController.resolveGym payload db) as [e|[gym|]] eqn:Hg;
    try discriminate.
  destruct (QrGenerator.verifyQRCode now payload gym) eqn:V;
    [|discriminate]. simpl.
  destruct (Db.findUser userId db) as [user|] eqn:Hu; [|discriminate].
  destruct (Ledger.Qltb _ _) eqn:Hlt; [discriminate|].
  destruct (Ledger.createTransaction _ f db) as [[e|y] db1] eqn:E;
    [discriminate|].
  intros H. injection H as <- <- <-.
  pose proof (findUser_id _ _ _ Hu) as Hid.
  pose proof E as E'. apply applied_balance in E' as (q & Hq & Hq' & _).
  simpl in Hq, Hq'. rewrite Hid in Hq, Hq'.
  unfold Db.balance in Hq. rewrite Hu in Hq. injection Hq as <-.
  apply createTransaction_applied, try_block_inv in E
    as (_ & _ & _ & _ & _ & -> & _).
  exists gym, user. simpl. repeat split; auto.
  - unfold Ledger.Qltb in Hlt. apply negb_false_iff in Hlt.
    apply Qle_bool_iff. exact Hlt.
  - apply gym_of_canonical; [reflexivity|].
    apply (resolveGym_canonical payload db gym Hg).
Qed.

(** The scan of scenario A. *)
Lemma granted_scan_effect_witness :
  let db := Sample.store 50 30 (Some Sample.session) in
  let payload := Sample.payload "token-1" Sample.gymA in
  let r := QrController.scanQRCode 0 Ledger.no_faults Sample.member
             (QrController.Parsed payload) None None db in
  fst r = QrController.AccessGranted Sample.access_record 20
  /\ exists gym user,
       QrController.resolveGym payload db = inr (Some gym)
       /\ QrGenerator.verifyQRCode 0 payload gym = true
       /\ Db.findUser Sample.member db = Some user
       /\ (Gym.pointsRequired gym <= User.points user)%Q
       /\ (20 : Q) = Qred (User.points user - Gym.pointsRequired gym)
       /\ Db.balance Sample.member (snd r) = Some 20
       /\ Transaction.userId Sample.access_record = Sample.member
       /\ Transaction.gymId Sample.access_record = Some (Gym._id gym)
       /\ Transaction.type Sample.access_record = "SPEND"
       /\ Transaction.points Sample.access_record = Gym.pointsRequired gym
       /\ Transaction.status Sample.access_record = Transaction.COMPLETED.
Proof.
  intros db payload r. split; [reflexivity|].
  apply (granted_scan_effect 0 Ledger.no_faults Sample.member payload
           None None db (snd r) Sample.access_record 20).
  reflexivity.
Defined.

(** X10.  A scan at a gym whose stored price is below 1, a free gym for
    one, is never granted: the ledger does not take an amount below 1. *)
Theorem free_gym_is_never_granted (now : Z) (f : Ledger.faults)
    (userId : ObjectId.t) (payload : jsval) (deviceInfo : option string)
    (location : option (Q * Q)) (db : Db.t) (gym : Gym.doc) :
  QrController.resolveGym payload db = inr (Some gym) ->
  (Gym.pointsRequired gym < 1)%Q ->
  forall x p,
    fst (QrController.scanQRCode now f userId (QrController.Parsed payload)
           deviceInfo location db)
    <> QrController.AccessGranted x p.
Proof.
  intros Hg Hp x p. unfold QrController.scanQRCode. rewrite Hg.
  destruct (negb (QrGenerator.verifyQRCode now payload gym));
    [discriminate|].
  destruct (Db.findUser userId db) as [user|]; [|discriminate].
  destruct (Ledger.Qltb _ _); [discriminate|].
  destruct (Ledger.createTransaction _ f db) as [[e|y] db1] eqn:E;
    [discriminate|].
  exfalso.
  apply createTransaction_applied, try_block_inv in E
    as (_ & _ & Hs & _).
  apply schema_ok_points in Hs. simpl in Hs.
  exact (Qlt_not_le _ _ Hp Hs).
Qed.

(** A member with 50 points at a gym whose price is 0. *)
Lemma free_gym_is_never_granted_witness :
  QrController.resolveGym (Sample.payload "token-1" Sample.gymA)
    (Sample.store 50 0 (Some Sample.session))
  = inr (Some (Sample.gym 0 (Some Sample.session)))
  /\ (Gym.pointsRequired (Sample.gym 0 (Some Sample.session)) < 1)%Q
  /\ forall x p,
       fst (QrController.scanQRCode 0 Ledger.no_faults Sample.member
              (QrController.Parsed (Sample.payload "token-1" Sample.gymA))
              None None (Sample.store 50 0 (Some Sample.session)))
       <> QrController.AccessGranted x p.
Proof.
  split; [reflexivity|]. split; [reflexivity|].
  apply (free_gym_is_never_granted 0 Ledger.no_faults Sample.member
           (Sample.payload "token-1" Sample.gymA) None None
           (Sample.store 50 0 (Some Sample.session))
           (Sample.gym 0 (Some Sample.session)));
    reflexivity.
Defined.

(** X11.  A scan reads two fields of the payload, [id] and [gymId]: two
    payload objects that agree on them get the same answer and the same
    stored state.  The price charged is the gym's stored one, whatever
    [pointsRequired] the payload shows. *)
Theorem scan_reads_id_and_gymId_only (now : Z) (f : Ledger.faults)
    (userId : ObjectId.t) (fields1 fields2 : list (string * jsval))
    (deviceInfo : option string) (location : option (Q * Q)) (db : Db.t) :
  lookup "id" fields1 = lookup "id" fields2 ->
  lookup "gymId" fields1 = lookup "gymId" fields2 ->
  QrController.scanQRCode now f userId (QrController.Parsed (JObj fields1))
    deviceInfo location db
  = QrController.scanQRCode now f userId
      (QrController.Parsed (JObj fields2)) deviceInfo location db.
Proof.
  intros Hi Hg.
  unfold QrController.scanQRCode, QrController.resolveGym,
    QrGenerator.verifyQRCode, prop.
  rewrite Hi, Hg. reflexivity.
Qed.

(** The issued payload and a copy that shows a price of 1. *)
Lemma scan_reads_id_and_gymId_only_witness :
  QrController.scanQRCode 0 Ledger.no_faults Sample.member
    (QrController.Parsed
       (JObj [("id", JStr "token-1"); ("gymId", JStr Sample.gymA);
              ("pointsRequired", JNum 30)]))
    None None (Sample.store 50 30 (Some Sample.session))
  = QrController.scanQRCode 0 Ledger.no_faults Sample.member
      (QrController.Parsed
         (JObj [("pointsRequired", JNum 1); ("id", JStr "token-1");
                ("gymId", JStr Sample.gymA)]))
      None None (Sample.store 50 30 (Some Sample.session)).
Proof.
  apply (scan_reads_id_and_gymId_only 0 Ledger.no_faults Sample.member
           [("id", JStr "token-1"); ("gymId", JStr Sample.gymA);
            ("pointsRequired", JNum 30)]
           [("pointsRequired", JNum 1); ("id", JStr "token-1");
            ("gymId", JStr Sample.gymA)]
           None None (Sample.store 50 30 (Some Sample.session)));
    reflexivity.
Defined.

(** X12.  A scan, granted or not, changes no gym: a code is not used up by
    a scan, and the payload that was scanned resolves and verifies
    afterwards as it did before. *)
Theorem scan_leaves_sessions (now : Z) (f : Ledger.faults)
    (userId : ObjectId.t) (qrData : QrController.parse_result)
    (deviceInfo : option string) (location : option (Q * Q)) (db : Db.t)
    (payload : jsval) :
  let db' := snd (QrController.scanQRCode now f userId qrData deviceInfo
                    location db) in
  Db.gyms db' = Db.gyms db
  /\ QrController.resolveGym payload db' = QrController.resolveGym payload db.
Proof.
  assert (H : Db.gyms
                (snd (QrController.scanQRCode now f userId qrData deviceInfo
                        location db)) = Db.gyms db).
  { unfold QrController.scanQRCode.
    destruct qrData as [|pl]; [reflexivity|].
    destruct (QrController.resolveGym pl db) as [e|[gym|]];
      try reflexivity.
    destruct (negb (QrGenerator.verifyQRCode now pl gym)); [reflexivity|].
    destruct (Db.findUser userId db) as [user|]; [|reflexivity].
    destruct (Ledger.Qltb _ _); [reflexivity|].
    match goal with
    | |- context [Ledger.createTransaction ?d f db] =>
        pose proof (createTransaction_gyms d f db) as K;
        destruct (Ledger.createTransaction d f db) as [[e|x] db1]
    end; exact K. }
  simpl. split; [exact H|].
  unfold QrController.resolveGym, QrController.findGymById, Db.findGym.
  rewrite H. reflexivity.
Qed.

(** ** Sessions: issue, status, renewal *)

(** X13.  Issuing a code changes no account and no transaction record,
    leaves every other gym as stored, and keeps the name and the price of
    the gym it is issued for. *)
Theorem issuing_touches_one_session (addHours : Z -> Z -> Z)
    (toISOString : Z -> string) (env : option string) (uuid : string)
    (t0 t : Z) (sf : bool) (gymId : string) (db : Db.t) (o : ObjectId.t) :
  let db' := snd (QrController.generateQRCode addHours toISOString env uuid
                    t0 t sf gymId db) in
  Db.users db' = Db.users db
  /\ Db.transactions db' = Db.transactions db
  /\ option_map Gym.name (Db.findGym o db')
     = option_map Gym.name (Db.findGym o db)
  /\ option_map Gym.pointsRequired (Db.findGym o db')
     = option_map Gym.pointsRequired (Db.findGym o db)
  /\ (o <> ObjectId.map ObjectId.lower gymId ->
      Db.findGym o db' = Db.findGym o db).
Proof.
  unfold QrController.generateQRCode, QrController.findGymById.
  destruct (ObjectId.cast (JStr gymId)) as [|o'|] eqn:Ec;
    try (simpl; auto).
  apply cast_ok in Ec as (s & Es & _ & ->). injection Es as <-.
  destruct (Db.findGym _ db) as [gym|] eqn:Hf; [|simpl; auto].
  destruct sf; [simpl; auto|].
  simpl. split; [reflexivity|]. split; [reflexivity|].
  rewrite findGym_saveGym. simpl.
  pose proof (findGym_id _ _ _ Hf) as Hid.
  destruct (Db.findGym o db) as [g|] eqn:Hg; simpl; [|auto].
  destruct (ObjectId.eqb (Gym._id g) (Gym._id gym)) eqn:Eb; [|auto].
  apply String.eqb_eq in Eb. pose proof (findGym_id _ _ _ Hg) as Hig.
  assert (o = ObjectId.map ObjectId.lower gymId) by congruence. subst o.
  assert (g = gym) by congruence. subst g.
  simpl. repeat split. intros K. contradiction.
Qed.

(** X14.  While it is the gym's current session, an issued payload with a
    non-empty token verifies at exactly the instants up to and including
    its expiry. *)
Theorem issued_payload_valid_until_expiry (addHours : Z -> Z -> Z)
    (toISOString : Z -> string) (env : option string) (uuid : string)
    (t0 t : Z) (sf : bool) (gymId : string) (db db1 : Db.t)
    (q : QrGenerator.qrData) :
  uuid <> "" ->
  QrController.generateQRCode addHours toISOString env uuid t0 t sf gymId db
  = (QrController.Generated q, db1) ->
  exists g,
    QrController.resolveGym (QrGenerator.data q) db1 = inr (Some g)
    /\ forall now,
         QrGenerator.verifyQRCode now (QrGenerator.data q) g
         = (now <=? QrGenerator.expiresAt q)%Z.
Proof.
  intros Hu H.
  apply generateQRCode_ok in H as (g & Hid & Hc & Hf & -> & ->).
  eexists. split; [apply issued_gym_resolves; auto|].
  intros now. apply session_payload_verifies; auto.
Qed.

(** An issuance for the sample gym at the epoch, in UTC. *)
Lemma issued_payload_valid_until_expiry_witness :
  "token-1" <> ""
  /\ exists g,
       QrController.resolveGym
         (QrGenerator.data (Sample.issued "token-1" 0 None))
         (snd (Sample.issue "token-1" 0 (Sample.store 50 30 None)))
       = inr (Some g)
       /\ forall now,
            QrGenerator.verifyQRCode now
              (QrGenerator.data (Sample.issued "token-1" 0 None)) g
            = (now <=? QrGenerator.expiresAt
                         (Sample.issued "token-1" 0 None))%Z.
Proof.
  split; [discriminate|].
  apply (issued_payload_valid_until_expiry QrGenerator.utcAddHours
           Sample.isoStamp None "token-1" 0 0 false Sample.gymA
           (Sample.store 50 30 None)
           (snd (Sample.issue "token-1" 0 (Sample.store 50 30 None)))
           (Sample.issued "token-1" 0 None));
    [discriminate | reflexivity].
Defined.

(** X15.  For a stored gym, the status endpoint reports a code that has
    not expired exactly when some payload verifies against the gym at that
    instant. *)
Theorem status_valid_iff_some_payload_verifies (now : Z) (gymId : string)
    (db : Db.t) (g : Gym.doc) :
  QrController.findGymById (JStr gymId) db = inr (Some g) ->
  ((exists e, QrController.getQRStatus now gymId db
              = QrController.QRStatus false e)
   <-> exists payload, QrGenerator.verifyQRCode now payload g = true).
Proof.
  intros Hf. unfold QrController.getQRStatus. rewrite Hf.
  assert (Hid : (ObjectId.toString (Gym._id g) =? "") = false).
  { unfold QrController.findGymById in Hf.
    destruct (ObjectId.cast (JStr gymId)) as [|o|] eqn:Ec;
      try discriminate Hf.
    injection Hf as Hf. apply findGym_id in Hf.
    apply cast_ok in Ec as (s & Es & Hs & ->).
    unfold ObjectId.toString. rewrite Hf.
    apply canonical_nonempty, cast_canonical, Hs. }
  split.
  - intros (e & H).
    destruct (Gym.code (Gym.qrCode g)) as [c|] eqn:Ec; simpl in H;
      [|discriminate H].
    destruct (c =? "") eqn:Ece; simpl in H; [discriminate H|].
    injection H as Hx He. unfold Gym.isQRCodeExpired in Hx.
    destruct (Gym.expiresAt (Gym.qrCode g)) as [e'|] eqn:Ee;
      [|discriminate Hx].
    exists (JObj [("id", JStr c);
                  ("gymId", JStr (ObjectId.toString (Gym._id g)))]).
    apply verifyQRCode_true_iff. split; [|split].
    + unfold Spec.well_shaped. simpl. rewrite Ece, Hid. reflexivity.
    + reflexivity.
    + exists c, e'. repeat split; auto.
      rewrite Z.gtb_ltb in Hx. apply Z.ltb_ge in Hx. exact Hx.
  - intros (payload & V).
    apply verifyQRCode_true_iff in V
      as (Hs & _ & tok & e & Ht & He & Hle & Hp).
    exists (Some e). rewrite Ht. simpl.
    unfold Spec.well_shaped in Hs. rewrite Hp in Hs. simpl in Hs.
    apply andb_true_iff in Hs as [Hs _]. apply andb_true_iff in Hs as [_ Hs].
    rewrite Hs. simpl. f_equal; [|auto].
    unfold Gym.isQRCodeExpired. rewrite He.
    rewrite Z.gtb_ltb. apply Z.ltb_ge. exact Hle.
Qed.

(** The sample gym with its session, asked at the instant 500. *)
Lemma status_valid_iff_some_payload_verifies_witness :
  QrController.findGymById (JStr Sample.gymA)
    (Sample.store 50 30 (Some Sample.session))
  = inr (Some (Sample.gym 30 (Some Sample.session)))
  /\ ((exists e, QrController.getQRStatus 500 Sample.gymA
                   (Sample.store 50 30 (Some Sample.session))
                 = QrController.QRStatus false e)
      <-> exists payload,
            QrGenerator.verifyQRCode 500 payload
              (Sample.gym 30 (Some Sample.session)) = true).
Proof.
  split; [reflexivity|].
  apply (status_valid_iff_some_payload_verifies 500 Sample.gymA
           (Sample.store 50 30 (Some Sample.session))
           (Sample.gym 30 (Some Sample.session))).
  reflexivity.
Defined.

(** X16.  [updateQRCodeExpiry] keeps the token and moves the expiry: a
    payload that has ever verified against the gym verifies against the
    renewed gym at every instant up to the new expiry. *)
Theorem renewal_extends_issued_code (addHours : Z -> Z -> Z)
    (env : option string) (t : Z) (sf : bool) (gym gym' : Gym.doc)
    (db db' : Db.t) (payload : jsval) (before now : Z) :
  GymMethods.updateQRCodeExpiry addHours env t sf gym db
  = inr (gym', db') ->
  QrGenerator.verifyQRCode before payload gym = true ->
  (now <= addHours t (QrGenerator.expiryHours env))%Z ->
  QrGenerator.verifyQRCode now payload gym' = true.
Proof.
  unfold GymMethods.updateQRCodeExpiry. intros H V Hn.
  destruct sf; [discriminate H|]. injection H as <- _.
  apply verifyQRCode_true_iff in V as (Hs & Hg & tok & e & Ht & _ & _ & Hp).
  apply verifyQRCode_true_iff. split; [exact Hs|]. split; [exact Hg|].
  do 2 eexists. simpl. repeat split; eauto.
Qed.

(** The sample session, expired at the instant 2000 and renewed then. *)
Lemma renewal_extends_issued_code_witness :
  QrGenerator.verifyQRCode 2000 (Sample.payload "token-1" Sample.gymA)
    (Sample.gym 30 (Some Sample.session)) = false
  /\ QrGenerator.verifyQRCode 500 (Sample.payload "token-1" Sample.gymA)
       (Sample.gym 30 (Some Sample.session)) = true
  /\ QrGenerator.verifyQRCode 2000 (Sample.payload "token-1" Sample.gymA)
       (Sample.gym 30
          (Some {| Gym.code := Some "token-1";
                   Gym.expiresAt := Some 86402000%Z |})) = true.
Proof.
  split; [reflexivity|]. split; [reflexivity|].
  apply (renewal_extends_issued_code QrGenerator.utcAddHours None 2000
           false (Sample.gym 30 (Some Sample.session))
           (Sample.gym 30
              (Some {| Gym.code := Some "token-1";
                       Gym.expiresAt := Some 86402000%Z |}))
           (Sample.store 50 30 (Some Sample.session))
           (Db.saveGym
              (Sample.gym 30
                 (Some {| Gym.code := Some "token-1";
                          Gym.expiresAt := Some 86402000%Z |}))
              (Sample.store 50 30 (Some Sample.session)))
           (Sample.payload "token-1" Sample.gymA) 500 2000);
    [reflexivity | reflexivity | vm_compute; discriminate].
Defined.

(** ** Who may change whom *)

Lemma findUserById_found (id : string) (db : Db.t) (user : User.doc) :
  Middleware.findUserById (JStr id) db = inr (Some user) ->
  Db.findUser (User._id user) db = Some user
  /\ User._id user = ObjectId.map ObjectId.lower id.
Proof.
  unfold Middleware.findUserById.
  destruct (ObjectId.cast (JStr id)) as [|o|] eqn:Ec; try discriminate.
  intros H. injection H as H. pose proof (findUser_id _ _ _ H) as Hid.
  apply cast_ok in Ec as (s & Es & _ & ->). injection Es as <-.
  rewrite Hid. auto.
Qed.

Lemma findUser_saveUser_found (user u' : User.doc) (db : Db.t)
    (uid : ObjectId.t) :
  Db.findUser (User._id user) db = Some user ->
  User._id u' = User._id user ->
  Db.findUser uid (Db.saveUser u' db)
  = if ObjectId.eqb uid (User._id user) then Some u' else Db.findUser uid db.
Proof.
  intros Hf Hid. rewrite findUser_saveUser, Hid.
  destruct (ObjectId.eqb uid (User._id user)) eqn:E.
  - apply String.eqb_eq in E. subst uid. rewrite Hf. simpl.
    unfold ObjectId.eqb. rewrite String.eqb_refl. reflexivity.
  - destruct (Db.findUser uid db) as [v|] eqn:Hv; [|reflexivity].
    simpl. apply findUser_id in Hv. rewrite Hv. unfold ObjectId.eqb in *.
    rewrite E. reflexivity.
Qed.

(** What PUT /api/users/:id stores: nothing, or the loaded account with
    the assignments of [updateUser], for a target that [canManageUser]
    let through and a body that [save] has validated. *)
Lemma putUser_store (toNumber : string -> option Q) (valid sf : bool)
    (caller : User.doc) (id : string) (b : UserController.update_body)
    (db : Db.t) :
  snd (UserController.putUser toNumber valid sf caller id b db) = db
  \/ exists user,
       Middleware.canManageUser caller id db = Middleware.Next
       /\ Middleware.findUserById (JStr id) db = inr (Some user)
       /\ UserController.update_errors toNumber caller b = []
       /\ snd (UserController.putUser toNumber valid sf caller id b db)
          = Db.saveUser (UserController.apply_update toNumber caller b user)
              db.
Proof.
  unfold UserController.putUser.
  destruct (Middleware.canManageUser caller id db) eqn:Hc; auto.
  unfold UserController.updateUser.
  destruct (negb valid); auto.
  destruct (_ && _); auto.
  destruct (Middleware.findUserById (JStr id) db) as [e|[user|]] eqn:Hf;
    auto.
  destruct (UserController.update_errors toNumber caller b) eqn:He; auto.
  destruct sf; auto.
  right. exists user. auto.
Qed.

Lemma role_of_string_super_admin (s : string) :
  User.role_of_string s = Some User.SUPER_ADMIN -> s = "super_admin".
Proof.
  unfold User.role_of_string.
  destruct (s =? "super_admin") eqn:E; [intros _; apply String.eqb_eq, E|].
  destruct (s =? "admin"); [discriminate|].
  destruct (s =? "gym"); [discriminate|].
  destruct (s =? "user"); discriminate.
Qed.

(** The values that the cast and the [enum] of [role] read as
    SUPER_ADMIN. *)
Lemma castRole_super_admin (v : jsval) :
  Mongoose.castRole v = Some User.SUPER_ADMIN ->
  v = JStr "super_admin" \/ prop v "_id" = JStr "super_admin".
Proof.
  destruct v as [| | | |s|fields]; simpl; try discriminate.
  - intros H. left. f_equal. apply role_of_string_super_admin, H.
  - destruct (lookup "_id" fields) as [| | | |s|]; try discriminate.
    intros H. right. f_equal. apply role_of_string_super_admin, H.
Qed.

(** X17.  Through PUT /api/users/:id a caller who is not a SUPER_ADMIN
    makes no account a SUPER_ADMIN, unless the body's [role] is an object
    whose [_id] is the string [super_admin]: after an update with any other
    body, every account with that role had it before. *)
Theorem only_super_admin_makes_super_admin
    (toNumber : string -> option Q) (valid sf : bool)
    (caller : User.doc) (id : string) (b : UserController.update_body)
    (db : Db.t) (uid : ObjectId.t) (u' : User.doc) :
  User.role caller <> User.SUPER_ADMIN ->
  prop (UserController.role b) "_id" <> JStr "super_admin" ->
  Db.findUser uid
    (snd (UserController.putUser toNumber valid sf caller id b db))
  = Some u' ->
  User.role u' = User.SUPER_ADMIN ->
  exists u, Db.findUser uid db = Some u
            /\ User.role u = User.SUPER_ADMIN.
Proof.
  intros Hc Hb Hf Hr.
  destruct (putUser_store toNumber valid sf caller id b db)
    as [E | (user & _ & Hu & _ & E)]; rewrite E in Hf.
  - eauto.
  - apply findUserById_found in Hu as [Hu _].
    rewrite (findUser_saveUser_found user
               (UserController.apply_update toNumber caller b user) db uid
               Hu eq_refl) in Hf.
    destruct (ObjectId.eqb uid (User._id user)) eqn:Eb; [|eauto].
    apply String.eqb_eq in Eb. subst uid. injection Hf as <-.
    exists user. split; [exact Hu|].
    cbn [UserController.apply_update User.role] in Hr.
    destruct (UserController.assigns_role caller b) eqn:Ha; [|exact Hr].
    destruct (Mongoose.castRole (UserController.role b)) as [r|] eqn:Er;
      [|exact Hr].
    subst r. exfalso.
    apply castRole_super_admin in Er as [Er|Er]; [|contradiction].
    unfold UserController.assigns_role in Ha. rewrite Er in Ha.
    destruct (User.role caller); try contradiction; discriminate Ha.
Qed.

(** The super administrator's account across an update by an
    administrator who asks for that role, in a string, for the member. *)
Lemma only_super_admin_makes_super_admin_witness :
  User.role Sample.administrator <> User.SUPER_ADMIN
  /\ prop (UserController.role (Sample.with_role (JStr "super_admin")))
       "_id" <> JStr "super_admin"
  /\ Db.findUser Sample.root
       (snd (UserController.putUser Sample.readNumber true false
               Sample.administrator Sample.member
               (Sample.with_role (JStr "super_admin"))
               (Sample.staffed 5 [])))
     = Some Sample.superAdministrator
  /\ User.role Sample.superAdministrator = User.SUPER_ADMIN
  /\ exists u, Db.findUser Sample.root (Sample.staffed 5 []) = Some u
               /\ User.role u = User.SUPER_ADMIN.
Proof.
  split; [discriminate|]. split; [discriminate|].
  split; [reflexivity|]. split; [reflexivity|].
  apply (only_super_admin_makes_super_admin Sample.readNumber true false
           Sample.administrator Sample.member
           (Sample.with_role (JStr "super_admin"))
           (Sample.staffed 5 []) Sample.root Sample.superAdministrator);
    [discriminate | discriminate | reflexivity | reflexivity].
Defined.

(** The exception is real.  An administrator's request for the role
    [super_admin] in a string is not carried out, the account keeps its
    role; the same request with the role in an object that has the string
    as its [_id] passes the handler's comparison and makes the member a
    SUPER_ADMIN. *)
Example admin_makes_super_admin_with_object_role :
  let db := Sample.staffed 5 [] in
  let put := fun v =>
    snd (UserController.putUser Sample.readNumber true false
           Sample.administrator Sample.member (Sample.with_role v) db) in
  option_map User.role (Db.findUser Sample.member db) = Some User.USER
  /\ option_map User.role
       (Db.findUser Sample.member (put (JStr "super_admin")))
     = Some User.USER
  /\ option_map User.role
       (Db.findUser Sample.member
          (put (JObj [("_id", JStr "super_admin")])))
     = Some User.SUPER_ADMIN.
Proof. repeat split; reflexivity. Qed.

(** X18.  An update by a caller who is neither SUPER_ADMIN nor ADMIN
    changes no account's role, points, active flag or assigned gyms. *)
Theorem non_admin_update_keeps_privileges
    (toNumber : string -> option Q) (valid sf : bool)
    (caller : User.doc) (id : string) (b : UserController.update_body)
    (db : Db.t) (uid : ObjectId.t) :
  UserController.is_admin (User.role caller) = false ->
  let db' := snd (UserController.putUser toNumber valid sf caller id b db)
  in
  option_map User.role (Db.findUser uid db')
  = option_map User.role (Db.findUser uid db)
  /\ option_map User.stored_points (Db.findUser uid db')
     = option_map User.stored_points (Db.findUser uid db)
  /\ option_map User.isActive (Db.findUser uid db')
     = option_map User.isActive (Db.findUser uid db)
  /\ option_map User.assignedGyms (Db.findUser uid db')
     = option_map User.assignedGyms (Db.findUser uid db).
Proof.
  intros Ha db'. subst db'.
  destruct (putUser_store toNumber valid sf caller id b db)
    as [E | (user & _ & Hu & _ & E)]; rewrite E; [auto|].
  apply findUserById_found in Hu as [Hu _].
  rewrite (findUser_saveUser_found user
             (UserController.apply_update toNumber caller b user) db uid
             Hu eq_refl).
  destruct (ObjectId.eqb uid (User._id user)) eqn:Eb; [|auto].
  apply String.eqb_eq in Eb. subst uid. rewrite Hu.
  unfold UserController.apply_update, UserController.assigns_role,
    UserController.assigns_points, UserController.assigns_isActive.
  rewrite Ha. simpl. auto.
Qed.

(** A member who asks for a million points and the role ADMIN. *)
Lemma non_admin_update_keeps_privileges_witness :
  let body := {| UserController.role := JStr "admin";
                 UserController.points := JNum 1000000;
                 UserController.isActive := JUndefined |} in
  let db := Sample.staffed 5 [] in
  let db' := snd (UserController.putUser Sample.readNumber true false
                    (Sample.account 5) Sample.member body db) in
  UserController.is_admin (User.role (Sample.account 5)) = false
  /\ option_map User.role (Db.findUser Sample.member db')
     = option_map User.role (Db.findUser Sample.member db)
  /\ option_map User.stored_points (Db.findUser Sample.member db')
     = option_map User.stored_points (Db.findUser Sample.member db)
  /\ option_map User.isActive (Db.findUser Sample.member db')
     = option_map User.isActive (Db.findUser Sample.member db)
  /\ option_map User.assignedGyms (Db.findUser Sample.member db')
     = option_map User.assignedGyms (Db.findUser Sample.member db).
Proof.
  intros body db db'. split; [reflexivity|].
  apply (non_admin_update_keeps_privileges Sample.readNumber true false
           (Sample.account 5) Sample.member body db Sample.member).
  reflexivity.
Defined.

(** Whom a caller of a given role may change. *)
Lemma canManageUser_next (caller : User.doc) (id : string) (db : Db.t)
    (user : User.doc) :
  Middleware.canManageUser caller id db = Middleware.Next ->
  Middleware.findUserById (JStr id) db = inr (Some user) ->
  match User.role caller with
  | User.SUPER_ADMIN => True
  | User.ADMIN => User.role user = User.GYM \/ User.role user = User.USER
  | User.GYM => User.role user = User.USER
  | User.USER => ObjectId.toString (User._id caller) = id
  end.
Proof.
  unfold Middleware.canManageUser. intros H Hu.
  destruct (User.role caller); [exact I| | |].
  - rewrite Hu in H. destruct (User.role user); simpl in H;
      try discriminate H; auto.
  - rewrite Hu in H. destruct (User.role user); simpl in H;
      try discriminate H; auto.
  - destruct (ObjectId.toString (User._id caller) =? id) eqn:E;
      [|discriminate H].
    apply String.eqb_eq. exact E.
Qed.



Lemma findUser_deleteUser (uid tid : ObjectId.t) (db : Db.t) :
  Db.findUser uid (Db.deleteUser tid db)
  = if ObjectId.eqb uid tid then None else Db.findUser uid db.
Proof.
  unfold Db.findUser, Db.deleteUser. simpl.
  induction (Db.users db) as [|v l IH]; simpl.
  - destruct (ObjectId.eqb uid tid); reflexivity.
  - destruct (ObjectId.eqb (User._id v) tid) eqn:Et; simpl.
    + rewrite IH. destruct (ObjectId.eqb uid tid) eqn:Eu; [reflexivity|].
      destruct (ObjectId.eqb (User._id v) uid) eqn:Ev; [|reflexivity].
      apply String.eqb_eq in Et, Ev. apply String.eqb_neq in Eu.
      congruence.
    + destruct (ObjectId.eqb (User._id v) uid) eqn:Ev.
      * destruct (ObjectId.eqb uid tid) eqn:Eu; [|reflexivity].
        apply String.eqb_eq in Eu, Ev. apply String.eqb_neq in Et.
        congruence.
      * exact IH.
Qed.

(** X20.  DELETE /api/users/:id deletes only for a SUPER_ADMIN, or for an
    ADMIN when the account is of role GYM or USER.  The account is then
    gone from the store, every other account and every gym stays, and the
    transaction log, with the records of the deleted account, is kept as it
    was. *)
Theorem delete_removes_account_keeps_log (delete_fails : bool)
    (caller : User.doc) (id : string) (db db' : Db.t) :
  UserController.deleteUserRoute delete_fails caller id db
  = (UserController.Deleted, db') ->
  exists target,
    Middleware.findUserById (JStr id) db = inr (Some target)
    /\ (User.role caller = User.SUPER_ADMIN
        \/ (User.role caller = User.ADMIN
            /\ (User.role target = User.GYM
                \/ User.role target = User.USER)))
    /\ Db.findUser (User._id target) db' = None
    /\ (forall uid, uid <> User._id target ->
                    Db.findUser uid db' = Db.findUser uid db)
    /\ Db.transactions db' = Db.transactions db
    /\ Db.gyms db' = Db.gyms db.
Proof.
  unfold UserController.deleteUserRoute, Middleware.restrictTo.
  destruct (existsb _ _) eqn:Hr; [|discriminate].
  destruct (Middleware.canManageUser caller id db) eqn:Hc;
    try discriminate.
  unfold UserController.deleteUser.
  destruct (Middleware.findUserById (JStr id) db) as [e|[target|]] eqn:Hu;
    try discriminate.
  destruct (_ && _); [discriminate|].
  destruct delete_fails; [discriminate|].
  intros H. injection H as <-.
  pose proof (canManageUser_next caller id db target Hc Hu) as Hm.
  exists target. split; [reflexivity|]. split; [|split; [|split]].
  - destruct (User.role caller); simpl in Hr; try discriminate Hr; auto.
  - rewrite findUser_deleteUser. unfold ObjectId.eqb.
    rewrite String.eqb_refl. reflexivity.
  - intros uid Hne. rewrite findUser_deleteUser.
    apply String.eqb_neq in Hne. unfold ObjectId.eqb. rewrite Hne.
    reflexivity.
  - split; reflexivity.
Qed.

(** An administrator who deletes the member, whose access is on record. *)
Lemma delete_removes_account_keeps_log_witness :
  let db := Sample.staffed 20 [Sample.access_record] in
  let r := UserController.deleteUserRoute false Sample.administrator
             Sample.member db in
  fst r = UserController.Deleted
  /\ Db.transactions (snd r) = [Sample.access_record]
  /\ exists target,
       Middleware.findUserById (JStr Sample.member) db
       = inr (Some target)
       /\ (User.role Sample.administrator = User.SUPER_ADMIN
           \/ (User.role Sample.administrator = User.ADMIN
               /\ (User.role target = User.GYM
                   \/ User.role target = User.USER)))
       /\ Db.findUser (User._id target) (snd r) = None
       /\ (forall uid, uid <> User._id target ->
                       Db.findUser uid (snd r) = Db.findUser uid db)
       /\ Db.transactions (snd r) = Db.transactions db
       /\ Db.gyms (snd r) = Db.gyms db.
Proof.
  intros db r. split; [reflexivity|]. split; [reflexivity|].
  apply (delete_removes_account_keeps_log false Sample.administrator
           Sample.member db (snd r)).
  reflexivity.
Defined.

(** ** The role tables *)

(** X21.  Permissions follow the hierarchy: whoever has the permissions of
    a role that [hasPermission] lets through is let through as well. *)
Theorem permission_follows_hierarchy (permission : string)
    (lower higher : User.doc) :
  Access.hasPermission permission lower = Middleware.Next ->
  Access.hasRole (User.role lower) higher = Middleware.Next ->
  Access.hasPermission permission higher = Middleware.Next.
Proof.
  unfold Access.hasPermission, Access.hasRole, Access.PERMISSIONS.
  repeat match goal with
         | |- context [if permission =? ?s then _ else _] =>
             destruct (permission =? s)
         end;
    destruct (User.role lower), (User.role higher); simpl;
    intros H1 H2; try discriminate H1; try discriminate H2; reflexivity.
Qed.

(** A gym operator may create a transaction, so an administrator may. *)
Lemma permission_follows_hierarchy_witness :
  Access.hasPermission "CREATE_TRANSACTION" Sample.operator
  = Middleware.Next
  /\ Access.hasRole (User.role Sample.operator) Sample.administrator
     = Middleware.Next
  /\ Access.hasPermission "CREATE_TRANSACTION" Sample.administrator
     = Middleware.Next.
Proof.
  split; [reflexivity|]. split; [reflexivity|].
  apply (permission_follows_hierarchy "CREATE_TRANSACTION" Sample.operator
           Sample.administrator); reflexivity.
Defined.

(** X22.  [hasRole] orders the roles: every caller has its own role, and a
    caller that has the role of a second caller has every role the second
    one has. *)
Theorem hasRole_is_a_preorder (a b : User.doc) (required : User.role_t) :
  Access.hasRole (User.role a) a = Middleware.Next
  /\ (Access.hasRole (User.role b) a = Middleware.Next ->
      Access.hasRole required b = Middleware.Next ->
      Access.hasRole required a = Middleware.Next).
Proof.
  unfold Access.hasRole.
  destruct (User.role a), (User.role b), required; simpl;
    split; try reflexivity; intros H1 H2;
    try discriminate H1; try discriminate H2; reflexivity.
Qed.

(** ** Reading accounts *)

(** X23.  To a caller of role USER who asks about another identifier, the
    points endpoint always answers 403, whereas the account endpoint looks
    the account up first: it answers 403 exactly when the account exists,
    404 exactly when the identifier can be read and no account has it, and
    it passes the cast error on exactly when the identifier cannot be
    read. *)
Theorem account_lookup_tells_existence (caller : User.doc) (id : string)
    (db : Db.t) :
  User.role caller = User.USER ->
  ObjectId.toString (User._id caller) <> id ->
  UserController.getUserPoints caller id db = UserController.ReadForbidden
  /\ (UserController.getUserById caller id db = UserController.ReadForbidden
      <-> exists u,
            Db.findUser (ObjectId.map ObjectId.lower id) db = Some u
            /\ ObjectId.is_hex24 id = true)
  /\ (UserController.getUserById caller id db
      = UserController.ReadUserNotFound
      <-> Db.findUser (ObjectId.map ObjectId.lower id) db = None
          /\ ObjectId.is_hex24 id = true)
  /\ (UserController.getUserById caller id db
      = UserController.ReadFailed QrController.CastError
      <-> ObjectId.is_hex24 id = false).
Proof.
  intros Hr Hne. apply String.eqb_neq in Hne.
  unfold UserController.getUserPoints, UserController.getUserById,
    Middleware.findUserById, ObjectId.cast.
  rewrite Hr, Hne. simpl. split; [reflexivity|].
  destruct (ObjectId.is_hex24 id).
  - destruct (Db.findUser (ObjectId.map ObjectId.lower id) db) as [u|].
    + repeat split; try discriminate; eauto.
      * intros [K _]. discriminate K.
    + repeat split; try discriminate.
      * intros (u & K & _). discriminate K.
  - repeat split; try discriminate.
    + intros (u & _ & K). discriminate K.
    + intros [_ K]. discriminate K.
Qed.

(** The member, asking about the administrator. *)
Lemma account_lookup_tells_existence_witness :
  User.role (Sample.account 5) = User.USER
  /\ ObjectId.toString (User._id (Sample.account 5)) <> Sample.admin
  /\ UserController.getUserById (Sample.account 5) Sample.admin
       (Sample.store 5 30 None) = UserController.ReadForbidden
  /\ UserController.getUserById (Sample.account 5) Sample.root
       (Sample.store 5 30 None) = UserController.ReadUserNotFound
  /\ UserController.getUserById (Sample.account 5) "xyz"
       (Sample.store 5 30 None)
     = UserController.ReadFailed QrController.CastError
  /\ UserController.getUserPoints (Sample.account 5) Sample.admin
       (Sample.store 5 30 None) = UserController.ReadForbidden
  /\ (UserController.getUserById (Sample.account 5) Sample.admin
        (Sample.store 5 30 None) = UserController.ReadForbidden
      <-> exists u,
            Db.findUser (ObjectId.map ObjectId.lower Sample.admin)
              (Sample.store 5 30 None) = Some u
            /\ ObjectId.is_hex24 Sample.admin = true)
  /\ (UserController.getUserById (Sample.account 5) Sample.admin
        (Sample.store 5 30 None) = UserController.ReadUserNotFound
      <-> Db.findUser (ObjectId.map ObjectId.lower Sample.admin)
            (Sample.store 5 30 None) = None
          /\ ObjectId.is_hex24 Sample.admin = true)
  /\ (UserController.getUserById (Sample.account 5) Sample.admin
        (Sample.store 5 30 None)
      = UserController.ReadFailed QrController.CastError
      <-> ObjectId.is_hex24 Sample.admin = false).
Proof.
  split; [reflexivity|]. split; [discriminate|].
  split; [reflexivity|]. split; [reflexivity|]. split; [reflexivity|].
  apply (account_lookup_tells_existence (Sample.account 5) Sample.admin
           (Sample.store 5 30 None)); [reflexivity | discriminate].
Defined.

(** X24.  The balance that a granted scan reports is the balance that the
    points endpoint gives the same caller afterwards. *)
Theorem scan_balance_is_read_back (now : Z) (f : Ledger.faults)
    (caller : User.doc) (payload : jsval) (deviceInfo : option string)
    (location : option (Q * Q)) (db db' : Db.t) (x : Transaction.doc)
    (p : Q) :
  ObjectId.canonical (User._id caller) = true ->
  QrController.scanQRCode now f (User._id caller)
    (QrController.Parsed payload) deviceInfo location db
  = (QrController.AccessGranted x p, db') ->
  UserController.getUserPoints caller
    (ObjectId.toString (User._id caller)) db'
  = UserController.UserPoints (Some p).
Proof.
  intros Hcan. unfold QrController.scanQRCode.
  destruct (QrController.resolveGym payload db) as [e|[gym|]];
    try discriminate.
  destruct (negb (QrGenerator.verifyQRCode now payload gym));
    [discriminate|].
  destruct (Db.findUser (User._id caller) db) as [user|] eqn:Hu;
    [|discriminate].
  destruct (Ledger.Qltb _ _); [discriminate|].
  destruct (Ledger.createTransaction _ f db) as [[e|y] db1] eqn:E;
    [discriminate|].
  intros H. injection H as _ <- <-.
  pose proof (findUser_id _ _ _ Hu) as Hid.
  apply applied_stored_points in E as (q & Hq & Hq' & _).
  simpl in Hq, Hq'. rewrite Hid in Hq, Hq'.
  unfold Db.balance in Hq. unfold Db.stored_points in Hq'.
  rewrite Hu in Hq. injection Hq as <-.
  unfold UserController.getUserPoints, Middleware.findUserById,
    ObjectId.toString.
  rewrite String.eqb_refl, andb_false_r, (cast_of_canonical _ Hcan).
  destruct (Db.findUser (User._id caller) db1) as [u1|];
    [|discriminate Hq'].
  simpl in Hq'. injection Hq' as ->. reflexivity.
Qed.

(** The scan of scenario A, and the member's points afterwards. *)
Lemma scan_balance_is_read_back_witness :
  let db := Sample.store 50 30 (Some Sample.session) in
  let r := QrController.scanQRCode 0 Ledger.no_faults
             (User._id (Sample.account 50))
             (QrController.Parsed (Sample.payload "token-1" Sample.gymA))
             None None db in
  ObjectId.canonical (User._id (Sample.account 50)) = true
  /\ fst r = QrController.AccessGranted Sample.access_record 20
  /\ UserController.getUserPoints (Sample.account 50)
       (ObjectId.toString (User._id (Sample.account 50))) (snd r)
     = UserController.UserPoints (Some 20).
Proof.
  intros db r. split; [reflexivity|]. split; [reflexivity|].
  apply (scan_balance_is_read_back 0 Ledger.no_faults (Sample.account 50)
           (Sample.payload "token-1" Sample.gymA) None None db (snd r)
           Sample.access_record 20); reflexivity.
Defined.

(** ** Manual grants and manual transactions *)

(** X25.  Whenever POST /api/users/:id/points answers with success to a
    body whose [points] is a number, the balance it reports is the old
    balance plus the amount, and the balance it has stored is that plus
    the amount once more; the balance and the amount being integers that a
    Number carries exactly together with these sums. *)
Theorem manual_grant_stores_more_than_it_reports (f : Ledger.faults)
    (sf : bool) (caller : User.doc) (id : string)
    (b : UserController.points_body) (ip : option string) (db db' : Db.t)
    (uid : ObjectId.t) (reported added : Q) (balance amount : Z) :
  UserController.postPoints f sf caller id b ip db
  = (UserController.PointsAdded uid reported added, db') ->
  Db.balance uid db = Some (inject_Z balance) ->
  UserController.amount b = inject_Z amount ->
  safe balance -> safe amount -> safe (balance + 2 * amount) ->
  reported = inject_Z (balance + amount)
  /\ added = inject_Z amount
  /\ Db.balance uid db' = Some (inject_Z (balance + 2 * amount)).
Proof.
  unfold UserController.postPoints.
  destruct (Middleware.restrictTo _ caller); try discriminate.
  unfold UserController.addPoints.
  destruct (_ || _); [discriminate|].
  destruct (Middleware.findUserById (JStr id) db) as [e|[user|]] eqn:Hu;
    try discriminate.
  destruct (negb _); [discriminate|].
  destruct sf; [discriminate|].
  destruct (Ledger.createTransaction _ f _) as [[e|y] db2] eqn:E;
    [discriminate|].
  remember (Qred (User.points user + UserController.amount b)) as sum
    eqn:Es.
  intros H Hb Ha _ _ _. injection H as <- <- <- <-.
  apply findUserById_found in Hu as [Hu _].
  cbn [User._id User.set_points] in Hb. unfold Db.balance in Hb.
  rewrite Hu in Hb. injection Hb as Hb.
  rewrite Hb, Ha, Qred_plus_integers in Es.
  apply applied_balance in E as (q & Hq & Hq' & _).
  cbn [Ledger.userId Ledger.type Ledger.points User._id User.set_points]
    in Hq, Hq'.
  rewrite String.eqb_refl in Hq'.
  unfold Db.balance in Hq.
  pose proof (findUser_saveUser_found user (User.set_points user sum)
                db (User._id user) Hu eq_refl) as K.
  rewrite K in Hq. clear K.
  unfold ObjectId.eqb in Hq. rewrite String.eqb_refl in Hq.
  unfold User.points at 1 in Hq.
  cbn [option_map User.stored_points User.set_points] in Hq.
  injection Hq as <-.
  rewrite Ha, Es, Qred_plus_integers in Hq'.
  unfold User.points at 1. cbn [User.stored_points User.set_points User._id].
  split; [exact Es|]. split; [exact Ha|].
  rewrite Hq'. do 2 f_equal. lia.
Qed.

(** The grant of scenario D with a gym named. *)
Lemma manual_grant_stores_more_than_it_reports_witness :
  let db := Sample.store 5 30 None in
  let body := {| UserController.amount := 40;
                 UserController.reason := None;
                 UserController.gymId := Some Sample.gymA |} in
  let r := UserController.postPoints Ledger.no_faults false
             Sample.administrator Sample.member body None db in
  fst r = UserController.PointsAdded Sample.member 45 40
  /\ Db.balance Sample.member db = Some (inject_Z 5)
  /\ UserController.amount body = inject_Z 40
  /\ safe 5 /\ safe 40 /\ safe (5 + 2 * 40)
  /\ (45 : Q) = inject_Z (5 + 40)
  /\ (40 : Q) = inject_Z 40
  /\ Db.balance Sample.member (snd r) = Some (inject_Z (5 + 2 * 40)).
Proof.
  intros db body r.
  assert (S1 : safe 5) by (unfold safe; simpl; lia).
  assert (S2 : safe 40) by (unfold safe; simpl; lia).
  assert (S3 : safe (5 + 2 * 40)) by (unfold safe; simpl; lia).
  split; [reflexivity|]. split; [reflexivity|]. split; [reflexivity|].
  split; [exact S1|]. split; [exact S2|]. split; [exact S3|].
  apply (manual_grant_stores_more_than_it_reports Ledger.no_faults false
           Sample.administrator Sample.member body None db (snd r)
           Sample.member 45 40 5 40); auto; reflexivity.
Defined.

(** X26.  When the ledger call of POST /api/users/:id/points fails, for a
    body whose [points] is a number and an account whose balance was not
    negative, the handler's own increment stays stored and the log holds
    no record of the grant; the balance, the amount and their sum being
    integers that a Number carries exactly. *)
Theorem failed_manual_grant_keeps_the_increment (f : Ledger.faults)
    (sf : bool) (caller : User.doc) (id : string)
    (b : UserController.points_body) (ip : option string) (db db' : Db.t)
    (user : User.doc) (e : Ledger.error) (balance amount : Z) :
  Middleware.findUserById (JStr id) db = inr (Some user) ->
  User.points user = inject_Z balance ->
  (0 <= balance)%Z ->
  UserController.amount b = inject_Z amount ->
  safe balance -> safe amount -> safe (balance + amount) ->
  UserController.postPoints f sf caller id b ip db
  = (UserController.PointsFailed (QrController.LedgerError e), db') ->
  Db.balance (User._id user) db' = Some (inject_Z (balance + amount))
  /\ Db.transactions db' = Db.transactions db.
Proof.
  intros Hu Hb Hp Ha _ _ _. unfold UserController.postPoints.
  destruct (Middleware.restrictTo _ caller); try discriminate.
  unfold UserController.addPoints.
  destruct (Qeq_bool _ 0 || Qle_bool _ 0) eqn:Hg; [discriminate|].
  rewrite Hu.
  assert (Hpos : (0 < amount)%Z).
  { apply orb_false_iff in Hg as [_ Hg]. rewrite Ha in Hg.
    destruct (Z_lt_le_dec 0 amount) as [L|L]; [exact L|].
    exfalso. assert (K : Qle_bool (inject_Z amount) 0 = true).
    { apply Qle_bool_iff. change 0%Q with (inject_Z 0).
      rewrite <- Zle_Qle. exact L. }
    congruence. }
  assert (Hv : User.points_valid
                 (User.set_points user
                    (Qred (User.points user + UserController.amount b)))
               = true).
  { unfold User.points_valid. unfold User.points at 1.
    cbn [User.stored_points User.set_points].
    rewrite Hb, Ha, Qred_plus_integers.
    apply Qle_bool_iff. change 0%Q with (inject_Z 0).
    rewrite <- Zle_Qle. lia. }
  rewrite Hv. cbn [negb].
  destruct sf; [discriminate|].
  destruct (Ledger.createTransaction _ f _) as [[e'|y] db2] eqn:E;
    [|discriminate].
  intros H. injection H as _ <-.
  apply createTransaction_failed in E. subst db2.
  apply findUserById_found in Hu as [Hf _].
  split; [|reflexivity].
  unfold Db.balance.
  pose proof (findUser_saveUser_found user
                (User.set_points user
                   (Qred (User.points user + UserController.amount b)))
                db (User._id user) Hf eq_refl) as K.
  rewrite K. unfold ObjectId.eqb. rewrite String.eqb_refl.
  unfold User.points at 1.
  cbn [option_map User.stored_points User.set_points].
  rewrite Hb, Ha, Qred_plus_integers. reflexivity.
Qed.

(** The grant of scenario D with no gym named. *)
Lemma failed_manual_grant_keeps_the_increment_witness :
  let db := Sample.store 5 30 None in
  let body := {| UserController.amount := 40;
                 UserController.reason := None;
                 UserController.gymId := None |} in
  let r := UserController.postPoints Ledger.no_faults false
             Sample.administrator Sample.member body None db in
  Middleware.findUserById (JStr Sample.member) db
  = inr (Some (Sample.account 5))
  /\ User.points (Sample.account 5) = inject_Z 5
  /\ (0 <= 5)%Z
  /\ UserController.amount body = inject_Z 40
  /\ safe 5 /\ safe 40 /\ safe (5 + 40)
  /\ fst r = UserController.PointsFailed
               (QrController.LedgerError (Ledger.ValidationError ["gymId"]))
  /\ Db.balance (User._id (Sample.account 5)) (snd r)
     = Some (inject_Z (5 + 40))
  /\ Db.transactions (snd r) = Db.transactions db.
Proof.
  intros db body r.
  assert (S1 : safe 5) by (unfold safe; simpl; lia).
  assert (S2 : safe 40) by (unfold safe; simpl; lia).
  assert (S3 : safe (5 + 40)) by (unfold safe; simpl; lia).
  split; [reflexivity|]. split; [reflexivity|]. split; [lia|].
  split; [reflexivity|].
  split; [exact S1|]. split; [exact S2|]. split; [exact S3|].
  split; [reflexivity|].
  apply (failed_manual_grant_keeps_the_increment Ledger.no_faults false
           Sample.administrator Sample.member body None db (snd r)
           (Sample.account 5) (Ledger.ValidationError ["gymId"]) 5 40);
    auto; try reflexivity; lia.
Defined.

(** X27.  A record created through POST /api/transactions has an integer
    amount of at least 1, is COMPLETED, names a stored gym and has the
    caller as its creator; the caller is not of role USER, and a caller of
    role GYM has the gym among its assigned gyms. *)
Theorem manual_transaction_record (f : Ledger.faults) (caller : User.doc)
    (b : TransactionController.body) (ip : option string) (db db' : Db.t)
    (x : Transaction.doc) :
  TransactionController.postTransaction f caller b ip db
  = (TransactionController.Created x, db') ->
  TransactionController.is_integer (Transaction.points x) = true
  /\ (1 <= Transaction.points x)%Q
  /\ Transaction.status x = Transaction.COMPLETED
  /\ Transaction.createdBy x = Some (User._id caller)
  /\ User.role caller <> User.USER
  /\ (User.role caller = User.GYM ->
      Access.includes (User.assignedGyms caller)
        (TransactionController.gymId b) = true)
  /\ exists gym,
       QrController.findGymById (JStr (TransactionController.gymId b)) db
       = inr (Some gym)
       /\ Transaction.gymId x = Some (Gym._id gym).
Proof.
  unfold TransactionController.postTransaction, Middleware.restrictTo.
  destruct (existsb _ _) eqn:Hr; [|discriminate].
  destruct (Access.hasPermission _ caller); try discriminate.
  unfold TransactionController.createTransaction.
  destruct (TransactionController.createTransactionValidation b) eqn:Hv;
    [|discriminate]. cbn [negb].
  destruct (Middleware.findUserById _ db) as [e|[user|]]; try discriminate.
  destruct (QrController.findGymById _ db) as [e|[gym|]] eqn:Hg;
    try discriminate.
  destruct (Middleware.role_eqb (User.role caller) User.GYM
            && negb (Access.includes _ _)) eqn:Hgym; [discriminate|].
  destruct ((TransactionController.type b =? "SPEND")
            && Ledger.Qltb (User.points user)
                 (TransactionController.points b)); [discriminate|].
  destruct (Ledger.createTransaction _ f db) as [[e|y] db1] eqn:E;
    [discriminate|].
  intros H. injection H as <- <-.
  apply createTransaction_applied, try_block_inv in E
    as (_ & _ & _ & _ & _ & -> & _).
  unfold TransactionController.createTransactionValidation in Hv.
  repeat (apply andb_true_iff in Hv as [Hv ?]).
  simpl. repeat split; auto.
  - apply Qle_bool_iff. assumption.
  - intros K. rewrite K in Hr. discriminate Hr.
  - intros K. rewrite K in Hgym. simpl in Hgym.
    apply negb_false_iff in Hgym. exact Hgym.
  - exists gym. split; [reflexivity|].
    unfold Ledger.gym_of. cbv beta iota. cbn [Ledger.gymId].
    rewrite (findGymById_cast _ _ _ Hg). reflexivity.
Qed.

(** The operator of the sample gym, charging the member 30 points. *)
Lemma manual_transaction_record_witness :
  let db := Sample.staffed 50 [] in
  let body := {| TransactionController.userId := Sample.member;
                 TransactionController.gymId := Sample.gymA;
                 TransactionController.points := 30;
                 TransactionController.type := "SPEND";
                 TransactionController.description := Some "towel" |} in
  let r := TransactionController.postTransaction Ledger.no_faults
             Sample.operator body None db in
  exists x,
    fst r = TransactionController.Created x
    /\ TransactionController.is_integer (Transaction.points x) = true
    /\ (1 <= Transaction.points x)%Q
    /\ Transaction.status x = Transaction.COMPLETED
    /\ Transaction.createdBy x = Some (User._id Sample.operator)
    /\ User.role Sample.operator <> User.USER
    /\ (User.role Sample.operator = User.GYM ->
        Access.includes (User.assignedGyms Sample.operator)
          (TransactionController.gymId body) = true)
    /\ exists gym,
         QrController.findGymById
           (JStr (TransactionController.gymId body)) db = inr (Some gym)
         /\ Transaction.gymId x = Some (Gym._id gym).
Proof.
  intros db body r. eexists. split; [reflexivity|].
  eapply (manual_transaction_record Ledger.no_faults Sample.operator body
            None db (snd r)).
  reflexivity.
Defined.

(** ** Listing the accounts of a gym *)

(** What a page holds is among the documents that the query matches. *)
Lemma page_incl {A : Type} (start size : nat) (docs : list A) :
  incl (firstn size (skipn start docs)) docs.
Proof.
  intros x H.
  rewrite <- (firstn_skipn start docs). apply in_or_app. right.
  rewrite <- (firstn_skipn size (skipn start docs)). apply in_or_app.
  left. exact H.
Qed.

Lemma usersIn_spec (ids : list ObjectId.t) (db : Db.t) (u : User.doc) :
  In u (UserController.usersIn ids db) <->
  In u (Db.users db) /\ In (User._id u) ids.
Proof.
  unfold UserController.usersIn. rewrite filter_In, existsb_exists.
  split.
  - intros (Hu & i & Hi & E). apply String.eqb_eq in E. subst i. auto.
  - intros (Hu & Hi). split; [exact Hu|]. exists (User._id u).
    split; [exact Hi | apply String.eqb_refl].
Qed.

Lemma distinctUserIds_spec (gym : ObjectId.t) (db : Db.t)
    (i : ObjectId.t) :
  In i (UserController.distinctUserIds gym db) <->
  exists x, In x (Db.transactions db)
            /\ Transaction.userId x = i
            /\ Transaction.gymId x = Some gym.
Proof.
  unfold UserController.distinctUserIds.
  rewrite nodup_In, in_map_iff. split.
  - intros (x & Hx & Hin). apply filter_In in Hin as [Hin Hg].
    exists x. repeat split; auto.
    destruct (Transaction.gymId x) as [g|]; [|discriminate Hg].
    apply String.eqb_eq in Hg. congruence.
  - intros (x & Hin & Hx & Hg). exists x. split; [exact Hx|].
    apply filter_In. split; [exact Hin|]. rewrite Hg.
    apply String.eqb_refl.
Qed.

(** X28.  GET /api/users/gym/:gymId lists only stored accounts that have a
    transaction record at that gym, and lists nothing for a caller of role
    GYM that does not have the gym among its assigned gyms. *)
Theorem listed_accounts_have_a_record_at_the_gym (caller : User.doc)
    (gymId : string) (page limit : option string) (db : Db.t)
    (u : User.doc) :
  In u (Spec.listed
          (UserController.getUsersByGym caller gymId page limit db)) ->
  In u (Db.users db)
  /\ (User.role caller = User.GYM ->
      Access.includes (User.assignedGyms caller) gymId = true)
  /\ exists x,
       In x (Db.transactions db)
       /\ Transaction.userId x = User._id u
       /\ Transaction.gymId x = Some (ObjectId.map ObjectId.lower gymId).
Proof.
  unfold UserController.getUsersByGym.
  destruct (Middleware.role_eqb (User.role caller) User.GYM
            && negb (Access.includes (User.assignedGyms caller) gymId))
    eqn:Hg; [intros []|].
  destruct (ObjectId.cast (JStr gymId)) as [|gym|] eqn:Ec;
    try (intros []).
  apply cast_ok in Ec as (s & Es & _ & ->). injection Es as <-.
  unfold UserController.usersByGymPage, Query.skip_limit.
  destruct (_ <? 0)%Z; [intros []|]. simpl.
  intros H. apply page_incl, usersIn_spec in H as [Hu Hi].
  split; [exact Hu|]. split.
  - intros K. rewrite K in Hg. simpl in Hg.
    apply negb_false_iff in Hg. exact Hg.
  - apply distinctUserIds_spec in Hi. exact Hi.
Qed.

(** The operator of the sample gym, after the member's access. *)
Lemma listed_accounts_have_a_record_at_the_gym_witness :
  let db := Sample.staffed 20 [Sample.access_record] in
  UserController.getUsersByGym Sample.operator Sample.gymA None None db
  = UserController.Listed 1 1 1 10 [Sample.account 20]
  /\ In (Sample.account 20) (Db.users db)
  /\ (User.role Sample.operator = User.GYM ->
      Access.includes (User.assignedGyms Sample.operator) Sample.gymA = true)
  /\ exists x,
       In x (Db.transactions db)
       /\ Transaction.userId x = User._id (Sample.account 20)
       /\ Transaction.gymId x
          = Some (ObjectId.map ObjectId.lower Sample.gymA).
Proof.
  intros db. split; [reflexivity|].
  apply (listed_accounts_have_a_record_at_the_gym Sample.operator
           Sample.gymA None None db (Sample.account 20)).
  simpl. left. reflexivity.
Defined.

Lemma firstn_add_skipn {A : Type} (a b : nat) (l : list A) :
  firstn (a + b) l = (firstn a l ++ firstn b (skipn a l))%list.
Proof.
  revert l. induction a as [|a IH]; intros l; simpl; [reflexivity|].
  destruct l as [|x l]; simpl.
  - destruct b; reflexivity.
  - f_equal. apply IH.
Qed.

Lemma chunks_concat {A : Type} (size n : nat) (l : list A) :
  List.concat (map (fun k => firstn size (skipn (k * size) l)) (seq 0 n))
  = firstn (n * size) l.
Proof.
  induction n as [|n IH]; [reflexivity|].
  rewrite seq_S, map_app, concat_app, IH. simpl.
  rewrite app_nil_r, (Nat.add_comm size (n * size)).
  symmetry. apply firstn_add_skipn.
Qed.

(** The accounts that a query matches are still under distinct
    identifiers. *)
Lemma matched_accounts_distinct (keep : User.doc -> bool)
    (accounts : list User.doc) :
  NoDup (map User._id accounts) ->
  NoDup (map User._id (filter keep accounts)).
Proof.
  intros H. induction accounts as [|u rest IH]; simpl in *; [exact H|].
  apply NoDup_cons_iff in H as [Hout Hrest].
  destruct (keep u); simpl; [|exact (IH Hrest)].
  apply NoDup_cons_iff. split; [|exact (IH Hrest)].
  rewrite in_map_iff. intros (v & Hv & Hin).
  apply filter_In in Hin as [Hin _].
  apply Hout. rewrite in_map_iff. exists v. auto.
Qed.

Lemma usersIn_length (ids : list ObjectId.t) (db : Db.t) :
  Spec.unique_accounts db -> NoDup ids ->
  (List.length (UserController.usersIn ids db) <= List.length ids)%nat.
Proof.
  intros Hu Hi.
  rewrite <- (length_map User._id (UserController.usersIn ids db)).
  apply NoDup_incl_length.
  - apply matched_accounts_distinct. exact Hu.
  - intros i H. apply in_map_iff in H as (u & <- & H).
    apply usersIn_spec in H. tauto.
Qed.

Lemma page_of_members (gym : ObjectId.t) (limit : Z) (db : Db.t)
    (k : nat) :
  (0 < limit)%Z ->
  Spec.listed (UserController.usersByGymPage gym (Z.of_nat k + 1) limit db)
  = firstn (Z.to_nat limit)
      (skipn (k * Z.to_nat limit)
         (UserController.usersIn
            (UserController.distinctUserIds gym db) db)).
Proof.
  intros Hl. unfold UserController.usersByGymPage, Query.skip_limit.
  replace (Z.of_nat k + 1 - 1)%Z with (Z.of_nat k) by lia.
  destruct (Z.of_nat k * limit <? 0)%Z eqn:E.
  - apply Z.ltb_lt in E. nia.
  - simpl. rewrite Z.abs_eq by lia.
    rewrite Z2Nat.inj_mul by lia. rewrite Nat2Z.id. reflexivity.
Qed.

Lemma ceil_div_covers (total limit : Z) :
  (0 <= total)%Z -> (0 < limit)%Z ->
  (0 <= Query.ceil_div total limit
   /\ total <= Query.ceil_div total limit * limit)%Z.
Proof.
  intros Ht Hl. unfold Query.ceil_div.
  pose proof (Z.mul_div_le (- total) limit Hl) as H1.
  assert (H2 : (- total / limit <= 0)%Z).
  { apply Z.div_le_upper_bound; lia. }
  split; nia.
Qed.

(** X29.  With a positive [limit] and accounts stored under distinct
    identifiers, the pages 1 to [pages] of GET /api/users/gym/:gymId, put
    one after the other, are exactly the accounts that the unpaged query
    matches: none is missing and none comes twice. *)
Theorem pages_cover_the_accounts_of_the_gym (gym : ObjectId.t) (limit : Z)
    (db : Db.t) :
  (0 < limit)%Z ->
  Spec.unique_accounts db ->
  let total :=
    Z.of_nat (List.length (UserController.distinctUserIds gym db)) in
  List.concat
    (map (fun k =>
            Spec.listed
              (UserController.usersByGymPage gym (Z.of_nat k + 1) limit db))
       (seq 0 (Z.to_nat (Query.ceil_div total limit))))
  = UserController.usersIn (UserController.distinctUserIds gym db) db.
Proof.
  intros Hl Hu total.
  rewrite (map_ext _ (fun k =>
             firstn (Z.to_nat limit)
               (skipn (k * Z.to_nat limit)
                  (UserController.usersIn
                     (UserController.distinctUserIds gym db) db))))
    by (intros k; apply page_of_members, Hl).
  rewrite chunks_concat. apply firstn_all2.
  pose proof (usersIn_length (UserController.distinctUserIds gym db) db Hu
                (NoDup_nodup string_dec _)) as Hlen.
  destruct (ceil_div_covers total limit) as [Hc0 Hc]; [lia | exact Hl |].
  fold (UserController.distinctUserIds gym db) in Hlen.
  apply Nat2Z.inj_le. rewrite Nat2Z.inj_mul, !Z2Nat.id by lia.
  subst total. lia.
Qed.

(** Two accounts with a record at the sample gym, one account to a page. *)
Lemma pages_cover_the_accounts_of_the_gym_witness :
  let db := Sample.staffed 20 [Sample.operator_record; Sample.access_record] in
  (0 < 1)%Z
  /\ Spec.unique_accounts db
  /\ UserController.usersIn
       (UserController.distinctUserIds Sample.gymA db) db
     = [Sample.account 20; Sample.operator]
  /\ List.concat
       (map (fun k =>
               Spec.listed
                 (UserController.usersByGymPage Sample.gymA
                    (Z.of_nat k + 1) 1 db))
          (seq 0 (Z.to_nat
                    (Query.ceil_div
                       (Z.of_nat
                          (List.length
                             (UserController.distinctUserIds Sample.gymA
                                db))) 1))))
     = UserController.usersIn
         (UserController.distinctUserIds Sample.gymA db) db.
Proof.
  intros db.
  assert (Hu : Spec.unique_accounts db).
  { unfold Spec.unique_accounts. simpl.
    repeat constructor; simpl; intuition discriminate. }
  split; [reflexivity|]. split; [exact Hu|]. split; [reflexivity|].
  apply (pages_cover_the_accounts_of_the_gym Sample.gymA 1 db);
    [reflexivity | exact Hu].
Defined.

(** ** What changes the points of an account *)

Lemma stored_points_users (uid : ObjectId.t) (db db' : Db.t) :
  Db.users db' = Db.users db ->
  Db.stored_points uid db' = Db.stored_points uid db.
Proof.
  intros H. unfold Db.stored_points, Db.findUser. rewrite H. reflexivity.
Qed.

(** An applied ledger call leaves the accounts other than its own. *)
Lemma applied_other_accounts (d : Ledger.data) (f : Ledger.faults)
    (db db' : Db.t) (x : Transaction.doc) (uid : ObjectId.t) :
  Ledger.createTransaction d f db = (inr x, db') ->
  uid <> Ledger.userId d ->
  Db.findUser uid db' = Db.findUser uid db.
Proof.
  intros E Hne.
  apply createTransaction_applied, try_block_inv in E
    as (user & Hf & _ & _ & _ & _ & ->).
  match goal with
  | |- context [Db.saveUser ?u _] => set (user' := u)
  end.
  change (Db.findUser uid (Db.saveUser user' db) = Db.findUser uid db).
  rewrite findUser_saveUser.
  destruct (Db.findUser uid db) as [v|] eqn:Hv; [|reflexivity].
  simpl. apply findUser_id in Hv. apply findUser_id in Hf.
  destruct (ObjectId.eqb (User._id v) (User._id user)) eqn:Eb;
    [|reflexivity].
  apply String.eqb_eq in Eb. congruence.
Qed.

(** An applied ledger call adds a record to the log. *)
Lemma applied_log_grows (d : Ledger.data) (f : Ledger.faults)
    (db db' : Db.t) (x : Transaction.doc) :
  Ledger.createTransaction d f db = (inr x, db') ->
  List.length (Db.transactions db') = S (List.length (Db.transactions db)).
Proof.
  intros E.
  apply createTransaction_applied, try_block_inv in E
    as (user & _ & _ & _ & _ & _ & ->).
  simpl. rewrite length_map. reflexivity.
Qed.

(** After a ledger call that was applied to some account, an account is
    as it was or is the one the call was applied to. *)
Lemma by_ledger_account (a uid : ObjectId.t) (db db' : Db.t) :
  Spec.by_ledger a db db' ->
  Db.stored_points uid db' = Db.stored_points uid db
  \/ Spec.by_ledger uid db db'.
Proof.
  intros (d & f & x & E & Ha).
  destruct (string_dec uid a) as [->|Hne].
  - right. exists d, f, x. auto.
  - left. unfold Db.stored_points.
    rewrite (applied_other_accounts d f db db' x uid E); congruence.
Qed.

(** A ledger call made by a handler: the stored state is as before, or
    the call was applied. *)
Lemma handler_ledger_call (d : Ledger.data) (f : Ledger.faults)
    (db : Db.t) :
  snd (Ledger.createTransaction d f db) = db
  \/ Spec.by_ledger (Ledger.userId d) db
       (snd (Ledger.createTransaction d f db)).
Proof.
  destruct (Ledger.createTransaction d f db) as [[e|x] db'] eqn:E; simpl.
  - left. apply (createTransaction_failed d f db db' e E).
  - right. exists d, f, x. auto.
Qed.

Lemma scan_store (now : Z) (f : Ledger.faults) (userId : ObjectId.t)
    (qrData : QrController.parse_result) (deviceInfo : option string)
    (location : option (Q * Q)) (db : Db.t) :
  let db' := snd (QrController.scanQRCode now f userId qrData deviceInfo
                    location db) in
  db' = db \/ exists a, Spec.by_ledger a db db'.
Proof.
  unfold QrController.scanQRCode.
  destruct qrData as [|payload]; [simpl; auto|].
  destruct (QrController.resolveGym payload db) as [e|[gym|]];
    try (simpl; auto).
  destruct (negb (QrGenerator.verifyQRCode now payload gym)); [simpl; auto|].
  destruct (Db.findUser userId db) as [user|]; [|simpl; auto].
  destruct (Ledger.Qltb _ _); [simpl; auto|].
  match goal with
  | |- context [Ledger.createTransaction ?d f db] =>
      destruct (handler_ledger_call d f db) as [K|K];
      destruct (Ledger.createTransaction d f db) as [[e|x] db1]
  end; simpl in *; eauto.
Qed.

Lemma postTransaction_store (f : Ledger.faults) (caller : User.doc)
    (b : TransactionController.body) (ip : option string) (db : Db.t) :
  let db' := snd (TransactionController.postTransaction f caller b ip db) in
  db' = db \/ exists a, Spec.by_ledger a db db'.
Proof.
  unfold TransactionController.postTransaction.
  destruct (Middleware.restrictTo _ caller); try (simpl; auto).
  destruct (Access.hasPermission _ caller); try (simpl; auto).
  unfold TransactionController.createTransaction.
  destruct (negb _); [simpl; auto|].
  destruct (Middleware.findUserById _ db) as [e|[user|]]; try (simpl; auto).
  destruct (QrController.findGymById _ db) as [e|[gym|]];
    try (simpl; auto).
  destruct (Middleware.role_eqb (User.role caller) User.GYM && _);
    [simpl; auto|].
  destruct ((TransactionController.type b =? "SPEND") && _); [simpl; auto|].
  match goal with
  | |- context [Ledger.createTransaction ?d f db] =>
      destruct (handler_ledger_call d f db) as [K|K];
      destruct (Ledger.createTransaction d f db) as [[e|x] db1]
  end; simpl in *; eauto.
Qed.

Lemma generateQRCode_users (addHours : Z -> Z -> Z)
    (toISOString : Z -> string) (env : option string) (uuid : string)
    (t0 t : Z) (sf : bool) (gymId : string) (db : Db.t) :
  Db.users (snd (QrController.generateQRCode addHours toISOString env uuid
                   t0 t sf gymId db)) = Db.users db.
Proof.
  unfold QrController.generateQRCode.
  destruct (QrController.findGymById (JStr gymId) db) as [e|[gym|]];
    try reflexivity.
  destruct sf; reflexivity.
Qed.

Lemma deleteUserRoute_store (delete_fails : bool) (caller : User.doc)
    (id : string) (db : Db.t) :
  let db' := snd (UserController.deleteUserRoute delete_fails caller id db)
  in
  db' = db
  \/ exists target, db' = Db.deleteUser (User._id target) db.
Proof.
  unfold UserController.deleteUserRoute.
  destruct (Middleware.restrictTo _ caller); try (simpl; auto).
  destruct (Middleware.canManageUser caller id db); try (simpl; auto).
  unfold UserController.deleteUser.
  destruct (Middleware.findUserById (JStr id) db) as [e|[target|]];
    try (simpl; auto).
  destruct (_ && _); [simpl; auto|].
  destruct delete_fails; simpl; eauto.
Qed.

(** Whom [canManageUser] lets an administrator change is whom the
    administrator may set the points of. *)
Lemma admin_may_set_points (caller target : User.doc) (id : string)
    (db : Db.t) :
  UserController.is_admin (User.role caller) = true ->
  Middleware.findUserById (JStr id) db = inr (Some target) ->
  (Middleware.canManageUser caller id db = Middleware.Next
   <-> Spec.may_set_points caller target).
Proof.
  intros Ha Hf. unfold Spec.may_set_points, Middleware.canManageUser.
  destruct (User.role caller); try discriminate Ha.
  - split; auto.
  - rewrite Hf. destruct (User.role target); simpl; split;
      try discriminate; auto;
      intros [K|[_ [K|K]]]; discriminate K.
Qed.

(** What a validated body makes of the path [points]. *)
Lemma validated_points (toNumber : string -> option Q) (caller : User.doc)
    (b : UserController.update_body) (user : User.doc) :
  UserController.update_errors toNumber caller b = [] ->
  UserController.assigns_points caller b = true ->
  Spec.holds_value toNumber (UserController.points b)
    (User.stored_points (UserController.apply_update toNumber caller b user)).
Proof.
  unfold UserController.update_errors, Spec.holds_value. intros He Ha.
  apply app_eq_nil in He as [_ He]. apply app_eq_nil in He as [He _].
  cbn [UserController.apply_update User.stored_points].
  rewrite Ha in *.
  destruct (Mongoose.castNumber toNumber (UserController.points b))
    as [|n|]; [reflexivity | | discriminate He].
  split; [reflexivity|].
  destruct (Ledger.Qltb n 0) eqn:E; [discriminate He|].
  unfold Ledger.Qltb in E. apply negb_false_iff in E.
  apply Qle_bool_iff. exact E.
Qed.

Lemma strict_eq_undefined (v : jsval) :
  strict_eq v JUndefined = true <-> v = JUndefined.
Proof. destruct v; simpl; split; congruence. Qed.

(** C5 (as amended).  Of the endpoints that write, the manual grant left
    aside, an account's points are changed only by a ledger call that is
    applied to the account (through a scan or a manual transaction), by the
    deletion of the account, and by the user update of a SUPER_ADMIN, or
    of an ADMIN for an account of role GYM or USER, whose body carries
    [points]: the path then holds the value of the body, [null] or a
    number that is not negative, and no transaction record is written.
    And every such user update that is validated and saved does write the
    value. *)
Theorem points_change_by_ledger_or_admin_update
    (addHours : Z -> Z -> Z) (toISOString : Z -> string)
    (toNumber : string -> option Q) (caller : User.doc) :
  (forall (r : Api.request) (db : Db.t) (uid : ObjectId.t),
     let db' := Api.handle addHours toISOString toNumber caller r db in
     Db.stored_points uid db' = Db.stored_points uid db
     \/ Spec.by_ledger uid db db'
     \/ Spec.by_admin_update toNumber caller r uid db db'
     \/ Spec.by_deletion r uid db'
     \/ Spec.manual_grant r)
  /\ (forall (id : string) (b : UserController.update_body) (db : Db.t)
        (target : User.doc),
        Middleware.findUserById (JStr id) db = inr (Some target) ->
        Spec.may_set_points caller target ->
        UserController.points b <> JUndefined ->
        UserController.update_errors toNumber caller b = [] ->
        Spec.by_admin_update toNumber caller (Api.PutUser true false id b)
          (User._id target) db
          (Api.handle addHours toISOString toNumber caller
             (Api.PutUser true false id b) db)).
Proof.
  split.
  - intros r db uid. destruct r as [env uuid t0 t sf gymId
                                   | now f qrData dev loc
                                   | valid sf id b
                                   | df id
                                   | f sf id b ip
                                   | f b ip]; cbn [Api.handle].
    + left. apply stored_points_users.
      destruct (Middleware.restrictTo _ caller); try reflexivity.
      destruct (Access.hasPermission _ caller); try reflexivity.
      apply generateQRCode_users.
    + destruct (Middleware.restrictTo _ caller); auto.
      destruct (scan_store now f (User._id caller) qrData dev loc db)
        as [K|[a K]].
      * left. cbv zeta. rewrite K. reflexivity.
      * destruct (by_ledger_account a uid _ _ K); auto.
    + cbv zeta.
      destruct (putUser_store toNumber valid sf caller id b db)
        as [E | (user & Hc & Hu & He & E)]; rewrite E; [auto|].
      pose proof Hu as Hu'. apply findUserById_found in Hu' as [Hf _].
      unfold Db.stored_points at 1 2.
      rewrite (findUser_saveUser_found user
                 (UserController.apply_update toNumber caller b user) db
                 uid Hf eq_refl).
      destruct (ObjectId.eqb uid (User._id user)) eqn:Eb; [|auto].
      apply String.eqb_eq in Eb. subst uid. rewrite Hf.
      destruct (UserController.assigns_points caller b) eqn:Ha.
      2:{ left. cbn [option_map UserController.apply_update
                       User.stored_points].
          rewrite Ha. reflexivity. }
      right. right. left.
      pose proof Ha as Ha'. unfold UserController.assigns_points in Ha'.
      apply andb_true_iff in Ha' as [Hadm Hdef].
      exists valid, sf, id, b, user,
        (User.stored_points
           (UserController.apply_update toNumber caller b user)).
      split; [reflexivity|]. split; [exact Hu|]. split; [reflexivity|].
      split; [apply (admin_may_set_points caller user id db Hadm Hu), Hc|].
      split.
      { intros K. rewrite K in Hdef. discriminate Hdef. }
      split.
      { unfold Db.stored_points.
        rewrite (findUser_saveUser_found user
                   (UserController.apply_update toNumber caller b user) db
                   (User._id user) Hf eq_refl).
        unfold ObjectId.eqb. rewrite String.eqb_refl. reflexivity. }
      split; [apply validated_points; assumption | reflexivity].
    + cbv zeta.
      destruct (deleteUserRoute_store df caller id db) as [K|[target K]];
        rewrite K; [auto|].
      destruct (ObjectId.eqb uid (User._id target)) eqn:Eb.
      * right. right. right. left. exists df, id.
        split; [reflexivity|]. rewrite findUser_deleteUser, Eb.
        reflexivity.
      * left. unfold Db.stored_points.
        rewrite findUser_deleteUser, Eb. reflexivity.
    + right. right. right. right. exists f, sf, id, b, ip. reflexivity.
    + destruct (postTransaction_store f caller b ip db) as [K|[a K]].
      * left. cbv zeta. rewrite K. reflexivity.
      * destruct (by_ledger_account a uid _ _ K); auto.
  - intros id b db target Hu Hm Hp He. cbn [Api.handle].
    assert (Hadm : UserController.is_admin (User.role caller) = true).
    { destruct Hm as [K|[K _]]; rewrite K; reflexivity. }
    assert (Hc : Middleware.canManageUser caller id db = Middleware.Next)
      by (apply (admin_may_set_points caller target id db Hadm Hu), Hm).
    assert (Ha : UserController.assigns_points caller b = true).
    { unfold UserController.assigns_points. rewrite Hadm. simpl.
      apply negb_true_iff.
      destruct (strict_eq (UserController.points b) JUndefined) eqn:K;
        [|reflexivity].
      apply strict_eq_undefined in K. contradiction. }
    assert (E : snd (UserController.putUser toNumber true false caller id
                       b db)
                = Db.saveUser
                    (UserController.apply_update toNumber caller b target)
                    db).
    { unfold UserController.putUser. rewrite Hc.
      unfold UserController.updateUser. cbn [negb].
      replace (Middleware.role_eqb (User.role caller) User.USER)
        with false
        by (destruct Hm as [K|[K _]]; rewrite K; reflexivity).
      cbn [andb]. rewrite Hu, He. reflexivity. }
    rewrite E.
    pose proof Hu as Hu'. apply findUserById_found in Hu' as [Hf _].
    exists true, false, id, b, target,
      (User.stored_points
         (UserController.apply_update toNumber caller b target)).
    split; [reflexivity|]. split; [exact Hu|]. split; [reflexivity|].
    split; [exact Hm|]. split; [exact Hp|]. split.
    { unfold Db.stored_points.
      rewrite (findUser_saveUser_found target
                 (UserController.apply_update toNumber caller b target) db
                 (User._id target) Hf eq_refl).
      unfold ObjectId.eqb. rewrite String.eqb_refl. reflexivity. }
    split; [apply validated_points; assumption | reflexivity].
Qed.

(** C5, the claim as written fails: an administrator's user update sets a
    member's points from 5 to 999, and to [null], with no record written
    and without any ledger call being applied. *)
Lemma admin_update_sets_balance_directly :
  let db := Sample.store 5 30 None in
  let put := fun v =>
    Api.handle QrGenerator.utcAddHours Sample.isoStamp Sample.readNumber
      Sample.administrator
      (Api.PutUser true false Sample.member (Sample.with_points v)) db in
  Db.stored_points Sample.member db = Some (Some 5)
  /\ Db.stored_points Sample.member (put (JNum 999)) = Some (Some 999)
  /\ Db.transactions (put (JNum 999)) = []
  /\ ~ Spec.by_ledger Sample.member db (put (JNum 999))
  /\ Db.stored_points Sample.member (put JNull) = Some None.
Proof.
  repeat split; try reflexivity.
  intros (d & f & x & E & _). apply applied_log_grows in E.
  discriminate E.
Qed.
